(** * The HPCSerA Snakemake workflow service: run daemon and agent poller

    A shallow embedding of [BA_Code/Agent/snakeD/snakeD.py] (the run daemon)
    and [BA_Code/Agent/HPCSerA-Agent/agent.py] (the agent poller), together
    with the Python built-ins the two scripts rely on, and the properties of
    the natural-language specification stated and settled against them.

    Conventions of the embedding.
    - A Python [str] is a [string] of ASCII characters; text outside ASCII
      is not represented.
    - A Python [int] is a [Z].
    - A Python [float] is an IEEE binary64 value, kept as an exact dyadic
      number [m * 2^e] together with the two infinities and NaN.
    - A value obtained from [json.load] is a [json] tree; objects keep their
      members in insertion order, as Python dictionaries do.
    - [try ... except Exception] is modelled by [option] or by the
      [outcome] type below: [None] or [Raise] is the exceptional exit. *)

From Stdlib Require Import ZArith List String Ascii Bool Lia Sorted Permutation.
Import ListNotations.
Local Open Scope string_scope.
Local Open Scope Z_scope.

(** ** Python built-ins *)

Module Py.

(** *** Character classes *)

Definition ord (c : ascii) : Z := Z.of_N (N_of_ascii c).

Definition chr (z : Z) : ascii := ascii_of_N (Z.to_N z).

(** [str.isspace] on ASCII: TAB, LF, VT, FF, CR, FS, GS, RS, US and SPACE. *)
Definition is_space (c : ascii) : bool :=
  ((9 <=? ord c) && (ord c <=? 13)) || ((28 <=? ord c) && (ord c <=? 32)).

Definition is_digit (c : ascii) : bool := (48 <=? ord c) && (ord c <=? 57).

Definition digit_val (c : ascii) : Z := ord c - 48.

Definition is_upper (c : ascii) : bool := (65 <=? ord c) && (ord c <=? 90).

Definition is_lower (c : ascii) : bool := (97 <=? ord c) && (ord c <=? 122).

(** The class [\w] of the [re] module on ASCII text. *)
Definition is_word (c : ascii) : bool :=
  is_digit c || is_upper c || is_lower c || (ord c =? 95).

Definition upper_char (c : ascii) : ascii :=
  if is_lower c then chr (ord c - 32) else c.

Definition lower_char (c : ascii) : ascii :=
  if is_upper c then chr (ord c + 32) else c.

(** *** String methods *)

Fixpoint upper (s : string) : string :=
  match s with
  | EmptyString => EmptyString
  | String c s' => String (upper_char c) (upper s')
  end.

Fixpoint lstrip (s : string) : string :=
  match s with
  | EmptyString => EmptyString
  | String c s' => if is_space c then lstrip s' else s
  end.

Fixpoint rstrip (s : string) : string :=
  match s with
  | EmptyString => EmptyString
  | String c s' =>
      match rstrip s' with
      | EmptyString => if is_space c then EmptyString else String c EmptyString
      | r => String c r
      end
  end.

(** [s.strip()] *)
Definition strip (s : string) : string := lstrip (rstrip s).

(** [s.rstrip(chars)] for a one-character set. *)
Fixpoint rstrip_char (x : ascii) (s : string) : string :=
  match s with
  | EmptyString => EmptyString
  | String c s' =>
      match rstrip_char x s' with
      | EmptyString => if (c =? x)%char then EmptyString else String c EmptyString
      | r => String c r
      end
  end.

(** The text of a child process run with [text=True], and of a file read in
    text mode: CR LF and CR have become LF. *)
Fixpoint universal_newlines (s : string) : string :=
  match s with
  | EmptyString => EmptyString
  | String c s' =>
      if (c =? "013")%char then
        String "010" match s' with
                     | String "010" s'' => universal_newlines s''
                     | _ => universal_newlines s'
                     end
      else String c (universal_newlines s')
  end.

(** [s.split(sep)] for a one-character separator. *)
Fixpoint split (sep : ascii) (s : string) : list string :=
  match s with
  | EmptyString => [EmptyString]
  | String c s' =>
      if (c =? sep)%char then EmptyString :: split sep s'
      else match split sep s' with
           | [] => [String c EmptyString]
           | p :: ps => String c p :: ps
           end
  end.

Definition startswith (s p : string) : bool := prefix p s.

Fixpoint drop (n : nat) (s : string) : string :=
  match n, s with
  | O, _ => s
  | S _, EmptyString => EmptyString
  | S k, String _ s' => drop k s'
  end.

(** [s[:-1]] *)
Fixpoint drop_last (s : string) : string :=
  match s with
  | EmptyString => EmptyString
  | String c EmptyString => EmptyString
  | String c s' => String c (drop_last s')
  end.

Fixpoint last_char (s : string) : option ascii :=
  match s with
  | EmptyString => None
  | String c EmptyString => Some c
  | String _ s' => last_char s'
  end.

(** [s.endswith(c)] for a one-character suffix. *)
Definition endswith_char (s : string) (x : ascii) : bool :=
  match last_char s with
  | Some c => (c =? x)%char
  | None => false
  end.

(** [sub in s] *)
Fixpoint contains (sub s : string) : bool :=
  prefix sub s ||
  match s with
  | EmptyString => false
  | String _ s' => contains sub s'
  end.

(** [s.replace(old, "")] for a non-empty [old]: every occurrence found
    scanning from the left is removed, occurrences do not overlap. [skip]
    counts the characters of a removed occurrence still to be passed. *)
Fixpoint remove_from (skip : nat) (old s : string) : string :=
  match s with
  | EmptyString => EmptyString
  | String c s' =>
      match skip with
      | S k => remove_from k old s'
      | O => if prefix old s then remove_from (String.length old - 1) old s'
             else String c (remove_from O old s')
      end
  end.

Definition remove_all (old s : string) : string := remove_from O old s.

(** [s.isnumeric()] and [s.isdigit()] on ASCII. *)
Fixpoint all_digits (s : string) : bool :=
  match s with
  | EmptyString => true
  | String c s' => is_digit c && all_digits s'
  end.

Definition isdigit (s : string) : bool :=
  match s with
  | EmptyString => false
  | _ => all_digits s
  end.

(** *** [int(str)]

    Surrounding white space, an optional sign, then decimal digits in which
    single underscores may separate digits, at most 4300 digits in all.
    [None] is [ValueError]. The white space [int] and [float] skip is that
    of the C locale, TAB to CR and SPACE: the separators 0x1C to 0x1F, which
    [str.strip] removes, are refused by both. *)

Definition is_c_space (c : ascii) : bool :=
  ((9 <=? ord c) && (ord c <=? 13)) || (ord c =? 32).

Fixpoint c_lstrip (s : string) : string :=
  match s with
  | EmptyString => EmptyString
  | String c s' => if is_c_space c then c_lstrip s' else s
  end.

Fixpoint c_rstrip (s : string) : string :=
  match s with
  | EmptyString => EmptyString
  | String c s' =>
      match c_rstrip s' with
      | EmptyString => if is_c_space c then EmptyString else String c EmptyString
      | r => String c r
      end
  end.

Definition c_strip (s : string) : string := c_lstrip (c_rstrip s).

Fixpoint digits_acc (acc : Z) (after_us : bool) (s : string) : option Z :=
  match s with
  | EmptyString => if after_us then None else Some acc
  | String c s' =>
      if is_digit c then digits_acc (10 * acc + digit_val c) false s'
      else if (c =? "_")%char then
        if after_us then None else digits_acc acc true s'
      else None
  end.

(** The limit on the number of digits of an integer literal
    ([sys.get_int_max_str_digits()]): every digit counts, leading zeros
    too, underscores do not. *)
Definition max_str_digits : Z := 4300.

Fixpoint count_digits (s : string) : Z :=
  match s with
  | EmptyString => 0
  | String c s' => (if is_digit c then 1 else 0) + count_digits s'
  end.

Definition digitpart (s : string) : option Z :=
  match s with
  | EmptyString => None
  | String c _ =>
      if is_digit c then
        match digits_acc 0 false s with
        | Some z => if max_str_digits <? count_digits s then None else Some z
        | None => None
        end
      else None
  end.

Definition signed (body : string -> option Z) (s : string) : option Z :=
  match s with
  | String "-" s' => option_map Z.opp (body s')
  | String "+" s' => body s'
  | _ => body s
  end.

Definition int_of_str (s : string) : option Z := signed digitpart (c_strip s).

(** [str(int)] *)
Fixpoint dec_digits (fuel : nat) (n : Z) (acc : string) : string :=
  match fuel with
  | O => acc
  | S k =>
      let acc' := String (chr (48 + n mod 10)) acc in
      if n <? 10 then acc' else dec_digits k (n / 10) acc'
  end.

Definition str_of_int (z : Z) : string :=
  if z <? 0 then String "-" (dec_digits (S (Z.to_nat (Z.log2 (- z)))) (- z) EmptyString)
  else dec_digits (S (Z.to_nat (Z.log2 z))) z EmptyString.

(** An [int] in an f-string: [ValueError] when it has more than 4300
    digits. *)
Definition format_int (z : Z) : option string :=
  if 10 ^ max_str_digits <=? Z.abs z then None else Some (str_of_int z).

(** *** [float]

    A finite binary64 value is kept as the exact dyadic number
    [m * 2^e]; the rounding of a rational to the nearest representable
    value (ties to even) is written out on integers. *)

Inductive pyfloat : Type :=
| FNum (m e : Z)
| FInf (negative : bool)
| FNaN.

(** [floor (log2 (p / q))] for positive [p] and [q]. *)
Definition ilog2_ratio (p q : Z) : Z :=
  let e0 := Z.log2 p - Z.log2 q in
  if p * 2 ^ Z.max 0 (- e0) <? q * 2 ^ Z.max 0 e0 then e0 - 1 else e0.

(** [n / d] rounded to the nearest integer, ties to even ([0 <= n], [0 < d]). *)
Definition round_half_even (n d : Z) : Z :=
  let f := n / d in
  match 2 * (n mod d) ?= d with
  | Lt => f
  | Gt => f + 1
  | Eq => if Z.even f then f else f + 1
  end.

(** The binary64 value nearest to [p / q] ([0 <= p], [0 < q]): 53 bits of
    mantissa, unit in the last place no smaller than [2^-1074], overflow
    from [2^1024] on. [None] is overflow. *)
Definition round_binary64 (p q : Z) : option (Z * Z) :=
  if p =? 0 then Some (0, 0)
  else
    let e := ilog2_ratio p q in
    let ue := Z.max (e - 52) (- 1074) in
    let m := round_half_even (p * 2 ^ Z.max 0 (- ue)) (q * 2 ^ Z.max 0 ue) in
    if (0 <? ue) && (2 ^ (1024 - ue) <=? m) then None else Some (m, ue).

Definition float_of_ratio (negative : bool) (p q : Z) : pyfloat :=
  match round_binary64 p q with
  | Some (m, e) => FNum (if negative then - m else m) e
  | None => FInf negative
  end.

(** [a / b] on two [int]s, [0 < b]: the correctly rounded quotient;
    [None] is [OverflowError]. *)
Definition true_div (a b : Z) : option pyfloat :=
  match float_of_ratio (a <? 0) (Z.abs a) b with
  | FInf _ => None
  | f => Some f
  end.

(** [x * 1024]: exact up to overflow. *)
Definition fmul_1024 (x : pyfloat) : pyfloat :=
  match x with
  | FNum m e =>
      if 2 ^ 1024 <=? Z.abs m * 2 ^ Z.max 0 (e + 10) then FInf (m <? 0)
      else FNum m (e + 10)
  | _ => x
  end.

(** [int(x)]: truncation toward zero; [None] is [ValueError] on NaN and
    [OverflowError] on an infinity. *)
Definition int_of_float (x : pyfloat) : option Z :=
  match x with
  | FNum m e => Some (if 0 <=? e then m * 2 ^ e else Z.quot m (2 ^ (- e)))
  | _ => None
  end.

(** Underscores in a numeric literal: allowed between two digits only. *)
Fixpoint drop_underscores (prev : ascii) (s : string) : option string :=
  match s with
  | EmptyString => if (prev =? "_")%char then None else Some EmptyString
  | String c s' =>
      if (c =? "_")%char then
        if is_digit prev then drop_underscores c s' else None
      else if (prev =? "_")%char && negb (is_digit c) then None
      else option_map (String c) (drop_underscores c s')
  end.

Fixpoint span_digits (s : string) : string * string :=
  match s with
  | EmptyString => (EmptyString, EmptyString)
  | String c s' =>
      if is_digit c then let (d, r) := span_digits s' in (String c d, r)
      else (EmptyString, s)
  end.

Fixpoint dec_value (acc : Z) (s : string) : Z :=
  match s with
  | EmptyString => acc
  | String c s' => dec_value (10 * acc + digit_val c) s'
  end.

(** The exponent part of a decimal literal, which has to reach the end of
    the text: nothing, or [e], an optional sign and at least one digit. *)
Definition exponent_part (s : string) : option Z :=
  match s with
  | EmptyString => Some 0
  | String c s' =>
      if (upper_char c =? "E")%char then
        let (negative, s1) :=
          match s' with
          | String "-" r => (true, r)
          | String "+" r => (false, r)
          | _ => (false, s')
          end in
        match s1 with
        | EmptyString => None
        | _ => if all_digits s1
               then Some (if negative then - dec_value 0 s1 else dec_value 0 s1)
               else None
        end
      else None
  end.

(** A decimal literal [digits [. digits] [exponent]] with at least one
    digit before the exponent, as the pair [(n, t)] of its value [n * 10^t]. *)
Definition decimal_literal (s : string) : option (Z * Z) :=
  let (ip, r1) := span_digits s in
  let (fp, r2) :=
    match r1 with
    | String "." r => span_digits r
    | _ => (EmptyString, r1)
    end in
  match (ip ++ fp)%string with
  | EmptyString => None
  | ds =>
      match exponent_part r2 with
      | Some x => Some (dec_value 0 ds, x - Z.of_nat (String.length fp))
      | None => None
      end
  end.

Definition inf_or_nan (negative : bool) (s : string) : option pyfloat :=
  let u := upper s in
  if (u =? "INF")%string || (u =? "INFINITY")%string then Some (FInf negative)
  else if (u =? "NAN")%string then Some FNaN
  else None.

Definition unsigned_float (negative : bool) (s : string) : option pyfloat :=
  match decimal_literal s with
  | Some (n, t) =>
      Some (if 0 <=? t then float_of_ratio negative (n * 10 ^ t) 1
            else float_of_ratio negative n (10 ^ (- t)))
  | None => inf_or_nan negative s
  end.

(** [float(str)]; [None] is [ValueError]. *)
Definition float_of_str (s : string) : option pyfloat :=
  match drop_underscores "000" (c_strip s) with
  | None => None
  | Some t =>
      match t with
      | String "-" r => unsigned_float true r
      | String "+" r => unsigned_float false r
      | _ => unsigned_float false t
      end
  end.

(** *** Values read from JSON

    Numbers are integers: the documents exchanged by the services carry no
    fractional number. [json.load] refuses an integer of more than 4300
    digits, so the numbers of a document have at most that many. *)

#[warnings="-register-all"] Inductive json : Type :=
| JNull
| JBool (b : bool)
| JInt (z : Z)
| JStr (s : string)
| JArr (elems : list json)
| JObj (members : list (string * json)).

Definition dict : Type := list (string * json).

(** Truth value of a Python object. *)
Definition truthy (v : json) : bool :=
  match v with
  | JNull => false
  | JBool b => b
  | JInt z => negb (z =? 0)
  | JStr s => negb (s =? "")%string
  | JArr l => match l with [] => false | _ => true end
  | JObj m => match m with [] => false | _ => true end
  end.

(** [x or default] *)
Definition or_else (x default : json) : json := if truthy x then x else default.

(** [v == "text"] *)
Definition is_str (v : json) (text : string) : bool :=
  match v with
  | JStr s => (s =? text)%string
  | _ => false
  end.

Definition is_none (v : json) : bool :=
  match v with
  | JNull => true
  | _ => false
  end.

(** Exceptions raised by the built-ins and the two scripts. *)
Inductive exn : Type :=
| AttributeError
| KeyError
| TypeError
| ValueError
| OverflowError
| FileNotFoundError
| JSONDecodeError
| SystemExit.

Inductive outcome (A : Type) : Type :=
| Ok (a : A)
| Raise (e : exn).

Arguments Ok {A} a.
Arguments Raise {A} e.

Fixpoint dict_get (k : string) (d : dict) : option json :=
  match d with
  | [] => None
  | (k', v) :: d' => if (k' =? k)%string then Some v else dict_get k d'
  end.

(** [d[k] = v]: the binding is replaced in place, a new key goes last. *)
Fixpoint dict_set (k : string) (v : json) (d : dict) : dict :=
  match d with
  | [] => [(k, v)]
  | (k', v') :: d' =>
      if (k' =? k)%string then (k, v) :: d' else (k', v') :: dict_set k v d'
  end.

(** [k in d] *)
Definition dict_mem (k : string) (d : dict) : bool :=
  match dict_get k d with
  | Some _ => true
  | None => false
  end.

(** [v.get(k, default)] *)
Definition get_method (v : json) (k : string) (default : json) : outcome json :=
  match v with
  | JObj d => Ok (match dict_get k d with Some x => x | None => default end)
  | _ => Raise AttributeError
  end.

(** [v[k]] for a string key. *)
Definition getitem (v : json) (k : string) : outcome json :=
  match v with
  | JObj d => match dict_get k d with Some x => Ok x | None => Raise KeyError end
  | _ => Raise TypeError
  end.

(** [v[k] = x] for a string key. *)
Definition setitem (v : json) (k : string) (x : json) : outcome json :=
  match v with
  | JObj d => Ok (JObj (dict_set k x d))
  | _ => Raise TypeError
  end.

(** [v.setdefault(k, default)]: the object after the call. *)
Definition setdefault (v : json) (k : string) (default : json) : outcome json :=
  match v with
  | JObj d => Ok (JObj (if dict_mem k d then d else dict_set k default d))
  | _ => Raise AttributeError
  end.

(** [int(v)] *)
Definition int_of_json (v : json) : outcome Z :=
  match v with
  | JInt z => Ok z
  | JBool b => Ok (if b then 1 else 0)
  | JStr s => match int_of_str s with Some z => Ok z | None => Raise ValueError end
  | _ => Raise TypeError
  end.

(** [sep.join(l)] *)
Fixpoint join (sep : string) (l : list string) : string :=
  match l with
  | [] => EmptyString
  | [x] => x
  | x :: l' => x ++ sep ++ join sep l'
  end.

Definition hex_digit (n : Z) : ascii :=
  if n <? 10 then chr (48 + n) else chr (87 + n).

Fixpoint has_char (x : ascii) (s : string) : bool :=
  match s with
  | EmptyString => false
  | String c s' => (c =? x)%char || has_char x s'
  end.

Fixpoint escape_with (quote : ascii) (s : string) : string :=
  match s with
  | EmptyString => EmptyString
  | String c s' =>
      let rest := escape_with quote s' in
      if (c =? quote)%char || (c =? "\")%char then String "\" (String c rest)
      else if (c =? "009")%char then String "\" (String "t" rest)
      else if (c =? "010")%char then String "\" (String "n" rest)
      else if (c =? "013")%char then String "\" (String "r" rest)
      else if (ord c <? 32) || (126 <? ord c) then
        String "\" (String "x" (String (hex_digit (ord c / 16))
                                  (String (hex_digit (ord c mod 16)) rest)))
      else String c rest
  end.

(** [repr] of a [str]: single quotes unless the text holds a single quote
    and no double quote. *)
Definition repr_str (s : string) : string :=
  let quote := if has_char "'" s && negb (has_char "034" s) then "034"%char else "'"%char in
  String quote (escape_with quote s ++ String quote EmptyString).

Fixpoint repr (v : json) : string :=
  match v with
  | JNull => "None"
  | JBool true => "True"
  | JBool false => "False"
  | JInt z => str_of_int z
  | JStr s => repr_str s
  | JArr l => "[" ++ join ", " (map repr l) ++ "]"
  | JObj m =>
      "{" ++ join ", " (map (fun kv : string * json =>
                             let (k, x) := kv in repr_str k ++ ": " ++ repr x) m)
          ++ "}"
  end.

(** [str(v)], also what an f-string field prints. *)
Definition str (v : json) : string :=
  match v with
  | JStr s => s
  | _ => repr v
  end.

(** [sorted(l)] under a total pre-order given as a boolean test: a stable
    insertion sort. *)
Fixpoint insert_by {A : Type} (le : A -> A -> bool) (x : A) (l : list A) : list A :=
  match l with
  | [] => [x]
  | y :: l' => if le x y then x :: l else y :: insert_by le x l'
  end.

Fixpoint sorted_by {A : Type} (le : A -> A -> bool) (l : list A) : list A :=
  match l with
  | [] => []
  | x :: l' => insert_by le x (sorted_by le l')
  end.

End Py.

(** ** The run daemon, [snakeD.py]: resource parsers and run selection *)

Module SnakeD.
Import Py.

(** [parse_time_to_minutes] on a [str] argument. *)
Definition parse_time_text (time_str : string) : Z :=
  match split ":" (strip time_str) with
  | [p0; p1; p2] =>
      match int_of_str p0, int_of_str p1, int_of_str p2 with
      | Some h, Some m, Some s =>
          let total := h * 60 + m in
          let total := if 0 <? s then total + 1 else total in
          if total <? 1 then 1 else total
      | _, _, _ => 60
      end
  | _ => 60
  end.

(** [parse_time_to_minutes(time_str)]: [time_str or ""] is the text of a
    [str] and the empty text for a false value; any other true value has no
    [strip] method and takes the [except] branch. *)
Definition parse_time_to_minutes (time_str : json) : Z :=
  match time_str with
  | JStr s => parse_time_text s
  | _ => if truthy time_str then 60 else parse_time_text EmptyString
  end.

Definition float_then_int (s : string) (scale : pyfloat -> pyfloat) : option Z :=
  match float_of_str s with
  | Some x => int_of_float (scale x)
  | None => None
  end.

(** [parse_mem_to_mb] on a [str] argument. *)
Definition parse_mem_text (mem_str : string) : option Z :=
  let s := upper (strip mem_str) in
  match s with
  | EmptyString => None
  | _ =>
      if endswith_char s "G" then float_then_int (drop_last s) fmul_1024
      else if endswith_char s "M" then float_then_int (drop_last s) (fun x => x)
      else float_then_int s (fun x => x)
  end.

(** The part of a stripped, upper-case memory text handed to [float]. *)
Definition number_part (t : string) : string :=
  if endswith_char t "G" || endswith_char t "M" then drop_last t else t.

(** [parse_mem_to_mb(mem_str)]; [None] is the Python [None]. *)
Definition parse_mem_to_mb (mem_str : json) : option Z :=
  match mem_str with
  | JStr s => parse_mem_text s
  | _ => if truthy mem_str then None else parse_mem_text EmptyString
  end.

(** [(robj or {}).get("state", "")] *)
Definition run_state (robj : json) : outcome json :=
  get_method (or_else robj (JObj [])) "state" (JStr EmptyString).

(** The loop of [pick_queued_run] over [runs.items()]: a run whose state
    lookup raises is passed over. *)
Fixpoint queued_ids (runs : dict) : list string :=
  match runs with
  | [] => []
  | (rid, robj) :: rest =>
      match run_state robj with
      | Ok state => if is_str state "QUEUED" then rid :: queued_ids rest
                    else queued_ids rest
      | Raise _ => queued_ids rest
      end
  end.

Fixpoint mem_str (x : string) (l : list string) : bool :=
  match l with
  | [] => false
  | y :: l' => (y =? x)%string || mem_str x l'
  end.

(** The keys [int(x)] of a list of ids; [None] when one [int(x)] raises. *)
Fixpoint int_keys (l : list string) : option (list Z) :=
  match l with
  | [] => Some []
  | x :: l' =>
      match int_of_str x, int_keys l' with
      | Some z, Some zs => Some (z :: zs)
      | _, _ => None
      end
  end.

Definition int_key (x : string) : Z :=
  match int_of_str x with
  | Some z => z
  | None => 0
  end.

(** [sorted(queued, key=lambda x: int(x))[0]], and [sorted(queued)[0]]
    when a key raises. *)
Definition lowest (queued : list string) : option string :=
  match int_keys queued with
  | Some _ => hd_error (sorted_by (fun a b => int_key a <=? int_key b) queued)
  | None => hd_error (sorted_by String.leb queued)
  end.

(** [pick_queued_run(status)] for a [status] dictionary. *)
Definition pick_queued_run (status : dict) : option string :=
  match dict_get "runs" status with
  | Some (JObj ((_ :: _) as runs)) =>
      match queued_ids runs with
      | [] => None
      | queued =>
          let active := match dict_get "active_run_id" status with
                        | Some a => a
                        | None => JNull
                        end in
          if negb (is_none active) && mem_str (str active) queued
          then Some (str active)
          else lowest queued
      end
  | _ => None
  end.

(** The ids of the runs whose state is QUEUED, and the value of
    [active_run_id], as [pick_queued_run] reads them from [status]. *)
Definition queued_of (status : dict) : list string :=
  match dict_get "runs" status with
  | Some (JObj runs) => queued_ids runs
  | _ => []
  end.

Definition active_of (status : dict) : json :=
  match dict_get "active_run_id" status with
  | Some a => a
  | None => JNull
  end.

(** The [mem_mb_per_cpu] computation of [ensure_profile]. *)
Definition mem_mb_per_cpu (cpus : json) (total_mem_mb : option Z) : option Z :=
  match int_of_json cpus with
  | Ok cpu_i =>
      let cpu_i := if cpu_i <? 1 then 1 else cpu_i in
      match total_mem_mb with
      | Some total =>
          match true_div total cpu_i with
          | Some q =>
              match int_of_float q with
              | Some n => Some (Z.max 1 n)
              | None => None
              end
          | None => None
          end
      | None => None
      end
  | Raise _ => None
  end.

(** [(resources or {}).get(k) or default] *)
Definition resource (resources : json) (k : string) (default : json) : outcome json :=
  match get_method (or_else resources (JObj [])) k JNull with
  | Ok v => Ok (or_else v default)
  | Raise e => Raise e
  end.

(** [int(cpus) if str(cpus).isdigit() else 1]; it stands outside the
    [try] of [ensure_profile], so a [ValueError] of [int] leaves the
    function. *)
Definition cpus_shown (cpus : json) : outcome Z :=
  if isdigit (str cpus) then int_of_json cpus else Ok 1.

(** The lines [ensure_profile] writes to [config.yaml]; formatting the
    runtime raises when it has more than 4300 digits. *)
Definition profile_lines (resources : json) : outcome (list string) :=
  match resource resources "job_name" (JStr "snakemake_job"),
        resource resources "partition" (JStr "medium"),
        resource resources "time" (JStr "01:00:00"),
        resource resources "cpus_per_task" (JInt 1),
        resource resources "mem" (JStr "2G") with
  | Ok job_name, Ok partition, Ok time_limit, Ok cpus, Ok mem =>
      let runtime_min := parse_time_to_minutes time_limit in
      let total_mem_mb := parse_mem_to_mb mem in
      match format_int runtime_min with
      | Some runtime =>
          match cpus_shown cpus with
          | Ok c =>
              let lines :=
                ["executor: slurm";
                 "jobs: 50";
                 "default-resources:";
                 "  slurm_partition: "
                   ++ String "034" (str partition ++ String "034" EmptyString);
                 "  runtime: " ++ runtime;
                 "  cpus_per_task: " ++ str_of_int c] in
              Ok (match mem_mb_per_cpu cpus total_mem_mb with
                  | Some n => app lines ["  mem_mb_per_cpu: " ++ str_of_int n]
                  | None => lines
                  end)
          | Raise e => Raise e
          end
      | None => Raise ValueError
      end
  | Raise e, _, _, _, _ => Raise e
  | _, Raise e, _, _, _ => Raise e
  | _, _, Raise e, _, _ => Raise e
  | _, _, _, Raise e, _ => Raise e
  | _, _, _, _, Raise e => Raise e
  end.

End SnakeD.

(** ** The run daemon: log scraper *)

Module Scraper.
Import Py.

(** A literal matched without regard to case; the text left after it. *)
Fixpoint lit_ci (p s : string) : option string :=
  match p with
  | EmptyString => Some s
  | String a p' =>
      match s with
      | String c s' => if (lower_char a =? lower_char c)%char then lit_ci p' s' else None
      | EmptyString => None
      end
  end.

(** [\s+]: white space is never followed by white space in the patterns
    below, so the longest run is the only one that can match. *)
Definition spaces1 (s : string) : option string :=
  match s with
  | String c s' => if is_space c then Some (lstrip s') else None
  | EmptyString => None
  end.

(** [(\d+)\b]: the longest run of digits, not followed by a word
    character; a shorter run would end between two digits, where [\b]
    fails. The result is the text of the group. *)
Definition id_here (s : string) : option string :=
  let (d, r) := span_digits s in
  match d with
  | EmptyString => None
  | _ =>
      match r with
      | String c _ => if is_word c then None else Some d
      | EmptyString => Some d
      end
  end.

(** The words of an announcement, each followed by [\s+], then the id. *)
Fixpoint words_then_id (ws : list string) (s : string) : option string :=
  match ws with
  | [] => id_here s
  | w :: ws' =>
      match lit_ci w s with
      | Some r =>
          match spaces1 r with
          | Some r' => words_then_id ws' r'
          | None => None
          end
      | None => None
      end
  end.

(** The leading [\b], given the character before the position. *)
Definition word_start (prev : option ascii) : bool :=
  match prev with
  | Some c => negb (is_word c)
  | None => true
  end.

(** A match of the pattern starting exactly here; its [group(1)]. *)
Definition match_here (ws : list string) (prev : option ascii) (s : string) : option string :=
  if word_start prev then words_then_id ws s else None.

(** [pattern.search(line)]: [group(1)] of the leftmost match. *)
Fixpoint search (ws : list string) (prev : option ascii) (s : string) : option string :=
  match match_here ws prev s with
  | Some d => Some d
  | None =>
      match s with
      | EmptyString => None
      | String c s' => search ws (Some c) s'
      end
  end.

(** The pattern matches somewhere in the line and captures [d]. *)
Definition announced (ws : list string) (line : string) (d : string) : Prop :=
  exists before rest,
    line = (before ++ rest)%string /\ match_here ws (last_char before) rest = Some d.

(** The leftmost match of the pattern in the line captures [d]. *)
Definition first_announced (ws : list string) (line : string) (d : string) : Prop :=
  exists before rest,
    line = (before ++ rest)%string
    /\ match_here ws (last_char before) rest = Some d
    /\ forall before' rest',
         line = (before' ++ rest')%string ->
         (String.length before' < String.length before)%nat ->
         match_here ws (last_char before') rest' = None.

(** [re.compile(r"\bSLURM\s+jobid\s+(\d+)\b", re.IGNORECASE)] *)
Definition pat_plugin : list string := ["SLURM"; "jobid"].

(** [re.compile(r"\bSubmitted\s+batch\s+job\s+(\d+)\b", re.IGNORECASE)] *)
Definition pat_sbatch : list string := ["Submitted"; "batch"; "job"].

(** The lines of a text file opened in text mode: LF, CR LF and CR end a
    line. The terminator is left out; neither pattern can match across it
    or needs it. *)
Fixpoint lines (s : string) : list string :=
  match s with
  | EmptyString => []
  | String c s' =>
      if (c =? "010")%char then EmptyString :: lines s'
      else if (c =? "013")%char then
        match s' with
        | String "010" s'' => EmptyString :: lines s''
        | _ => EmptyString :: lines s'
        end
      else
        match lines s' with
        | [] => [String c EmptyString]
        | l :: ls => String c l :: ls
        end
  end.

(** [m = pattern.search(line)] and, when there is a match,
    [int(m.group(1))] in its [try]: [None] when nothing matches and when
    [int] raises. *)
Definition found (ws : list string) (line : string) : option Z :=
  match search ws None line with
  | Some d => int_of_str d
  | None => None
  end.

(** One pass of the loop body: the plugin pattern first; the sbatch
    pattern when the plugin pattern finds nothing, and also when [int]
    raises on what it found, since that [except] only passes. *)
Definition line_id (line : string) : option Z :=
  match found pat_plugin line with
  | Some n => Some n
  | None => found pat_sbatch line
  end.

(** [job_ids.add(n)] on a set kept as a duplicate-free list. *)
Definition set_add (n : Z) (ids : list Z) : list Z :=
  if existsb (Z.eqb n) ids then ids else n :: ids.

Definition scan (text : string) : list Z :=
  fold_left (fun ids line =>
               match line_id line with
               | Some n => set_add n ids
               | None => ids
               end) (lines text) [].

(** [extract_slurm_job_ids_from_log(log_path)], given what is found at
    [log_path]: [None] when the file does not exist or cannot be read. *)
Definition extract_slurm_job_ids_from_log (log : option string) : list Z :=
  match log with
  | None => []
  | Some text => sorted_by Z.leb (scan text)
  end.

End Scraper.

(** ** Effects: a state threaded through code that may raise *)

Module Eff.
Import Py.

Definition M (S A : Type) : Type := S -> outcome A * S.

Definition ret {S A : Type} (a : A) : M S A := fun w => (Ok a, w).

Definition raise {S A : Type} (e : exn) : M S A := fun w => (Raise e, w).

Definition bind {S A B : Type} (c : M S A) (k : A -> M S B) : M S B :=
  fun w =>
    match c w with
    | (Ok a, w') => k a w'
    | (Raise e, w') => (Raise e, w')
    end.

(** A computation without effect that may raise. *)
Definition lift {S A : Type} (o : outcome A) : M S A := fun w => (o, w).

(** Reading the state. *)
Definition ask {S A : Type} (f : S -> A) : M S A := fun w => (Ok (f w), w).

Definition and_then {A B : Type} (o : outcome A) (k : A -> outcome B) : outcome B :=
  match o with
  | Ok a => k a
  | Raise e => Raise e
  end.

Module Notations.
Notation "x <- c ;; k" := (bind c (fun x => k))
  (at level 61, c at next level, right associativity).
Notation "c ;;; k" := (bind c (fun _ => k))
  (at level 61, right associativity).
End Notations.

End Eff.

(** ** The run daemon: status store, launch, monitor loop

    The daemon acts on the file system, the clock and the engine process.
    They are gathered in a [World] that is threaded through the code; what
    the daemon does to the outside is appended to the world's [trace]. *)

Module Daemon.
Import Py SnakeD Scraper Eff Eff.Notations.

(** What is found at the path of a status file. *)
Inductive file_state : Type :=
| Missing
| Unparsable
| Document (doc : json).

Inductive event : Type :=
| Printed (msg : string)
| Dumped (path : string) (obj : json)
| Replaced (src dst : string)
| MadeDirs (path : string)
| ProfileWritten (cfg_path : string) (lines : list string)
| Spawned (job_dir snakefile_path profile_dir log_path : string)
| Slept (seconds : Z).

(** What the daemon meets at one turn of its monitor loop: the content of
    the run log ([None]: no such file, or unreadable), and what the other
    parties have done to the status files since the last turn. *)
Record observation : Type := mkObservation {
  seen_log : option string;
  interference : (string -> file_state) -> string -> file_state
}.

(** The life of one engine process: the turns at which [proc.poll()]
    answers [None], the turn at which it answers [exit_code], and the
    moment after the loop at which the status file is read last. *)
Record engine_run : Type := mkEngineRun {
  while_running : list observation;
  at_exit : observation;
  exit_code : Z;
  after_exit : observation
}.

Record World : Type := mkWorld {
  home : string;
  listing : list string;
  is_dir : string -> bool;
  is_file : string -> bool;
  status_files : string -> file_state;
  clock : nat -> string;
  ticks : nat;
  engine_of : string -> engine_run;
  trace : list event
}.

Definition M : Type -> Type := Eff.M World.

Definition with_event (e : event) (w : World) : World :=
  mkWorld (home w) (listing w) (is_dir w) (is_file w) (status_files w)
          (clock w) (ticks w) (engine_of w) (trace w ++ [e])%list.

Definition with_files (f : string -> file_state) (w : World) : World :=
  mkWorld (home w) (listing w) (is_dir w) (is_file w) f
          (clock w) (ticks w) (engine_of w) (trace w).

Definition with_tick (w : World) : World :=
  mkWorld (home w) (listing w) (is_dir w) (is_file w) (status_files w)
          (clock w) (S (ticks w)) (engine_of w) (trace w).

Definition emit (e : event) : M unit := fun w => (Ok tt, with_event e w).

Definition set_files (f : string -> file_state) : M unit :=
  fun w => (Ok tt, with_files f w).

(** [now_ts()]: the next reading of the clock. *)
Definition now_ts : M string := fun w => (Ok (clock w (ticks w)), with_tick w).

Definition print (msg : string) : M unit := emit (Printed msg).

Definition update (f : string -> file_state) (path : string) (x : file_state)
  : string -> file_state :=
  fun p => if (p =? path)%string then x else f p.

(** [os.path.join(a, b)] *)
Definition path_join (a b : string) : string :=
  if startswith b "/" then b
  else if (a =? "")%string then b
  else if endswith_char a "/" then (a ++ b)%string
  else (a ++ "/" ++ b)%string.

(** [atomic_write_json(path, obj)] *)
Definition atomic_write_json (path : string) (obj : json) : M unit :=
  let tmp_path := (path ++ ".tmp")%string in
  emit (Dumped tmp_path obj) ;;;
  files <- ask status_files ;;
  set_files (update files tmp_path (Document obj)) ;;;
  emit (Replaced tmp_path path) ;;;
  files <- ask status_files ;;
  set_files (update (update files path (files tmp_path)) tmp_path Missing).

(** [with open(status_file) as f: status = json.load(f)] *)
Definition load_json (path : string) : M json :=
  files <- ask status_files ;;
  match files path with
  | Missing => raise FileNotFoundError
  | Unparsable => raise JSONDecodeError
  | Document doc => ret doc
  end.

(** In-place change of the member [v[k]] of a dictionary. *)
Definition update_at (v : json) (k : string) (f : json -> outcome json) : outcome json :=
  match getitem v k with
  | Ok x =>
      match f x with
      | Ok x' => setitem v k x'
      | Raise e => Raise e
      end
  | Raise e => Raise e
  end.

(** In-place change of [status["runs"][run_id]]. *)
Definition at_run (status : json) (run_id : string) (f : json -> outcome json)
  : outcome json :=
  update_at status "runs" (fun runs => update_at runs run_id f).

Definition executor_label : json := JStr "snakemake-executor-plugin-slurm".

Definition empty_slurm_record : json :=
  JObj [("executor", executor_label);
        ("job_ids", JArr []);
        ("jobs_submitted", JInt 0);
        ("last_update", JNull)].

(** [status["runs"][run_id][k] = x] *)
Definition set_run_field (status : json) (run_id k : string) (x : json) : M json :=
  lift (at_run status run_id (fun r => setitem r k x)).

(** [status["runs"][run_id].setdefault(k, {})] *)
Definition default_run_field (status : json) (run_id k : string) : M json :=
  lift (at_run status run_id (fun r => setdefault r k (JObj []))).

(** [status["runs"][run_id][k][k2] = x] *)
Definition set_run_subfield (status : json) (run_id k k2 : string) (x : json) : M json :=
  lift (at_run status run_id (fun r => update_at r k (fun t => setitem t k2 x))).

(** [status.setdefault("runs", {})] and
    [status["runs"].setdefault(run_id, {})] *)
Definition default_run (status : json) (run_id : string) : M json :=
  status <- lift (setdefault status "runs" (JObj [])) ;;
  lift (update_at status "runs" (fun runs => setdefault runs run_id (JObj []))).

(** Lines 370 to 385: the run is marked RUNNING in the loaded document. *)
Definition mark_running (status : json) (run_id log_name : string) : M json :=
  n <- lift (int_of_json (JStr run_id)) ;;
  status <- lift (setitem status "active_run_id" (JInt n)) ;;
  status <- default_run status run_id ;;
  status <- set_run_field status run_id "state" (JStr "RUNNING") ;;
  status <- default_run_field status run_id "timestamps" ;;
  started <- now_ts ;;
  status <- set_run_subfield status run_id "timestamps" "started" (JStr started) ;;
  status <- default_run_field status run_id "logs" ;;
  status <- set_run_subfield status run_id "logs" "snakemake" (JStr log_name) ;;
  set_run_field status run_id "slurm" empty_slurm_record.

(** The four assignments to [status["runs"][run_id]["slurm"]]. *)
Definition write_slurm (status : json) (run_id : string) (job_ids : list Z) : M json :=
  status <- set_run_subfield status run_id "slurm" "executor" executor_label ;;
  status <- set_run_subfield status run_id "slurm" "job_ids" (JArr (map JInt job_ids)) ;;
  status <- set_run_subfield status run_id "slurm" "jobs_submitted"
              (JInt (Z.of_nat (List.length job_ids))) ;;
  stamp <- now_ts ;;
  set_run_subfield status run_id "slurm" "last_update" (JStr stamp).

(** Lines 408 to 420: the document is loaded again, takes the ids found in
    the log and is saved. *)
Definition record_ids (status_file run_id : string) (job_ids : list Z) : M unit :=
  status <- load_json status_file ;;
  status <- default_run status run_id ;;
  status <- default_run_field status run_id "slurm" ;;
  status <- write_slurm status run_id (sorted_by Z.leb job_ids) ;;
  atomic_write_json status_file status.

(** What the other parties did to the status files before this turn. *)
Definition meet (o : observation) : M unit :=
  files <- ask status_files ;;
  set_files (interference o files).

(** One turn of the monitor loop up to the test of [rc]: the log is
    scraped, and the status file rewritten when the set of ids differs from
    [last_ids]. The result is the new [last_ids]. *)
Definition monitor_turn (status_file run_id : string) (last_ids : list Z)
  (o : observation) : M (list Z) :=
  meet o ;;;
  let job_ids := extract_slurm_job_ids_from_log (seen_log o) in
  if list_eq_dec Z.eq_dec job_ids last_ids then ret last_ids
  else record_ids status_file run_id job_ids ;;; ret job_ids.

(** Lines 398 to 426: the turns while the engine runs, each followed by
    [time.sleep(SLURM_ID_POLL_INTERVAL)], then the turn at which
    [proc.poll()] gives the exit code. *)
Fixpoint monitor (status_file run_id : string) (last_ids : list Z)
  (running : list observation) (last : observation) : M unit :=
  match running with
  | [] => monitor_turn status_file run_id last_ids last ;;; ret tt
  | o :: rest =>
      ids <- monitor_turn status_file run_id last_ids o ;;
      emit (Slept 5) ;;;
      monitor status_file run_id ids rest last
  end.

(** Lines 434 to 452: the terminal state of the run. *)
Definition finalize (status_file run_id : string) (code : Z) (o : observation) : M unit :=
  meet o ;;;
  status <- load_json status_file ;;
  let final_state := if code =? 0 then "FINISHED" else "FAILED" in
  status <- set_run_field status run_id "state" (JStr final_state) ;;
  status <- default_run_field status run_id "timestamps" ;;
  finished <- now_ts ;;
  status <- set_run_subfield status run_id "timestamps" "finished" (JStr finished) ;;
  status <- set_run_field status run_id "snakemake_exit_code" (JInt code) ;;
  let job_ids := extract_slurm_job_ids_from_log (seen_log o) in
  status <- default_run_field status run_id "slurm" ;;
  status <- write_slurm status run_id job_ids ;;
  atomic_write_json status_file status.

(** [os.path.isdir(v)] for a true value [v]: a [str] is a path; a number is
    taken as a file descriptor, none of which is a directory here; any
    other value is a [TypeError]. *)
Definition isdir_json (v : json) : M bool :=
  match v with
  | JStr p => ask (fun w => is_dir w p)
  | JInt _ | JBool _ => ret false
  | _ => raise TypeError
  end.

(** [os.path.join(job_dir, name)] for a [str] directory. *)
Definition join_json (job_dir : string) (name : json) : M string :=
  match name with
  | JStr n => ret (path_join job_dir n)
  | _ => raise TypeError
  end.

(** [ensure_profile(job_dir, run_id, resources)] *)
Definition ensure_profile (job_dir run_id : string) (resources : json) : M string :=
  let profile_dir := path_join job_dir (".mcse_profile_run" ++ run_id)%string in
  emit (MadeDirs profile_dir) ;;;
  let cfg_path := path_join profile_dir "config.yaml" in
  lines <- lift (profile_lines resources) ;;
  emit (ProfileWritten cfg_path lines) ;;;
  ret profile_dir.

(** [start_snakemake_with_plugin(job_dir, snakefile_name, profile_dir,
    log_path)]: the process handle is the life of the engine. *)
Definition start_snakemake_with_plugin (job_dir snakefile_name profile_dir log_path : string)
  : M engine_run :=
  let snakefile_path := path_join job_dir snakefile_name in
  emit (Spawned job_dir snakefile_path profile_dir log_path) ;;;
  ask (fun w => engine_of w log_path).

(** Lines 366 to 455 of [handle_job]: the selected run is launched,
    watched and brought to its terminal state. *)
Definition launch (job_id status_file : string) (status : json)
  (job_dir run_id snakefile_name : string) : M bool :=
  let log_name := ("snakemake_run" ++ run_id ++ ".log")%string in
  let log_path := path_join job_dir log_name in
  status <- mark_running status run_id log_name ;;
  atomic_write_json status_file status ;;;
  run <- lift (and_then (getitem status "runs") (fun runs => getitem runs run_id)) ;;
  requested <- lift (get_method run "requested_resources" (JObj [])) ;;
  let resources := or_else requested (JObj []) in
  profile_dir <- ensure_profile job_dir run_id resources ;;
  print ("[INFO] Starting Snakemake for job " ++ job_id ++ " run " ++ run_id
         ++ " using slurm executor plugin")%string ;;;
  proc <- start_snakemake_with_plugin job_dir snakefile_name profile_dir log_path ;;
  monitor status_file run_id [] (while_running proc) (at_exit proc) ;;;
  finalize status_file run_id (exit_code proc) (after_exit proc) ;;;
  print ("[INFO] Job " ++ job_id ++ " run " ++ run_id ++ " finished with exit code "
         ++ str_of_int (exit_code proc))%string ;;;
  ret true.

(** [handle_job(job_id, watch_dir)] *)
Definition handle_job (job_id watch_dir : string) : M bool :=
  let status_file := path_join watch_dir "status.json" in
  files <- ask status_files ;;
  match files status_file with
  | Missing => ret false
  | _ =>
      status <- load_json status_file ;;
      job_dir <- lift (get_method status "job_dir" JNull) ;;
      if negb (truthy job_dir) then
        print ("[ERROR] job_dir missing in status.json for job " ++ job_id)%string ;;;
        ret false
      else
        present <- isdir_json job_dir ;;
        if negb present then
          print ("[ERROR] job_dir does not exist for job " ++ job_id ++ ": "
                 ++ str job_dir)%string ;;;
          ret false
        else
          match status, pick_queued_run (match status with JObj d => d | _ => [] end) with
          | JObj _, Some run_id =>
              runs <- lift (get_method status "runs" (JObj [])) ;;
              found <- lift (get_method runs run_id (JObj [])) ;;
              let run_obj := or_else found (JObj []) in
              snakefile_name <- lift (get_method run_obj "snakefile" JNull) ;;
              if negb (truthy snakefile_name) then
                print ("[ERROR] snakefile missing for job " ++ job_id ++ " run "
                       ++ run_id)%string ;;;
                ret false
              else
                snakefile_path <- join_json (str job_dir) snakefile_name ;;
                is_there <- ask (fun w => is_file w snakefile_path) ;;
                if negb is_there then
                  print ("[ERROR] snakefile not found for job " ++ job_id ++ " run "
                         ++ run_id ++ ": " ++ snakefile_path)%string ;;;
                  ret false
                else
                  launch job_id status_file status (str job_dir) run_id
                         (str snakefile_name)
          | _, _ => ret false
          end
  end.

(** What has been appended to the trace between two worlds. *)
Definition events_since (w w' : World) : list event :=
  skipn (List.length (trace w)) (trace w').

(** The member [k] of [status["runs"][run_id]], if the path is there. *)
Definition run_of (status : json) (run_id : string) : outcome json :=
  and_then (getitem status "runs") (fun runs => getitem runs run_id).

Definition run_field (status : json) (run_id k : string) : outcome json :=
  and_then (run_of status run_id) (fun r => getitem r k).

Definition run_subfield (status : json) (run_id k k2 : string) : outcome json :=
  and_then (run_field status run_id k) (fun x => getitem x k2).

(** [WATCH_BASE_DIR] *)
Definition watch_base_dir (w : World) : string :=
  path_join (path_join (path_join (home w) "BA_Code") "Agent") "job-watch".

(** The [for] loop of [main_loop] over [os.listdir(WATCH_BASE_DIR)]. *)
Fixpoint visit (jobs : list string) : M unit :=
  match jobs with
  | [] => ret tt
  | job_id :: rest =>
      base <- ask watch_base_dir ;;
      let watch_dir := path_join base job_id in
      present <- ask (fun w => is_dir w watch_dir) ;;
      (if present then handle_job job_id watch_dir ;;; ret tt else ret tt) ;;;
      visit rest
  end.

(** One turn of the [while True] loop of [main_loop]. *)
Definition poll_cycle : M unit :=
  jobs <- ask listing ;;
  visit jobs ;;;
  emit (Slept 10).

Fixpoint cycles (n : nat) : M unit :=
  match n with
  | O => ret tt
  | S k => poll_cycle ;;; cycles k
  end.

(** [main_loop()], cut after [n] turns of its endless loop. An exception
    that leaves [handle_job] leaves [main_loop] and ends the process. *)
Definition main_loop (n : nat) : M unit :=
  print "[INFO] SnakeD started, polling for jobs..." ;;;
  base <- ask watch_base_dir ;;
  emit (MadeDirs base) ;;;
  cycles n.

End Daemon.

(** ** The agent poller, [agent.py]

    One invocation of the script. The remote queue, the environment and the
    helper programs are read from an [Env]; the calls the agent makes are
    appended to its [trace]. The credentials file is taken as loaded, and
    every request as answered. *)

Module Agent.
Import Py Eff Eff.Notations.

Inductive event : Type :=
| Executed (argv : list string)
| ChecksumPut (function_id checksum : string)
| StatePut (function_id state : string)
| SlurmStatePut (function_id state : string) (slurm_id : json).

Record Env : Type := mkEnv {
  home : option string;
  checksum_job : json;
  new_job : json;
  stdout_of : list string -> string;
  post_hook_exists : bool;
  trace : list event
}.

Definition M : Type -> Type := Eff.M Env.

Definition emit (e : event) : M unit :=
  fun w => (Ok tt, mkEnv (home w) (checksum_job w) (new_job w) (stdout_of w)
                         (post_hook_exists w) (trace w ++ [e])%list).

(** [subprocess.run(argv, shell=False, capture_output=True)]: the captured
    standard output. *)
Definition run (argv : list string) : M string :=
  emit (Executed argv) ;;;
  ask (fun w => stdout_of w argv).

(** [update_job_status(credentials, new_status, functionid)] *)
Definition update_job_status (new_status : string) (functionid : json) : M unit :=
  emit (StatePut (str functionid) new_status).

(** [update_slurm_id_running(credentials, slurm_id, function_id, state)] *)
Definition update_slurm_id_running (slurm_id function_id : json) (state : string)
  : M unit :=
  emit (SlurmStatePut (str function_id) state slurm_id).

(** [update_checksum(credentials, function_id, checksum)] *)
Definition update_checksum (function_id : json) (checksum : string) : M unit :=
  emit (ChecksumPut (str function_id) checksum).

(** [needle in v] *)
Fixpoint mem_json_str (needle : string) (l : list json) : bool :=
  match l with
  | [] => false
  | v :: l' => is_str v needle || mem_json_str needle l'
  end.

Definition contains_key (v : json) (needle : string) : outcome bool :=
  match v with
  | JObj d => Ok (dict_mem needle d)
  | JArr l => Ok (mem_json_str needle l)
  | JStr s => Ok (contains needle s)
  | _ => Raise TypeError
  end.

Fixpoint chars (s : string) : list json :=
  match s with
  | EmptyString => []
  | String c s' => JStr (String c EmptyString) :: chars s'
  end.

(** [*v] in a list display. *)
Definition unpack (v : json) : outcome (list json) :=
  match v with
  | JArr l => Ok l
  | JStr s => Ok (chars s)
  | JObj d => Ok (map (fun kv => JStr (fst kv)) d)
  | _ => Raise TypeError
  end.

(** The arguments of a child process have to be [str]. *)
Fixpoint strings (l : list json) : outcome (list string) :=
  match l with
  | [] => Ok []
  | JStr s :: l' => and_then (strings l') (fun r => Ok (s :: r))
  | _ :: _ => Raise TypeError
  end.

(** [home_dir + "/functions/" + name + ".sh"] *)
Definition script_path (home_dir : string) (name : json) : outcome string :=
  match name with
  | JStr n => Ok (home_dir ++ "/functions/" ++ n ++ ".sh")%string
  | _ => Raise TypeError
  end.

Definition home_or_exit : M string :=
  h <- ask home ;;
  match h with
  | Some d => if (d =? "")%string then raise SystemExit else ret d
  | None => raise SystemExit
  end.

(** [execute_function(job)] *)
Definition execute_function (job : json) : M string :=
  home_dir <- home_or_exit ;;
  name <- lift (getitem job "name") ;;
  script <- lift (script_path home_dir name) ;;
  args <- lift (getitem job "args") ;;
  args <- lift (unpack args) ;;
  function_id <- lift (getitem job "function_id") ;;
  run_args <- lift (strings (JStr script :: args ++ [JStr (str function_id)])%list) ;;
  run run_args.

(** [calculate_checksum(job)]: the script runs with [text=True], so the
    line ends of its output are translated before [strip]. *)
Definition calculate_checksum (job : json) : M string :=
  home_dir <- home_or_exit ;;
  args <- lift (getitem job "args") ;;
  args <- lift (unpack args) ;;
  function_id <- lift (getitem job "function_id") ;;
  run_args <- lift (strings (JStr (home_dir ++ "/functions/hash.sh")%string
                             :: args ++ [JStr (str function_id)])%list) ;;
  out <- run run_args ;;
  ret (strip (universal_newlines out)).

(** [run_post_slurm_command(function_id)] *)
Definition run_post_slurm_command (function_id : json) : M unit :=
  h <- ask home ;;
  match h with
  | None => raise TypeError
  | Some d =>
      present <- ask post_hook_exists ;;
      if present
      then run [Daemon.path_join (Daemon.path_join d ".viking") "post_slurm.sh";
                str function_id] ;;; ret tt
      else ret tt
  end.

(** [control_slurm_job_state(credentials, slurm_id, function_id)] *)
Definition control_slurm_job_state (slurm_id function_id : json) : M unit :=
  ret0 <- run ["sacct"; ("--jobs=" ++ str slurm_id)%string; "--format=State"; "--parsable2"] ;;
  let ret1 := remove_all (String "010" EmptyString) ret0 in
  let ret2 := remove_all "State" ret1 in
  if contains "PENDING" ret2 || contains "RUNNING" ret2 then ret tt
  else
    run_post_slurm_command function_id ;;;
    (if contains "CANCELLED" ret2
     then update_slurm_id_running slurm_id function_id "CANCELLED" else ret tt) ;;;
    (if contains "FAILED" ret2
     then update_slurm_id_running slurm_id function_id "FAILED" else ret tt) ;;;
    let ret3 := remove_all "COMPLETED" ret2 in
    if (String.length ret3 =? 0)%nat
    then update_slurm_id_running slurm_id function_id "COMPLETED"
    else update_slurm_id_running slurm_id function_id "ProbFAILED".

(** The accounting text [control_slurm_job_state] classifies: the output
    of [sacct] without its line ends and its [State] header. *)
Definition accounting_text (stdout : string) : string :=
  remove_all "State" (remove_all (String "010" EmptyString) stdout).

Definition sacct_argv (slurm_id : json) : list string :=
  ["sacct"; ("--jobs=" ++ str slurm_id)%string; "--format=State"; "--parsable2"].

(** The states sent to the remote queue, in the order of the calls. *)
Fixpoint states_put (tr : list event) : list string :=
  match tr with
  | [] => []
  | SlurmStatePut _ state _ :: rest => state :: states_put rest
  | StatePut _ state :: rest => state :: states_put rest
  | _ :: rest => states_put rest
  end.

(** The states a computation sends when started in [env]. *)
Definition states_sent {A : Type} (c : M A) (env : Env) : list string :=
  states_put (skipn (List.length (trace env)) (trace (snd (c env)))).

(** What a computation appends to the trace when started in [env]. *)
Definition events_of {A : Type} (c : M A) (env : Env) : list event :=
  skipn (List.length (trace env)) (trace (snd (c env))).

(** The first part of [main_loop]: the checksum workflow. *)
Definition checksum_step : M unit :=
  job <- ask checksum_job ;;
  match job with
  | JObj d =>
      if negb (dict_mem "Bad_request" d) then
        checksum <- calculate_checksum job ;;
        function_id <- lift (getitem job "function_id") ;;
        update_checksum function_id checksum
      else ret tt
  | _ => raise AttributeError
  end.

(** Lines 123 to 139 of [main_loop]: a job without a cluster id is
    executed and its output classified. *)
Definition run_fresh_job (job : json) : M unit :=
  out <- execute_function job ;;
  let trimmed := rstrip_char "010" out in
  let isBatchJob := isdigit trimmed || startswith out "Submitted batch job" in
  if isBatchJob then
    let slurm_id := if startswith out "Submitted batch job"
                    then drop 20 trimmed else trimmed in
    n <- lift (int_of_json (JStr slurm_id)) ;;
    function_id <- lift (getitem job "function_id") ;;
    update_slurm_id_running (JInt n) function_id "BatchJobRunning" ;;;
    raise SystemExit
  else
    function_id <- lift (getitem job "function_id") ;;
    update_job_status "FINISHED" function_id.

(** The second part of [main_loop], from [look_for_new_job] on. *)
Definition job_step : M unit :=
  job <- ask new_job ;;
  no_work <- lift (contains_key job "Bad_request") ;;
  if no_work then ret tt
  else
    malformed <- lift (contains_key job "type") ;;
    if malformed then raise SystemExit
    else
      slurm_id <- lift (getitem job "slurm_id") ;;
      if negb (is_none slurm_id) then
        function_id <- lift (getitem job "function_id") ;;
        control_slurm_job_state slurm_id function_id ;;;
        raise SystemExit
      else run_fresh_job job.

(** [main_loop()] *)
Definition main_loop : M unit :=
  checksum_step ;;;
  job_step.

End Agent.

(** * Saves and readers on a shared file system

    [atomic_write_json(path, obj)] in the steps in which the file system
    sees it: [open(tmp_path, "w")], the writes of the text that
    [json.dump(obj, f, indent=2)] produces, the [close] at the end of the
    [with] block, and [os.replace(tmp_path, path)]. The file object is
    buffered: what [json.dump] hands to [f.write] reaches the file when
    the buffer is full, and what is left of it at [close]; a document
    smaller than the buffer reaches the file in one piece, at [close]. A
    reader is [open(status_file)] followed by [json.load(f)], which reads
    the file it has opened. Between any two of these steps other processes
    may take theirs.

    The file system is the usual one: a directory maps a path to a file,
    a file keeps its text while some path or some open descriptor refers
    to it, [open(p, "w")] empties the file at [p] or makes a new one,
    a descriptor writes at its own offset, and [os.replace] moves a name
    from one file to another in one step. *)

Module Store.
Import Py.

Record Fs := mkFs {
  dir : string -> option nat;
  data : nat -> string;
  next : nat }.

Definition bind_path (d : string -> option nat) (p : string) (x : option nat)
  : string -> option nat :=
  fun q => if (q =? p)%string then x else d q.

Definition put (d : nat -> string) (i : nat) (text : string) : nat -> string :=
  fun j => if Nat.eqb j i then text else d j.

(** [open(p, "w")]: the file of [p] emptied, or a new file; the result is
    the file the descriptor refers to. *)
Definition open_w (p : string) (fs : Fs) : nat * Fs :=
  match dir fs p with
  | Some i => (i, mkFs (dir fs) (put (data fs) i EmptyString) (next fs))
  | None =>
      (next fs, mkFs (bind_path (dir fs) p (Some (next fs)))
                     (put (data fs) (next fs) EmptyString) (S (next fs)))
  end.

(** A write of [chunk] at offset [off] into a file with text [old]: bytes
    between the end of the file and the offset are zero. *)
Fixpoint write_at (off : nat) (chunk old : string) : string :=
  match off with
  | O => chunk ++ drop (String.length chunk) old
  | S n =>
      match old with
      | EmptyString => String zero (write_at n chunk EmptyString)
      | String c rest => String c (write_at n chunk rest)
      end
  end.

(** The buffer written out; an empty buffer leaves the file as it is. *)
Definition write (fd off : nat) (chunk : string) (fs : Fs) : Fs :=
  match chunk with
  | EmptyString => fs
  | _ => mkFs (dir fs) (put (data fs) fd (write_at off chunk (data fs fd))) (next fs)
  end.

(** [os.replace(src, dst)] *)
Definition os_replace (src dst : string) (fs : Fs) : outcome Fs :=
  match dir fs src with
  | Some i => Ok (mkFs (bind_path (bind_path (dir fs) dst (Some i)) src None)
                       (data fs) (next fs))
  | None => Raise FileNotFoundError
  end.

(** [s[:n]] *)
Fixpoint take (n : nat) (s : string) : string :=
  match n, s with
  | S k, String c s' => String c (take k s')
  | _, _ => EmptyString
  end.

(** Where a process is in [atomic_write_json]: in the [with] block, the
    file it has opened, the offset of its descriptor, and the part of the
    text that has not reached the file yet. *)
Inductive point : Type :=
  | Idle
  | Writing (fd off : nat) (rest : string)
  | Closed
  | Crashed (e : exn).

(** A process that saves to one path: where it is, and the texts it has
    still to save; the first is the one under way. *)
Record process := mkProcess {
  at_point : point;
  saves : list string }.

(** One step of [atomic_write_json(path, obj)]: the [open], the [close],
    which writes what has not been written, or the [os.replace]. *)
Definition atomic_write_json_step (path : string) (p : process) (fs : Fs) : process * Fs :=
  let tmp_path := (path ++ ".tmp")%string in
  match at_point p, saves p with
  | Idle, text :: _ =>
      let (fd, fs') := open_w tmp_path fs in
      (mkProcess (Writing fd 0 text) (saves p), fs')
  | Writing fd off rest, _ => (mkProcess Closed (saves p), write fd off rest fs)
  | Closed, _ :: rest =>
      match os_replace tmp_path path fs with
      | Ok fs' => (mkProcess Idle rest, fs')
      | Raise e => (mkProcess (Crashed e) (saves p), fs)
      end
  | _, _ => (p, fs)
  end.

(** The buffer is written out within the [with] block: the next [k]
    characters reach the file. How many they are depends on the size of
    the buffer and on the pieces handed to [f.write]. *)
Definition flush (k : nat) (p : process) (fs : Fs) : process * Fs :=
  match at_point p with
  | Writing fd off rest =>
      (mkProcess (Writing fd (off + String.length (take k rest)) (drop k rest)) (saves p),
       write fd off (take k rest) fs)
  | _ => (p, fs)
  end.

(** The processes that save, the files that readers have open, and the
    texts that readers have read. *)
Record System := mkSystem {
  files : Fs;
  processes : list process;
  held : list nat;
  seen : list string }.

Inductive action : Type :=
  | Work (i : nat)
  | Flush (i k : nat)
  | Open
  | Read (k : nat).

Fixpoint set_nth {A : Type} (i : nat) (x : A) (l : list A) : list A :=
  match l, i with
  | [], _ => []
  | _ :: l', O => x :: l'
  | y :: l', S j => y :: set_nth j x l'
  end.

Definition step (path : string) (a : action) (s : System) : System :=
  match a with
  | Work i =>
      match nth_error (processes s) i with
      | Some p =>
          let (p', fs') := atomic_write_json_step path p (files s) in
          mkSystem fs' (set_nth i p' (processes s)) (held s) (seen s)
      | None => s
      end
  | Flush i k =>
      match nth_error (processes s) i with
      | Some p =>
          let (p', fs') := flush k p (files s) in
          mkSystem fs' (set_nth i p' (processes s)) (held s) (seen s)
      | None => s
      end
  | Open =>
      match dir (files s) path with
      | Some i => mkSystem (files s) (processes s) (held s ++ [i]) (seen s)
      | None => s
      end
  | Read k =>
      match nth_error (held s) k with
      | Some i => mkSystem (files s) (processes s) (held s) (seen s ++ [data (files s) i])
      | None => s
      end
  end.

Definition run (path : string) (schedule : list action) (s : System) : System :=
  fold_left (fun s a => step path a s) schedule s.

(** A file system in which [path] names a file with the text [initial],
    and processes that have not yet begun their saves to [path]. *)
Definition start (path initial : string) (writers : list (list string)) : System :=
  mkSystem (mkFs (fun q => if (q =? path)%string then Some O else None)
                 (fun _ => initial) 1)
           (map (mkProcess Idle) writers) [] [].

(** The directory part of a path: [p[:p.rfind("/") + 1]]. *)
Fixpoint directory_of (p : string) : string :=
  match p with
  | EmptyString => EmptyString
  | String c rest =>
      if has_char "/" rest then String c (directory_of rest)
      else if (c =? "/")%char then String c EmptyString
      else EmptyString
  end.

End Store.

(** * Properties *)
(** ** Facts about the built-ins *)

Module PyFacts.
Import Py.

(** Comparisons on character codes are settled by case analysis. *)
Ltac zcases :=
  repeat match goal with
         | |- context [?a <=? ?b] => destruct (Z.leb_spec a b)
         | |- context [?a <? ?b] => destruct (Z.ltb_spec a b)
         | |- context [?a =? ?b] => destruct (Z.eqb_spec a b)
         | H : context [?a <=? ?b] |- _ => destruct (Z.leb_spec a b)
         | H : context [?a <? ?b] |- _ => destruct (Z.ltb_spec a b)
         | H : context [?a =? ?b] |- _ => destruct (Z.eqb_spec a b)
         end;
  simpl in *; try reflexivity; try discriminate; try lia.

Lemma digit_not_space c : is_digit c = true -> is_space c = false.
Proof. unfold is_digit, is_space. intros H. zcases. Qed.

Lemma digit_is_word c : is_digit c = true -> is_word c = true.
Proof. unfold is_word. intros ->. reflexivity. Qed.

Lemma digit_val_range c : is_digit c = true -> 0 <= digit_val c <= 9.
Proof. unfold is_digit, digit_val. intros H. zcases. Qed.

Lemma digit_neq c x : is_digit x = false -> is_digit c = true -> (c =? x)%char = false.
Proof.
  intros Hx Hc. destruct (Ascii.eqb_spec c x) as [->|]; [congruence | reflexivity].
Qed.

Lemma isdigit_cons s :
  isdigit s = true -> exists c s', s = String c s' /\ is_digit c = true /\ all_digits s' = true.
Proof.
  destruct s as [|c s']; simpl; [discriminate|].
  intros H. apply andb_true_iff in H. destruct H. eauto.
Qed.

Lemma isdigit_all s : isdigit s = true -> all_digits s = true.
Proof. destruct s; [discriminate | trivial]. Qed.

Lemma append_assoc (a b c : string) : ((a ++ b) ++ c = a ++ (b ++ c))%string.
Proof. induction a as [|x a IH]; simpl; [reflexivity | f_equal; exact IH]. Qed.

Lemma append_nil_r (a : string) : (a ++ EmptyString)%string = a.
Proof. induction a as [|x a IH]; simpl; [reflexivity | f_equal; exact IH]. Qed.

Lemma length_append (a b : string) :
  String.length (a ++ b) = (String.length a + String.length b)%nat.
Proof. induction a as [|x a IH]; simpl; [reflexivity | f_equal; exact IH]. Qed.

Lemma last_char_app a b : b <> EmptyString -> last_char (a ++ b) = last_char b.
Proof.
  intros Hb. induction a as [|c a IH]; simpl; [reflexivity|].
  rewrite IH. destruct (a ++ b)%string eqn:E; [|reflexivity].
  destruct a; simpl in E; [congruence | discriminate].
Qed.

Lemma last_char_digits s :
  isdigit s = true -> exists c, last_char s = Some c /\ is_digit c = true.
Proof.
  intros H. apply isdigit_cons in H. destruct H as (c & s' & -> & Hc & Hs).
  revert c Hc. induction s' as [|d s' IH]; intros c Hc; simpl.
  - eauto.
  - simpl in Hs. apply andb_true_iff in Hs. destruct Hs as [Hd Hs].
    destruct (IH Hs d Hd) as (x & Hx & Hdx). exists x. split; [|exact Hdx].
    simpl in Hx. exact Hx.
Qed.

Lemma rstrip_keeps s c :
  last_char s = Some c -> is_space c = false -> rstrip s = s.
Proof.
  induction s as [|a s IH]; simpl; [discriminate|].
  destruct s as [|b s'].
  - intros [= ->] ->. reflexivity.
  - intros H Hc. rewrite (IH H Hc). reflexivity.
Qed.

Lemma lstrip_keeps c s : is_space c = false -> lstrip (String c s) = String c s.
Proof. simpl. intros ->. reflexivity. Qed.

Lemma strip_keeps c s x :
  is_space c = false -> last_char (String c s) = Some x -> is_space x = false ->
  strip (String c s) = String c s.
Proof.
  intros Hc Hl Hx. unfold strip. rewrite (rstrip_keeps _ _ Hl Hx).
  apply lstrip_keeps, Hc.
Qed.

Lemma strip_digits s : isdigit s = true -> strip s = s.
Proof.
  intros H. destruct (last_char_digits _ H) as (x & Hx & Hdx).
  apply isdigit_cons in H. destruct H as (c & s' & -> & Hc & _).
  eapply strip_keeps; eauto using digit_not_space.
Qed.

Lemma digits_acc_value s : forall acc,
  all_digits s = true -> digits_acc acc false s = Some (dec_value acc s).
Proof.
  induction s as [|c s IH]; intros acc H; cbn [digits_acc dec_value all_digits] in *;
    [reflexivity|].
  apply andb_true_iff in H. destruct H as [Hc Hs]. rewrite Hc. apply IH, Hs.
Qed.

Lemma digit_not_c_space c : is_digit c = true -> is_c_space c = false.
Proof. unfold is_digit, is_c_space. intros H. zcases. Qed.

Lemma c_rstrip_keeps s c :
  last_char s = Some c -> is_c_space c = false -> c_rstrip s = s.
Proof.
  induction s as [|a s IH]; simpl; [discriminate|].
  destruct s as [|b s'].
  - intros [= ->] ->. reflexivity.
  - intros H Hc. rewrite (IH H Hc). reflexivity.
Qed.

Lemma c_strip_keeps c s x :
  is_c_space c = false -> last_char (String c s) = Some x -> is_c_space x = false ->
  c_strip (String c s) = String c s.
Proof.
  intros Hc Hl Hx. unfold c_strip. rewrite (c_rstrip_keeps _ _ Hl Hx).
  cbn [c_lstrip]. rewrite Hc. reflexivity.
Qed.

Lemma c_strip_digits s : isdigit s = true -> c_strip s = s.
Proof.
  intros H. destruct (last_char_digits _ H) as (x & Hx & Hdx).
  apply isdigit_cons in H. destruct H as (c & s' & -> & Hc & _).
  eapply c_strip_keeps; eauto using digit_not_c_space.
Qed.

Lemma count_all_digits s : all_digits s = true -> count_digits s = Z.of_nat (String.length s).
Proof.
  induction s as [|c s IH]; intros H; [reflexivity|].
  cbn [all_digits] in H. apply andb_true_iff in H. destruct H as [Hc Hs].
  cbn [count_digits String.length]. rewrite Hc, (IH Hs). lia.
Qed.

Lemma signed_digit c s' body : is_digit c = true -> signed body (String c s') = body (String c s').
Proof.
  intros Hc. unfold signed.
  destruct c as [[] [] [] [] [] [] [] []];
    try (vm_compute in Hc; discriminate Hc); reflexivity.
Qed.

(** [int] reads a run of at most 4300 digits as its decimal value, and
    refuses a longer one. *)
Lemma int_of_digits s :
  isdigit s = true -> (String.length s <= 4300)%nat -> int_of_str s = Some (dec_value 0 s).
Proof.
  intros H Hlen. unfold int_of_str. rewrite (c_strip_digits _ H).
  pose proof (isdigit_all _ H) as Ha.
  apply isdigit_cons in H. destruct H as (c & s' & -> & Hc & _).
  rewrite (signed_digit _ _ _ Hc). unfold digitpart. rewrite Hc.
  rewrite (digits_acc_value _ 0 Ha), (count_all_digits _ Ha). unfold max_str_digits.
  destruct (Z.ltb_spec 4300 (Z.of_nat (String.length (String c s')))); [lia | reflexivity].
Qed.

Lemma int_of_long_digits s :
  isdigit s = true -> (4300 < String.length s)%nat -> int_of_str s = None.
Proof.
  intros H Hlen. unfold int_of_str. rewrite (c_strip_digits _ H).
  pose proof (isdigit_all _ H) as Ha.
  apply isdigit_cons in H. destruct H as (c & s' & -> & Hc & _).
  rewrite (signed_digit _ _ _ Hc). unfold digitpart. rewrite Hc.
  rewrite (digits_acc_value _ 0 Ha), (count_all_digits _ Ha). unfold max_str_digits.
  destruct (Z.ltb_spec 4300 (Z.of_nat (String.length (String c s')))); [reflexivity | lia].
Qed.

(** Whatever [int] accepts made of digits alone it reads as the decimal
    value. *)
Lemma int_of_digits_value s n : isdigit s = true -> int_of_str s = Some n -> n = dec_value 0 s.
Proof.
  intros H E. destruct (Nat.le_gt_cases (String.length s) 4300) as [Hl|Hl].
  - rewrite (int_of_digits _ H Hl) in E. congruence.
  - rewrite (int_of_long_digits _ H Hl) in E. discriminate.
Qed.

Lemma dec_value_nonneg s : forall acc, 0 <= acc -> all_digits s = true -> 0 <= dec_value acc s.
Proof.
  induction s as [|c s IH]; intros acc Ha H; cbn [dec_value all_digits] in *; [assumption|].
  apply andb_true_iff in H. destruct H as [Hc Hs].
  apply IH; [|assumption]. pose proof (digit_val_range _ Hc). lia.
Qed.

(** Splitting at a separator that the leading field does not hold. *)
Lemma split_field sep d rest :
  has_char sep d = false ->
  split sep (d ++ String sep rest) = d :: split sep rest.
Proof.
  induction d as [|c d IH]; simpl; intros H.
  - rewrite Ascii.eqb_refl. reflexivity.
  - apply orb_false_iff in H. destruct H as [Hc Hd]. rewrite Hc, (IH Hd). reflexivity.
Qed.

Lemma split_last sep d : has_char sep d = false -> split sep d = [d].
Proof.
  induction d as [|c d IH]; simpl; intros H; [reflexivity|].
  apply orb_false_iff in H. destruct H as [Hc Hd]. rewrite Hc, (IH Hd). reflexivity.
Qed.

Lemma digits_have_no x s : is_digit x = false -> all_digits s = true -> has_char x s = false.
Proof.
  intros Hx. induction s as [|c s IH]; simpl; intros H; [reflexivity|].
  apply andb_true_iff in H. destruct H as [Hc Hs].
  rewrite (digit_neq c x Hx Hc), (IH Hs). reflexivity.
Qed.

End PyFacts.

(** ** Time parser (claim C3) *)

Module TimeParser.
Import Py SnakeD PyFacts.

Lemma parse_time_fields s p0 p1 p2 h m sec :
  split ":" (strip s) = [p0; p1; p2] ->
  int_of_str p0 = Some h -> int_of_str p1 = Some m -> int_of_str p2 = Some sec ->
  parse_time_text s = Z.max 1 (h * 60 + m + (if 0 <? sec then 1 else 0)).
Proof.
  intros Hs H0 H1 H2. unfold parse_time_text. rewrite Hs, H0, H1, H2.
  destruct (0 <? sec); zcases.
Qed.

Lemma hms_strip hs ms ss :
  isdigit hs = true -> isdigit ms = true -> isdigit ss = true ->
  strip (hs ++ ":" ++ ms ++ ":" ++ ss) = (hs ++ ":" ++ ms ++ ":" ++ ss)%string.
Proof.
  intros Hh Hm Hs.
  destruct (last_char_digits _ Hs) as (x & Hx & Hdx).
  assert (Hne : ss <> EmptyString) by (destruct ss; [discriminate | congruence]).
  assert (Hl : last_char (hs ++ ":" ++ ms ++ ":" ++ ss) = Some x).
  { rewrite <- Hx. rewrite <- !append_assoc. apply last_char_app, Hne. }
  apply isdigit_cons in Hh. destruct Hh as (c & h' & -> & Hc & _).
  eapply strip_keeps; eauto using digit_not_space.
Qed.

Lemma colon_free s : isdigit s = true -> has_char ":" s = false.
Proof. intros H. apply digits_have_no; [reflexivity | apply isdigit_all, H]. Qed.

(** A text of three digit fields is read field by field. *)
Lemma parse_time_hms hs ms ss :
  isdigit hs = true -> isdigit ms = true -> isdigit ss = true ->
  (String.length hs <= 4300)%nat -> (String.length ms <= 4300)%nat ->
  (String.length ss <= 4300)%nat ->
  parse_time_text (hs ++ ":" ++ ms ++ ":" ++ ss) =
  Z.max 1 (dec_value 0 hs * 60 + dec_value 0 ms
           + (if 0 <? dec_value 0 ss then 1 else 0)).
Proof.
  intros Hh Hm Hs Lh Lm Ls.
  apply parse_time_fields with (p0 := hs) (p1 := ms) (p2 := ss);
    try (apply int_of_digits; assumption).
  rewrite hms_strip by assumption.
  change (hs ++ ":" ++ ms ++ ":" ++ ss)%string
    with (hs ++ String ":" (ms ++ String ":" ss))%string.
  rewrite split_field by (apply colon_free, Hh).
  rewrite split_field by (apply colon_free, Hm).
  rewrite split_last by (apply colon_free, Hs). reflexivity.
Qed.

(** A digit field of more than 4300 digits is refused. *)
Lemma parse_time_long_field hs ms ss :
  isdigit hs = true -> isdigit ms = true -> isdigit ss = true ->
  (4300 < String.length hs)%nat \/ (4300 < String.length ms)%nat
  \/ (4300 < String.length ss)%nat ->
  parse_time_text (hs ++ ":" ++ ms ++ ":" ++ ss) = 60.
Proof.
  intros Hh Hm Hs Hlong. unfold parse_time_text.
  rewrite hms_strip by assumption.
  change (hs ++ ":" ++ ms ++ ":" ++ ss)%string
    with (hs ++ String ":" (ms ++ String ":" ss))%string.
  rewrite split_field by (apply colon_free, Hh).
  rewrite split_field by (apply colon_free, Hm).
  rewrite split_last by (apply colon_free, Hs).
  destruct Hlong as [H|[H|H]].
  - rewrite (int_of_long_digits _ Hh H). reflexivity.
  - rewrite (int_of_long_digits _ Hm H). destruct (int_of_str hs); reflexivity.
  - rewrite (int_of_long_digits _ Hs H).
    destruct (int_of_str hs); [destruct (int_of_str ms)|]; reflexivity.
Qed.

Lemma parse_time_wrong_count s :
  List.length (split ":" (strip s)) <> 3%nat -> parse_time_text s = 60.
Proof.
  unfold parse_time_text. destruct (split ":" (strip s)) as [|a [|b [|c [|d l]]]];
    simpl; intros H; try reflexivity. congruence.
Qed.

Lemma parse_time_bad_field s p0 p1 p2 :
  split ":" (strip s) = [p0; p1; p2] ->
  int_of_str p0 = None \/ int_of_str p1 = None \/ int_of_str p2 = None ->
  parse_time_text s = 60.
Proof.
  intros Hs H. unfold parse_time_text. rewrite Hs.
  destruct (int_of_str p0), (int_of_str p1), (int_of_str p2);
    try reflexivity; destruct H as [H|[H|H]]; discriminate.
Qed.

(** C3, as the code has it. The text is stripped and split at its colons.
    Three fields that [int] accepts as [h], [m] and [s] give [h * 60 + m],
    one more when [s] is positive, and never less than 1; so a text of
    three digit fields [HH:MM:SS], none longer than the 4300 digits [int]
    accepts, gives [HH * 60 + MM], one more for positive seconds. A text
    that does not split into three fields, or one of whose fields [int]
    refuses (a digit field of more than 4300 digits among them), gives 60,
    and so does a value that is not a text; ["01:30:00"] gives 90,
    ["00:00:01"] gives 1 and ["bad"] gives 60. *)
Theorem parse_time_to_minutes_spec :
  (forall s p0 p1 p2 h m sec,
      split ":" (strip s) = [p0; p1; p2] ->
      int_of_str p0 = Some h -> int_of_str p1 = Some m -> int_of_str p2 = Some sec ->
      parse_time_to_minutes (JStr s) = Z.max 1 (h * 60 + m + (if 0 <? sec then 1 else 0)))
  /\ (forall hs ms ss,
      isdigit hs = true -> isdigit ms = true -> isdigit ss = true ->
      (String.length hs <= 4300)%nat -> (String.length ms <= 4300)%nat ->
      (String.length ss <= 4300)%nat ->
      parse_time_to_minutes (JStr (hs ++ ":" ++ ms ++ ":" ++ ss)) =
      Z.max 1 (dec_value 0 hs * 60 + dec_value 0 ms
               + (if 0 <? dec_value 0 ss then 1 else 0)))
  /\ (forall hs ms ss,
      isdigit hs = true -> isdigit ms = true -> isdigit ss = true ->
      (4300 < String.length hs)%nat \/ (4300 < String.length ms)%nat
      \/ (4300 < String.length ss)%nat ->
      parse_time_to_minutes (JStr (hs ++ ":" ++ ms ++ ":" ++ ss)) = 60)
  /\ (forall s, List.length (split ":" (strip s)) <> 3%nat ->
                parse_time_to_minutes (JStr s) = 60)
  /\ (forall s p0 p1 p2,
         split ":" (strip s) = [p0; p1; p2] ->
         int_of_str p0 = None \/ int_of_str p1 = None \/ int_of_str p2 = None ->
         parse_time_to_minutes (JStr s) = 60)
  /\ (forall v, (forall s, v <> JStr s) -> parse_time_to_minutes v = 60)
  /\ parse_time_to_minutes (JStr "01:30:00") = 90
  /\ parse_time_to_minutes (JStr "00:00:01") = 1
  /\ parse_time_to_minutes (JStr "bad") = 60.
Proof.
  split; [| split; [| split; [| split; [| split; [| split; [| repeat split]]]]]].
  - intros. eapply parse_time_fields; eassumption.
  - intros. apply parse_time_hms; assumption.
  - intros. apply parse_time_long_field; assumption.
  - intros. apply parse_time_wrong_count; assumption.
  - intros. eapply parse_time_bad_field; eassumption.
  - intros v Hv. destruct v as [| b | z | s | l | m].
    + reflexivity.
    + destruct b; reflexivity.
    + unfold parse_time_to_minutes. destruct (truthy (JInt z)); reflexivity.
    + exfalso. apply (Hv s). reflexivity.
    + destruct l; reflexivity.
    + destruct m; reflexivity.
Qed.

(** The separator 0x1C is white space for [strip] and not for [int]. *)
Definition file_separator : string := String "028" EmptyString.

Lemma parse_time_to_minutes_spec_witness :
  parse_time_to_minutes (JStr "02:05:09") = 126
  /\ parse_time_to_minutes (JStr " -1: 2 :+3 ") = 1
  /\ parse_time_to_minutes (JStr "1:2") = 60
  /\ parse_time_to_minutes (JStr "1:x:3") = 60
  /\ parse_time_to_minutes (JStr ("1:" ++ file_separator ++ "2:3")) = 60
  /\ parse_time_to_minutes (JInt 5) = 60.
Proof.
  destruct parse_time_to_minutes_spec as (Hint & Hhms & _ & Hcount & Hfield & Hother & _).
  split; [| split; [| split; [| split; [| split]]]].
  - exact (Hhms "02" "05" "09" eq_refl eq_refl eq_refl
             ltac:(cbn; lia) ltac:(cbn; lia) ltac:(cbn; lia)).
  - exact (Hint " -1: 2 :+3 " "-1" " 2 " "+3" (-1) 2 3 eq_refl eq_refl eq_refl eq_refl).
  - apply Hcount. vm_compute. discriminate.
  - apply (Hfield "1:x:3" "1" "x" "3"); [reflexivity | right; left; reflexivity].
  - apply (Hfield _ "1" (file_separator ++ "2")%string "3");
      [reflexivity | right; left; reflexivity].
  - apply Hother. discriminate.
Defined.

(** C3 as stated fails: ["01:30:00"] is 90 minutes, not 91. *)
Lemma parse_time_01_30_00_not_91 :
  parse_time_to_minutes (JStr "01:30:00") <> 91.
Proof. vm_compute. discriminate. Qed.

End TimeParser.
(** ** Run selection policy (claim C4) *)

Module Selection.
Import Py SnakeD PyFacts.

Section SortedHead.
Variable A : Type.
Variable le : A -> A -> bool.
Hypothesis le_total : forall a b, le a b = true \/ le b a = true.
Hypothesis le_trans : forall a b c, le a b = true -> le b c = true -> le a c = true.

Lemma hd_insert_by x l :
  hd_error (insert_by le x l) =
  Some (match l with
        | [] => x
        | y :: _ => if le x y then x else y
        end).
Proof. destruct l as [|y l]; simpl; [reflexivity|]. destruct (le x y); reflexivity. Qed.

Lemma le_refl a : le a a = true.
Proof. destruct (le_total a a); assumption. Qed.

(** The head of a sorted list is one of its members and is below all. *)
Lemma hd_sorted_by l r :
  hd_error (sorted_by le l) = Some r ->
  In r l /\ forall x, In x l -> le r x = true.
Proof.
  revert r. induction l as [|a l IH]; intros r; simpl; [discriminate|].
  rewrite hd_insert_by. destruct (sorted_by le l) as [|y s] eqn:E.
  - intros [= <-]. destruct l as [|b l].
    + split; [left; reflexivity|]. intros x [<-|[]]. apply le_refl.
    + simpl in E. pose proof (hd_insert_by b (sorted_by le l)) as Hh.
      rewrite E in Hh. discriminate.
  - destruct (IH y eq_refl) as [Hin Hmin].
    destruct (le a y) eqn:Hay; intros [= <-].
    + split; [left; reflexivity|]. intros x [<-|Hx]; [apply le_refl|].
      apply le_trans with y; auto.
    + split; [right; exact Hin|]. intros x [<-|Hx]; [|auto].
      destruct (le_total y a) as [H|H]; [exact H | congruence].
Qed.

Lemma hd_sorted_by_some l : l <> [] -> exists r, hd_error (sorted_by le l) = Some r.
Proof.
  destruct l as [|a l]; [congruence|]. intros _. simpl. rewrite hd_insert_by. eauto.
Qed.

End SortedHead.

(** The order of [str] values is a total pre-order. *)
Lemma ascii_compare_cases a b :
  (Ascii.compare a b = Eq /\ a = b)
  \/ (Ascii.compare a b = Lt /\ (N_of_ascii a < N_of_ascii b)%N)
  \/ (Ascii.compare a b = Gt /\ (N_of_ascii b < N_of_ascii a)%N).
Proof.
  unfold Ascii.compare. destruct (N.compare_spec (N_of_ascii a) (N_of_ascii b)) as [H|H|H].
  - left. split; [reflexivity|].
    rewrite <- (ascii_N_embedding a), <- (ascii_N_embedding b), H. reflexivity.
  - right; left; auto.
  - right; right; auto.
Qed.

Lemma string_leb_trans a : forall b c,
  String.leb a b = true -> String.leb b c = true -> String.leb a c = true.
Proof.
  unfold String.leb.
  induction a as [|x a IH]; intros [|y b] [|z c]; simpl; try reflexivity; try discriminate.
  destruct (ascii_compare_cases x y) as [[E1 Hxy]|[[E1 Hxy]|[E1 Hxy]]]; rewrite E1;
    destruct (ascii_compare_cases y z) as [[E2 Hyz]|[[E2 Hyz]|[E2 Hyz]]]; rewrite E2;
    destruct (ascii_compare_cases x z) as [[E3 Hxz]|[[E3 Hxz]|[E3 Hxz]]]; rewrite E3;
    intros H1 H2; try discriminate; try reflexivity; subst;
    try (exfalso; lia); try (eapply IH; eassumption).
Qed.

Definition int_le (a b : string) : bool := int_key a <=? int_key b.

Lemma int_le_total a b : int_le a b = true \/ int_le b a = true.
Proof. unfold int_le. destruct (Z.leb_spec (int_key a) (int_key b)); [auto|]. right. apply Z.leb_le. lia. Qed.

Lemma int_le_trans a b c : int_le a b = true -> int_le b c = true -> int_le a c = true.
Proof. unfold int_le. rewrite !Z.leb_le. lia. Qed.

Lemma mem_str_In x l : mem_str x l = true <-> In x l.
Proof.
  induction l as [|y l IH]; simpl; [split; [discriminate | tauto]|].
  rewrite orb_true_iff, IH, String.eqb_eq. tauto.
Qed.

Lemma int_keys_some l :
  (forall x, In x l -> int_of_str x <> None) -> int_keys l <> None.
Proof.
  induction l as [|x l IH]; simpl; intros H; [discriminate|].
  destruct (int_of_str x) eqn:E; [|exfalso; apply (H x); auto].
  destruct (int_keys l); [discriminate|]. apply IH. intros y Hy. apply H. auto.
Qed.

Lemma int_keys_none l :
  (exists x, In x l /\ int_of_str x = None) -> int_keys l = None.
Proof.
  induction l as [|y l IH]; intros (x & Hx & E); simpl in *; [contradiction|].
  destruct Hx as [->|Hx].
  - rewrite E. reflexivity.
  - destruct (int_of_str y); [|reflexivity]. rewrite IH; eauto.
Qed.

Lemma pick_unfold status :
  pick_queued_run status =
  match queued_of status with
  | [] => None
  | queued =>
      if negb (is_none (active_of status)) && mem_str (str (active_of status)) queued
      then Some (str (active_of status))
      else lowest queued
  end.
Proof.
  unfold pick_queued_run, queued_of, active_of.
  destruct (dict_get "runs" status) as [[| | | | |[|kv runs]]|]; reflexivity.
Qed.

Lemma is_none_false v : v <> JNull -> is_none v = false.
Proof. destruct v; try reflexivity. congruence. Qed.

Definition queued_run : json := JObj [("state", JStr "QUEUED")].

(** A run in state QUEUED: a dictionary whose [state] is the text QUEUED. *)
Definition is_queued (robj : json) : Prop :=
  exists r, robj = JObj r /\ dict_get "state" r = Some (JStr "QUEUED").

Lemma is_str_eq v t : is_str v t = true <-> v = JStr t.
Proof.
  destruct v as [|b|z|s|l|m]; cbn [is_str]; try (split; [discriminate | intros H; discriminate H]).
  rewrite String.eqb_eq. split; [intros ->; reflexivity | intros [= ->]; reflexivity].
Qed.

(** The test of the loop over the runs holds of the runs in state QUEUED
    and of no others. *)
Lemma run_state_queued robj :
  (exists state, run_state robj = Ok state /\ is_str state "QUEUED" = true)
  <-> is_queued robj.
Proof.
  unfold run_state, or_else, is_queued.
  destruct robj as [|b|z|s|l|r].
  - split; [intros (st & [= <-] & H); discriminate H | intros (r & H & _); discriminate H].
  - split; [|intros (r & H & _); discriminate H].
    destruct (truthy (JBool b)); intros (st & E & H); [discriminate E|].
    injection E as <-. discriminate H.
  - split; [|intros (r & H & _); discriminate H].
    destruct (truthy (JInt z)); intros (st & E & H); [discriminate E|].
    injection E as <-. discriminate H.
  - split; [|intros (r & H & _); discriminate H].
    destruct (truthy (JStr s)); intros (st & E & H); [discriminate E|].
    injection E as <-. discriminate H.
  - split; [|intros (r & H & _); discriminate H].
    destruct (truthy (JArr l)); intros (st & E & H); [discriminate E|].
    injection E as <-. discriminate H.
  - destruct r as [|kv r'].
    + split; [intros (st & [= <-] & H); discriminate H|].
      intros (r & [= <-] & H). discriminate H.
    + change (truthy (JObj (kv :: r'))) with true. cbv iota.
      generalize (kv :: r'). intros d. unfold get_method. split.
      * intros (st & E & H). injection E as <-. exists d. split; [reflexivity|].
        destruct (dict_get "state" d) as [v|]; [|discriminate H].
        apply is_str_eq in H. rewrite H. reflexivity.
      * intros (r & [= <-] & H). rewrite H. eexists. split; reflexivity.
Qed.

Lemma queued_ids_In runs x :
  In x (queued_ids runs) <-> exists robj, In (x, robj) runs /\ is_queued robj.
Proof.
  induction runs as [|[rid robj] runs IH]; cbn [queued_ids].
  - split; [contradiction | intros (r & [] & _)].
  - pose proof (run_state_queued robj) as Hq.
    destruct (run_state robj) as [state|e].
    + destruct (is_str state "QUEUED") eqn:Es.
      * split.
        -- intros [<-|H].
           ++ exists robj. split; [left; reflexivity|]. apply Hq. exists state. auto.
           ++ apply IH in H. destruct H as (r & Hin & Hr). exists r. split; [right|]; assumption.
        -- intros (r & [[= <- <-]|Hin] & Hr); [left; reflexivity|].
           right. apply IH. exists r. auto.
      * rewrite IH. split.
        -- intros (r & Hin & Hr). exists r. split; [right|]; assumption.
        -- intros (r & [[= <- <-]|Hin] & Hr); [|exists r; auto].
           apply Hq in Hr. destruct Hr as (st & [= <-] & H). congruence.
    + rewrite IH. split.
      * intros (r & Hin & Hr). exists r. split; [right|]; assumption.
      * intros (r & [[= <- <-]|Hin] & Hr); [|exists r; auto].
        apply Hq in Hr. destruct Hr as (st & E & _). discriminate E.
Qed.

(** The ids the policy chooses from are the ids of the runs in state
    QUEUED. *)
Lemma queued_of_In status x :
  In x (queued_of status) <->
  exists runs robj,
    dict_get "runs" status = Some (JObj runs) /\ In (x, robj) runs /\ is_queued robj.
Proof.
  unfold queued_of. destruct (dict_get "runs" status) as [v|].
  - destruct v as [|b|z|s|l|runs];
      try (split; [contradiction | intros (r & o & E & _); discriminate E]).
    rewrite queued_ids_In. split.
    + intros (robj & Hin & Hq). exists runs, robj. auto.
    + intros (r & robj & [= <-] & Hin & Hq). exists robj. auto.
  - split; [contradiction | intros (r & o & E & _); discriminate E].
Qed.

(** C4: the policy is a function of the status document alone. The ids
    it chooses from, [queued_of status], are the ids of the runs of the
    document whose state is QUEUED. It gives nothing when no run is
    QUEUED; the id named by [active_run_id] when that is set and QUEUED;
    otherwise a QUEUED id of least numeric value when every QUEUED id
    reads as a number, and the least QUEUED id in the order of texts when
    one does not. On runs 1 and 2, both QUEUED, it gives "2" when
    [active_run_id] is 2 and "1" without an active id. *)
Theorem pick_queued_run_spec (status : dict) :
  (forall x, In x (queued_of status) <->
             exists runs robj,
               dict_get "runs" status = Some (JObj runs)
               /\ In (x, robj) runs
               /\ exists r, robj = JObj r /\ dict_get "state" r = Some (JStr "QUEUED"))
  /\ active_of status = match dict_get "active_run_id" status with
                        | Some a => a
                        | None => JNull
                        end
  /\ (queued_of status = [] -> pick_queued_run status = None)
  /\ (active_of status <> JNull -> In (str (active_of status)) (queued_of status) ->
      pick_queued_run status = Some (str (active_of status)))
  /\ (queued_of status <> [] ->
      active_of status = JNull \/ ~ In (str (active_of status)) (queued_of status) ->
      (forall x, In x (queued_of status) -> int_of_str x <> None) ->
      exists r zr, pick_queued_run status = Some r /\ In r (queued_of status)
                   /\ int_of_str r = Some zr
                   /\ forall x zx, In x (queued_of status) -> int_of_str x = Some zx -> zr <= zx)
  /\ (queued_of status <> [] ->
      active_of status = JNull \/ ~ In (str (active_of status)) (queued_of status) ->
      (exists x, In x (queued_of status) /\ int_of_str x = None) ->
      exists r, pick_queued_run status = Some r /\ In r (queued_of status)
                /\ forall x, In x (queued_of status) -> String.leb r x = true)
  /\ pick_queued_run [("runs", JObj [("1", queued_run); ("2", queued_run)]);
                      ("active_run_id", JInt 2)] = Some "2"
  /\ pick_queued_run [("runs", JObj [("1", queued_run); ("2", queued_run)]);
                      ("active_run_id", JNull)] = Some "1"
  /\ pick_queued_run [("runs", JObj [("1", queued_run); ("2", queued_run)])] = Some "1".
Proof.
  split; [exact (queued_of_In status)|]. split; [reflexivity|].
  rewrite pick_unfold.
  assert (Hlow : forall q,
             queued_of status = q -> q <> [] ->
             active_of status = JNull \/ ~ In (str (active_of status)) q ->
             (if negb (is_none (active_of status)) && mem_str (str (active_of status)) q
              then Some (str (active_of status)) else lowest q) = lowest q).
  { intros q _ _ [Ha|Ha].
    - rewrite Ha. reflexivity.
    - destruct (mem_str (str (active_of status)) q) eqn:E.
      + apply mem_str_In in E. contradiction.
      + rewrite andb_false_r. reflexivity. }
  split; [| split; [| split; [| split; [| repeat split]]]].
  - intros ->. reflexivity.
  - intros Ha Hin. destruct (queued_of status) as [|q0 q]; [contradiction|].
    cbv beta iota zeta. rewrite (is_none_false _ Ha). apply mem_str_In in Hin. rewrite Hin. reflexivity.
  - intros Hne Ha Hall.
    destruct (queued_of status) as [|q0 q] eqn:Eq; [congruence|].
    cbv beta iota zeta. rewrite (Hlow _ eq_refl Hne Ha). unfold lowest.
    destruct (int_keys (q0 :: q)) eqn:Ek; [|exfalso; revert Ek; apply int_keys_some, Hall].
    destruct (hd_sorted_by_some _ int_le (q0 :: q) Hne) as (r & Hr).
    fold int_le. rewrite Hr.
    destruct (hd_sorted_by _ int_le int_le_total int_le_trans _ _ Hr) as [Hin Hmin].
    destruct (int_of_str r) as [zr|] eqn:Er; [|exfalso; apply (Hall r Hin Er)].
    exists r, zr. repeat split; auto.
    intros x zx Hx Ex. specialize (Hmin x Hx). unfold int_le, int_key in Hmin.
    rewrite Er, Ex in Hmin. apply Z.leb_le, Hmin.
  - intros Hne Ha Hsome.
    destruct (queued_of status) as [|q0 q] eqn:Eq; [congruence|].
    cbv beta iota zeta. rewrite (Hlow _ eq_refl Hne Ha). unfold lowest.
    rewrite (int_keys_none _ Hsome).
    destruct (hd_sorted_by_some _ String.leb (q0 :: q) Hne) as (r & Hr). rewrite Hr.
    destruct (hd_sorted_by _ String.leb String.leb_total string_leb_trans _ _ Hr)
      as [Hin Hmin].
    exists r. auto.
Qed.

Definition three_runs : dict :=
  [("runs", JObj [("10", queued_run); ("9", queued_run);
                  ("3", JObj [("state", JStr "RUNNING")])]);
   ("active_run_id", JInt 3)].

Definition named_runs : dict :=
  [("runs", JObj [("b", queued_run); ("10", queued_run); ("a", queued_run)])].

(** Ids 9 and 10, the second with a separator before it that [int] does
    not accept: the order of texts decides. *)
Definition separated_runs : dict :=
  [("runs", JObj [("9", queued_run); (String "028" "10", queued_run)])].

Lemma pick_queued_run_spec_witness :
  pick_queued_run [("runs", JObj [])] = None
  /\ pick_queued_run [("runs", JObj [("7", queued_run)]); ("active_run_id", JStr "7")]
     = Some "7"
  /\ (exists r zr, pick_queued_run three_runs = Some r /\ In r (queued_of three_runs)
                   /\ int_of_str r = Some zr
                   /\ forall x zx, In x (queued_of three_runs) ->
                                   int_of_str x = Some zx -> zr <= zx)
  /\ (exists r, pick_queued_run named_runs = Some r /\ In r (queued_of named_runs)
                /\ forall x, In x (queued_of named_runs) -> String.leb r x = true)
  /\ (exists r, pick_queued_run separated_runs = Some r /\ In r (queued_of separated_runs)
                /\ forall x, In x (queued_of separated_runs) -> String.leb r x = true)
  /\ In "9" (queued_of three_runs).
Proof.
  split; [| split; [| split; [| split; [| split]]]].
  - apply (proj1 (proj2 (proj2 (pick_queued_run_spec [("runs", JObj [])])))). reflexivity.
  - apply (proj1 (proj2 (proj2 (proj2 (pick_queued_run_spec
                           [("runs", JObj [("7", queued_run)]);
                            ("active_run_id", JStr "7")]))))).
    + discriminate.
    + left. reflexivity.
  - apply (proj1 (proj2 (proj2 (proj2 (proj2 (pick_queued_run_spec three_runs)))))).
    + discriminate.
    + right. intros [H|[H|[]]]; discriminate.
    + intros x [<-|[<-|[]]]; discriminate.
  - apply (proj1 (proj2 (proj2 (proj2 (proj2 (proj2 (pick_queued_run_spec named_runs))))))).
    + discriminate.
    + left. reflexivity.
    + exists "b". split; [left; reflexivity | reflexivity].
  - apply (proj1 (proj2 (proj2 (proj2 (proj2 (proj2
             (pick_queued_run_spec separated_runs))))))).
    + discriminate.
    + left. reflexivity.
    + exists (String "028" "10"). split; [right; left; reflexivity | reflexivity].
  - apply (proj1 (pick_queued_run_spec three_runs)).
    exists [("10", queued_run); ("9", queued_run); ("3", JObj [("state", JStr "RUNNING")])],
           queued_run.
    split; [reflexivity|]. split; [right; left; reflexivity|].
    eexists. split; reflexivity.
Defined.

End Selection.
(** ** Memory conversion (claim C5) *)

Module Memory.
Import Py SnakeD PyFacts.

Lemma pow2_pos n : 0 <= n -> 0 < 2 ^ n.
Proof. intros. apply Z.pow_pos_nonneg; lia. Qed.

Lemma pow2_split a b : 0 <= a -> 0 <= b -> 2 ^ (a + b) = 2 ^ a * 2 ^ b.
Proof. intros. apply Z.pow_add_r; assumption. Qed.

Lemma pow2_le a b : 0 <= a <= b -> 2 ^ a <= 2 ^ b.
Proof. intros. apply Z.pow_le_mono_r; lia. Qed.

Lemma pow2_lt a b : 0 <= a < b -> 2 ^ a < 2 ^ b.
Proof. intros. apply Z.pow_lt_mono_r; lia. Qed.

Lemma round_half_even_one n : round_half_even n 1 = n.
Proof.
  unfold round_half_even. rewrite Z.mod_1_r, Z.div_1_r. reflexivity.
Qed.

Lemma round_half_even_cases n d :
  0 <= n -> 0 < d ->
  round_half_even n d = n / d
  \/ (round_half_even n d = n / d + 1 /\ d <= 2 * (n mod d)).
Proof.
  intros Hn Hd. unfold round_half_even.
  destruct (Z.compare_spec (2 * (n mod d)) d) as [H|H|H].
  - destruct (Z.even (n / d)); [left; reflexivity | right; split; [reflexivity | lia]].
  - left; reflexivity.
  - right; split; [reflexivity | lia].
Qed.

(** The exponent found for [p / q] is a lower bound of its logarithm. *)
Lemma ilog2_ratio_lower p q :
  0 < p -> 0 < q ->
  q * 2 ^ Z.max 0 (ilog2_ratio p q) <= p * 2 ^ Z.max 0 (- ilog2_ratio p q).
Proof.
  intros Hp Hq. unfold ilog2_ratio.
  destruct (Z.log2_spec p Hp) as [Hp1 Hp2]. destruct (Z.log2_spec q Hq) as [Hq1 Hq2].
  pose proof (Z.log2_nonneg p) as Lp. pose proof (Z.log2_nonneg q) as Lq.
  set (lp := Z.log2 p) in *. set (lq := Z.log2 q) in *.
  destruct (Z.ltb_spec (p * 2 ^ Z.max 0 (- (lp - lq))) (q * 2 ^ Z.max 0 (lp - lq)))
    as [Hlt|Hge]; [|exact Hge].
  destruct (Z_le_gt_dec 1 (lp - lq)) as [Hpos|Hneg].
  - rewrite (Z.max_r 0 (lp - lq - 1)) by lia. rewrite (Z.max_l 0 (- (lp - lq - 1))) by lia.
    rewrite Z.pow_0_r, Z.mul_1_r.
    assert (E : 2 ^ lp = 2 ^ (lq + 1) * 2 ^ (lp - lq - 1)).
    { rewrite <- pow2_split by lia. f_equal. lia. }
    pose proof (pow2_pos (lp - lq - 1)). unfold Z.succ in *. nia.
  - rewrite (Z.max_l 0 (lp - lq - 1)) by lia. rewrite (Z.max_r 0 (- (lp - lq - 1))) by lia.
    rewrite Z.pow_0_r, Z.mul_1_r.
    assert (E : 2 ^ (lq + 1) = 2 ^ lp * 2 ^ (- (lp - lq - 1))).
    { rewrite <- pow2_split by lia. f_equal. lia. }
    pose proof (pow2_pos (- (lp - lq - 1))). unfold Z.succ in *. nia.
Qed.

Lemma ilog2_ratio_le_log2 p q : 0 < p -> 0 < q -> ilog2_ratio p q <= Z.log2 p.
Proof.
  intros Hp Hq. unfold ilog2_ratio. pose proof (Z.log2_nonneg q).
  destruct (_ <? _); lia.
Qed.

Lemma ilog2_ratio_one n : 0 < n -> ilog2_ratio n 1 = Z.log2 n.
Proof.
  intros Hn. unfold ilog2_ratio. change (Z.log2 1) with 0. rewrite Z.sub_0_r.
  pose proof (Z.log2_nonneg n). destruct (Z.log2_spec n Hn) as [H1 _].
  rewrite (Z.max_l 0 (- Z.log2 n)), (Z.max_r 0 (Z.log2 n)) by lia.
  rewrite Z.pow_0_r, Z.mul_1_r, Z.mul_1_l.
  destruct (Z.ltb_spec n (2 ^ Z.log2 n)); lia.
Qed.

Lemma log2_below_53 n : 0 < n < 2 ^ 53 -> 0 <= Z.log2 n <= 52.
Proof.
  intros [Hn Hb]. split; [apply Z.log2_nonneg|].
  apply Z.log2_lt_pow2 in Hb; lia.
Qed.

(** A whole number below [2^53] is a binary64 value. *)
Lemma round_binary64_whole n :
  0 < n < 2 ^ 53 ->
  round_binary64 n 1 = Some (n * 2 ^ (52 - Z.log2 n), Z.log2 n - 52).
Proof.
  intros Hn. pose proof (log2_below_53 n Hn) as He.
  unfold round_binary64. destruct (Z.eqb_spec n 0); [lia|].
  rewrite ilog2_ratio_one by lia.
  rewrite (Z.max_l (Z.log2 n - 52) (-1074)) by lia.
  rewrite (Z.max_r 0 (- (Z.log2 n - 52))), (Z.max_l 0 (Z.log2 n - 52)) by lia.
  rewrite Z.pow_0_r, round_half_even_one.
  destruct (Z.ltb_spec 0 (Z.log2 n - 52)); [lia|]. cbn [andb].
  replace (- (Z.log2 n - 52)) with (52 - Z.log2 n) by lia. reflexivity.
Qed.

Lemma whole_mantissa_bound n :
  0 < n < 2 ^ 53 -> n * 2 ^ (52 - Z.log2 n) < 2 ^ 53.
Proof.
  intros Hn. pose proof (log2_below_53 n Hn) as He.
  destruct (Z.log2_spec n) as [_ H2]; [lia|]. unfold Z.succ in H2.
  assert (E : 2 ^ 53 = 2 ^ (Z.log2 n + 1) * 2 ^ (52 - Z.log2 n)).
  { rewrite <- pow2_split by lia. f_equal. lia. }
  pose proof (pow2_pos (52 - Z.log2 n)). nia.
Qed.

Lemma int_of_whole n :
  0 <= n < 2 ^ 53 -> int_of_float (float_of_ratio false n 1) = Some n.
Proof.
  intros Hn. unfold float_of_ratio.
  destruct (Z.eq_dec n 0) as [->|Hz]; [reflexivity|].
  rewrite round_binary64_whole by lia. pose proof (log2_below_53 n) as He.
  unfold int_of_float. f_equal.
  destruct (Z.leb_spec 0 (Z.log2 n - 52)).
  - replace (Z.log2 n) with 52 by lia. simpl. lia.
  - replace (- (Z.log2 n - 52)) with (52 - Z.log2 n) by lia.
    rewrite Z.quot_mul; [reflexivity|]. pose proof (pow2_pos (52 - Z.log2 n)). lia.
Qed.

Lemma int_of_whole_times_1024 n :
  0 <= n < 2 ^ 53 ->
  int_of_float (fmul_1024 (float_of_ratio false n 1)) = Some (n * 1024).
Proof.
  intros Hn. unfold float_of_ratio.
  destruct (Z.eq_dec n 0) as [->|Hz]; [reflexivity|].
  rewrite round_binary64_whole by lia. pose proof (log2_below_53 n) as He.
  pose proof (whole_mantissa_bound n) as Hm.
  pose proof (pow2_pos (52 - Z.log2 n)) as Hp.
  unfold fmul_1024.
  assert (Hsmall : Z.abs (n * 2 ^ (52 - Z.log2 n)) * 2 ^ Z.max 0 (Z.log2 n - 52 + 10)
                   < 2 ^ 1024).
  { rewrite Z.abs_eq by nia.
    assert (2 ^ Z.max 0 (Z.log2 n - 52 + 10) <= 2 ^ 10) by (apply pow2_le; lia).
    pose proof (pow2_pos (Z.max 0 (Z.log2 n - 52 + 10))).
    assert (2 ^ 53 * 2 ^ 10 = 2 ^ 63) by reflexivity.
    assert (2 ^ 63 < 2 ^ 1024) by (apply pow2_lt; lia). nia. }
  destruct (Z.leb_spec (2 ^ 1024)
              (Z.abs (n * 2 ^ (52 - Z.log2 n)) * 2 ^ Z.max 0 (Z.log2 n - 52 + 10)));
    [lia|].
  unfold int_of_float. f_equal.
  destruct (Z.leb_spec 0 (Z.log2 n - 52 + 10)).
  - rewrite <- Z.mul_assoc, <- pow2_split by lia.
    replace (52 - Z.log2 n + (Z.log2 n - 52 + 10)) with 10 by lia. reflexivity.
  - replace (- (Z.log2 n - 52 + 10)) with (42 - Z.log2 n) by lia.
    replace (52 - Z.log2 n) with (10 + (42 - Z.log2 n)) by lia.
    rewrite pow2_split by lia. rewrite Z.mul_assoc.
    rewrite Z.quot_mul; [reflexivity|]. pose proof (pow2_pos (42 - Z.log2 n)). lia.
Qed.

(** The quotient of two integers, rounded to binary64 and truncated, is
    their integer quotient as long as the dividend is below [2^53]. *)
Lemma round_binary64_quotient p q :
  0 < p < 2 ^ 53 -> 0 < q ->
  exists m s, round_binary64 p q = Some (m, - s) /\ 0 <= s /\ 0 <= m
              /\ m / 2 ^ s = p / q.
Proof.
  intros Hp Hq. unfold round_binary64. destruct (Z.eqb_spec p 0); [lia|].
  pose proof (ilog2_ratio_le_log2 p q (proj1 Hp) Hq) as He.
  pose proof (log2_below_53 p Hp) as Hl.
  pose proof (ilog2_ratio_lower p q (proj1 Hp) Hq) as Hlow.
  set (e := ilog2_ratio p q) in *.
  set (ue := Z.max (e - 52) (-1074)).
  assert (Hue : ue <= 0) by (unfold ue; lia).
  rewrite (Z.max_r 0 (- ue)), (Z.max_l 0 ue) by lia.
  rewrite Z.pow_0_r, Z.mul_1_r.
  destruct (Z.ltb_spec 0 ue); [lia|]. cbn [andb].
  set (s := - ue). assert (Hs : 0 <= s) by (unfold s; lia).
  exists (round_half_even (p * 2 ^ s) q), s.
  replace ue with (- s) by (unfold s; lia).
  pose proof (pow2_pos s Hs) as HS.
  assert (HN : 0 <= p * 2 ^ s) by nia.
  assert (Hf : p * 2 ^ s / q / 2 ^ s = p / q).
  { rewrite Z.div_div by lia. apply Z.div_mul_cancel_r; lia. }
  assert (Hf0 : 0 <= p * 2 ^ s / q) by (apply Z.div_pos; lia).
  split; [reflexivity|]. split; [exact Hs|].
  destruct (round_half_even_cases (p * 2 ^ s) q HN Hq) as [->|[-> Hup]].
  - split; [exact Hf0 | exact Hf].
  - split; [lia|].
    set (f := p * 2 ^ s / q) in *. set (k := p / q) in *.
    assert (Hk0 : 0 <= k) by (apply Z.div_pos; lia).
    pose proof (Z.div_mod (p * 2 ^ s) q ltac:(lia)) as EN. fold f in EN.
    pose proof (Z.mod_pos_bound (p * 2 ^ s) q Hq) as BN.
    pose proof (Z.div_mod p q ltac:(lia)) as Ep. fold k in Ep.
    pose proof (Z.mod_pos_bound p q Hq) as Bp.
    set (rN := (p * 2 ^ s) mod q) in *. set (r0 := p mod q) in *.
    assert (Hfk : k * 2 ^ s <= f < (k + 1) * 2 ^ s).
    { pose proof (Z.div_mod f (2 ^ s) ltac:(lia)) as Ef. rewrite Hf in Ef.
      pose proof (Z.mod_pos_bound f (2 ^ s) HS). nia. }
    symmetry. apply Z.div_unique with (r := f + 1 - k * 2 ^ s); [|lia].
    left. split; [lia|].
    destruct (Z_lt_ge_dec (f + 1) ((k + 1) * 2 ^ s)) as [Hok|Hbad]; [lia|].
    exfalso.
    assert (Efk : f = (k + 1) * 2 ^ s - 1) by lia.
    assert (Hq2 : 2 * 2 ^ s <= q) by nia.
    destruct (Z.max_spec (e - 52) (-1074)) as [[Hc Hm]|[Hc Hm]]; fold ue in Hm.
    + (* [s = 1074]: the quotient is below the least normal number *)
      assert (Es : s = 1074) by (unfold s; lia).
      assert (H53 : 2 ^ 53 <= 2 ^ s) by (apply pow2_le; lia).
      assert (k = 0) by (apply Z.div_small; lia).
      nia.
    + (* [s = 52 - e] *)
      assert (Es : s = 52 - e) by (unfold s; lia).
      destruct (Z_le_gt_dec 0 e) as [Hpos|Hneg].
      * rewrite (Z.max_r 0 e), (Z.max_l 0 (- e)) in Hlow by lia.
        rewrite Z.pow_0_r, Z.mul_1_r in Hlow.
        assert (E53 : 2 ^ 53 = 2 * 2 ^ s * 2 ^ e).
        { rewrite <- Z.mul_assoc, <- pow2_split by lia. rewrite Es.
          replace (52 - e + e) with 52 by lia. reflexivity. }
        pose proof (pow2_pos e Hpos). nia.
      * rewrite (Z.max_l 0 e), (Z.max_r 0 (- e)) in Hlow by lia.
        rewrite Z.pow_0_r, Z.mul_1_r in Hlow.
        assert (E53 : 2 * 2 ^ s = 2 ^ 53 * 2 ^ (- e)).
        { rewrite <- pow2_split by lia. rewrite Es.
          replace (53 + - e) with (Z.succ (52 - e)) by lia.
          rewrite Z.pow_succ_r by lia. reflexivity. }
        pose proof (pow2_pos (- e) ltac:(lia)). nia.
Qed.

Lemma mem_per_cpu_floor c total :
  - 2 ^ 53 < total < 2 ^ 53 ->
  mem_mb_per_cpu (JInt c) (Some total) = Some (Z.max 1 (total / Z.max 1 c)).
Proof.
  intros Ht. unfold mem_mb_per_cpu, int_of_json.
  assert (Ec : (if c <? 1 then 1 else c) = Z.max 1 c) by (destruct (Z.ltb_spec c 1); lia).
  rewrite Ec. set (q := Z.max 1 c). assert (Hq : 0 < q) by (unfold q; lia).
  unfold true_div, float_of_ratio.
  destruct (Z.eq_dec total 0) as [->|Hz].
  - rewrite Z.div_0_l by lia. reflexivity.
  - destruct (round_binary64_quotient (Z.abs total) q ltac:(lia) Hq)
      as (m & s & -> & Hs & Hm & Hdiv).
    pose proof (pow2_pos s Hs) as HS.
    destruct (Z.ltb_spec total 0) as [Hneg|Hpos].
    + (* a negative total: both sides are 1 *)
      assert (Hfloor : total / q < 0) by (apply Z.div_lt_upper_bound; lia).
      unfold int_of_float. rewrite Z.opp_involutive.
      destruct (Z.leb_spec 0 (- s)).
      * f_equal. replace s with 0 by lia. simpl. lia.
      * f_equal. rewrite Z.quot_opp_l by lia.
        pose proof (Z.quot_pos m (2 ^ s) Hm HS). lia.
    + rewrite Z.abs_eq in Hdiv by lia.
      unfold int_of_float. rewrite Z.opp_involutive.
      destruct (Z.leb_spec 0 (- s)).
      * f_equal. replace s with 0 in * by lia. rewrite Z.pow_0_r, Z.div_1_r in Hdiv.
        rewrite Z.pow_0_r, Z.mul_1_r. congruence.
      * f_equal. rewrite Z.quot_div_nonneg by lia. congruence.
Qed.

Lemma upper_digits s : all_digits s = true -> upper s = s.
Proof.
  induction s as [|c s IH]; simpl; intros H; [reflexivity|].
  apply andb_true_iff in H. destruct H as [Hc Hs]. rewrite (IH Hs). f_equal.
  unfold upper_char. replace (is_lower c) with false; [reflexivity|].
  unfold is_digit, is_lower in *. zcases.
Qed.

Lemma upper_app a b : upper (a ++ b) = (upper a ++ upper b)%string.
Proof. induction a as [|c a IH]; simpl; [reflexivity | f_equal; exact IH]. Qed.

Lemma drop_last_app_char a c : drop_last (a ++ String c EmptyString) = a.
Proof.
  induction a as [|x a IH]; simpl; [reflexivity|].
  rewrite IH. destruct a; reflexivity.
Qed.

Lemma last_char_app_char a c : last_char (a ++ String c EmptyString) = Some c.
Proof. rewrite last_char_app by discriminate. reflexivity. Qed.

Lemma drop_underscores_digits s : forall prev,
  (prev =? "_")%char = false -> all_digits s = true -> drop_underscores prev s = Some s.
Proof.
  induction s as [|c s IH]; intros prev Hp H; simpl.
  - rewrite Hp. reflexivity.
  - simpl in H. apply andb_true_iff in H. destruct H as [Hc Hs].
    assert (Hcu : (c =? "_")%char = false) by (apply digit_neq; [reflexivity | exact Hc]).
    rewrite Hcu, Hp. simpl. rewrite (IH c Hcu Hs). reflexivity.
Qed.

Lemma span_all_digits s : all_digits s = true -> span_digits s = (s, EmptyString).
Proof.
  induction s as [|c s IH]; simpl; intros H; [reflexivity|].
  apply andb_true_iff in H. destruct H as [Hc Hs]. rewrite Hc, (IH Hs). reflexivity.
Qed.

(** [float] reads a run of digits as the binary64 value nearest to it. *)
Lemma float_of_digits s :
  isdigit s = true -> float_of_str s = Some (float_of_ratio false (dec_value 0 s) 1).
Proof.
  intros H. unfold float_of_str. rewrite (c_strip_digits _ H).
  pose proof (isdigit_all _ H) as Ha.
  rewrite (drop_underscores_digits s "000" eq_refl Ha).
  assert (Eu : unsigned_float false s = Some (float_of_ratio false (dec_value 0 s) 1)).
  { unfold unsigned_float, decimal_literal. rewrite (span_all_digits _ Ha).
    rewrite append_nil_r. destruct s as [|c s']; [discriminate|].
    cbn [exponent_part String.length Z.of_nat Z.sub Z.leb Z.compare Z.opp].
    rewrite Z.pow_0_r, Z.mul_1_r. reflexivity. }
  apply isdigit_cons in H. destruct H as (c & s' & -> & Hc & _).
  rewrite <- Eu. clear Eu Ha.
  destruct c as [[] [] [] [] [] [] [] []];
    try (vm_compute in Hc; discriminate Hc); reflexivity.
Qed.

Lemma stripped_upper ds c :
  isdigit ds = true -> is_space c = false -> upper_char c = c ->
  upper (strip (ds ++ String c EmptyString)) = (ds ++ String c EmptyString)%string.
Proof.
  intros H Hc Hu. pose proof (isdigit_all _ H) as Ha.
  assert (Es : strip (ds ++ String c EmptyString) = (ds ++ String c EmptyString)%string).
  { pose proof (last_char_app_char ds c) as Hl.
    apply isdigit_cons in H. destruct H as (x & s' & -> & Hx & _).
    eapply strip_keeps; eauto using digit_not_space. }
  rewrite Es, upper_app, (upper_digits _ Ha). simpl. rewrite Hu. reflexivity.
Qed.

Lemma not_empty_app ds c (X : Type) (a b : X) :
  match (ds ++ String c EmptyString)%string with EmptyString => a | _ => b end = b.
Proof. destruct ds; reflexivity. Qed.

(** Whole amounts below [2^53] are converted exactly. *)
Lemma parse_mem_whole ds :
  isdigit ds = true -> dec_value 0 ds < 2 ^ 53 ->
  parse_mem_text (ds ++ "G") = Some (dec_value 0 ds * 1024)
  /\ parse_mem_text (ds ++ "M") = Some (dec_value 0 ds)
  /\ parse_mem_text ds = Some (dec_value 0 ds).
Proof.
  intros H Hb. pose proof (isdigit_all _ H) as Ha.
  pose proof (dec_value_nonneg ds 0 ltac:(lia) Ha) as H0.
  unfold parse_mem_text. split; [|split].
  - rewrite (stripped_upper ds "G" H eq_refl eq_refl), not_empty_app.
    unfold endswith_char. rewrite last_char_app_char. cbn [Ascii.eqb Bool.eqb andb].
    rewrite drop_last_app_char. unfold float_then_int. rewrite (float_of_digits _ H).
    apply int_of_whole_times_1024. lia.
  - rewrite (stripped_upper ds "M" H eq_refl eq_refl), not_empty_app.
    unfold endswith_char. rewrite last_char_app_char. cbn [Ascii.eqb Bool.eqb andb].
    rewrite drop_last_app_char. unfold float_then_int. rewrite (float_of_digits _ H).
    apply int_of_whole. lia.
  - rewrite (strip_digits _ H), (upper_digits _ Ha).
    destruct (last_char_digits _ H) as (x & Hx & Hdx).
    unfold endswith_char. rewrite Hx.
    rewrite (digit_neq x "G" eq_refl Hdx), (digit_neq x "M" eq_refl Hdx).
    unfold float_then_int. rewrite (float_of_digits _ H).
    destruct ds; [discriminate|]. apply int_of_whole. lia.
Qed.

Lemma parse_mem_unparsable s :
  float_of_str (number_part (upper (strip s))) = None -> parse_mem_text s = None.
Proof.
  unfold parse_mem_text, number_part, float_then_int.
  destruct (upper (strip s)) as [|c t]; [reflexivity|].
  destruct (endswith_char (String c t) "G"); [cbn [orb]; intros ->; reflexivity|].
  destruct (endswith_char (String c t) "M"); cbn [orb]; intros ->; reflexivity.
Qed.

Lemma parse_mem_not_text v : (forall s, v <> JStr s) -> parse_mem_to_mb v = None.
Proof.
  intros Hv. destruct v as [| b | z | s | l | m]; try reflexivity.
  - destruct b; reflexivity.
  - unfold parse_mem_to_mb. destruct (truthy (JInt z)); reflexivity.
  - exfalso. apply (Hv s). reflexivity.
  - destruct l; reflexivity.
  - destruct m; reflexivity.
Qed.

Lemma mem_per_cpu_absent cpus : mem_mb_per_cpu cpus None = None.
Proof. unfold mem_mb_per_cpu. destruct (int_of_json cpus); reflexivity. Qed.

(** Without a total, the profile has the six fixed lines and no more. *)
Lemma profile_without_memory resources lines mem :
  profile_lines resources = Ok lines ->
  resource resources "mem" (JStr "2G") = Ok mem ->
  parse_mem_to_mb mem = None ->
  List.length lines = 6%nat
  /\ forall l, In l lines -> prefix "  mem_mb_per_cpu" l = false.
Proof.
  unfold profile_lines. intros H Hm Hp. rewrite Hm in H.
  destruct (resource resources "job_name" (JStr "snakemake_job")); [|discriminate].
  destruct (resource resources "partition" (JStr "medium")); [|discriminate].
  destruct (resource resources "time" (JStr "01:00:00")); [|discriminate].
  destruct (resource resources "cpus_per_task" (JInt 1)); [|discriminate].
  cbv zeta in H. rewrite Hp, mem_per_cpu_absent in H.
  destruct (format_int _) as [runtime|]; [|discriminate].
  destruct (cpus_shown _) as [c|]; [|discriminate]. injection H as <-.
  split; [reflexivity|].
  intros l [<-|[<-|[<-|[<-|[<-|[<-|[]]]]]]]; reflexivity.
Qed.

(** C5, as the code has it. An amount of whole megabytes or gigabytes
    below [2^53] is converted exactly: trailing [G] gives the value times
    1024, trailing [M] the value, no suffix the bare number. In general the
    number is read as a binary64 float and the result cut to a whole
    number, so that text which is empty, which [float] refuses, or which is
    no text at all gives no value. The memory per cpu is
    [floor (total / max 1 cpus)], at least 1, for a total within [2^53], and
    is left out of the profile when there is no total. ["2G"] gives 2048,
    ["8000M"] gives 8000, [""] gives nothing, and 4096 MB over 4 cpus give
    1024 MB per cpu. *)
Theorem parse_mem_to_mb_spec :
  (forall ds, isdigit ds = true -> dec_value 0 ds < 2 ^ 53 ->
      parse_mem_to_mb (JStr (ds ++ "G")) = Some (dec_value 0 ds * 1024)
      /\ parse_mem_to_mb (JStr (ds ++ "M")) = Some (dec_value 0 ds)
      /\ parse_mem_to_mb (JStr ds) = Some (dec_value 0 ds))
  /\ (forall s, upper (strip s) = EmptyString -> parse_mem_to_mb (JStr s) = None)
  /\ (forall s, float_of_str (number_part (upper (strip s))) = None ->
                parse_mem_to_mb (JStr s) = None)
  /\ (forall v, (forall s, v <> JStr s) -> parse_mem_to_mb v = None)
  /\ (forall c total, - 2 ^ 53 < total < 2 ^ 53 ->
        mem_mb_per_cpu (JInt c) (Some total) = Some (Z.max 1 (total / Z.max 1 c)))
  /\ (forall cpus, mem_mb_per_cpu cpus None = None)
  /\ (forall resources lines mem,
        profile_lines resources = Ok lines ->
        resource resources "mem" (JStr "2G") = Ok mem ->
        parse_mem_to_mb mem = None ->
        List.length lines = 6%nat
        /\ forall l, In l lines -> prefix "  mem_mb_per_cpu" l = false)
  /\ parse_mem_to_mb (JStr "2G") = Some 2048
  /\ parse_mem_to_mb (JStr "8000M") = Some 8000
  /\ parse_mem_to_mb (JStr "") = None
  /\ parse_mem_to_mb (JStr "1.5G") = Some 1536
  /\ mem_mb_per_cpu (JInt 4) (Some 4096) = Some 1024.
Proof.
  split; [| split; [| split; [| split; [| split; [| split; [| split;
    [| repeat split]]]]]]].
  - intros ds H Hb. apply parse_mem_whole; assumption.
  - intros s Hs. unfold parse_mem_to_mb, parse_mem_text. rewrite Hs. reflexivity.
  - intros s Hs. apply parse_mem_unparsable, Hs.
  - apply parse_mem_not_text.
  - apply mem_per_cpu_floor.
  - apply mem_per_cpu_absent.
  - apply profile_without_memory.
Qed.

Lemma parse_mem_to_mb_spec_witness :
  parse_mem_to_mb (JStr "16G") = Some (16 * 1024)
  /\ parse_mem_to_mb (JStr "   ") = None
  /\ parse_mem_to_mb (JStr "lotsG") = None
  /\ parse_mem_to_mb (JStr (String "2" (String "028" "G"))) = None
  /\ parse_mem_to_mb (JInt 2048) = None
  /\ mem_mb_per_cpu (JInt 3) (Some 4096) = Some 1365
  /\ List.length ["executor: slurm"; "jobs: 50"; "default-resources:";
                  ("  slurm_partition: " ++ String "034" ("medium" ++ String "034" ""))%string;
                  "  runtime: 60"; "  cpus_per_task: 1"] = 6%nat.
Proof.
  destruct parse_mem_to_mb_spec
    as (Hwhole & Hempty & Hbad & Hother & Hcpu & _ & Hprofile & _).
  split; [| split; [| split; [| split; [| split; [| split]]]]].
  - exact (proj1 (Hwhole "16" eq_refl ltac:(vm_compute; reflexivity))).
  - apply Hempty. reflexivity.
  - apply Hbad. reflexivity.
  - apply Hbad. reflexivity.
  - apply Hother. discriminate.
  - apply (Hcpu 3 4096). split; vm_compute; reflexivity.
  - apply (Hprofile (JObj [("mem", JStr "n/a")]) _ (JStr "n/a")); reflexivity.
Defined.

(** C5 as stated fails for a very large total: the quotient is taken in
    binary64 arithmetic, and ["1E22M"] over 3 cpus is not
    [floor (10^22 / 3)]. *)
Lemma mem_per_cpu_not_floor :
  parse_mem_to_mb (JStr "1E22M") = Some (10 ^ 22)
  /\ mem_mb_per_cpu (JInt 3) (Some (10 ^ 22)) = Some 3333333333333333508096
  /\ Z.max 1 (10 ^ 22 / Z.max 1 3) = 3333333333333333333333
  /\ mem_mb_per_cpu (JInt 3) (parse_mem_to_mb (JStr "1E22M"))
     <> Some (Z.max 1 (10 ^ 22 / Z.max 1 3)).
Proof. repeat split. vm_compute. discriminate. Qed.

End Memory.
(** ** Log scraper (claim C8) *)

Module ScraperFacts.
Import Py Scraper Daemon PyFacts Eff.

Lemma insert_by_perm {A : Type} (le : A -> A -> bool) x l :
  Permutation (x :: l) (insert_by le x l).
Proof.
  induction l as [|y l IH]; simpl; [reflexivity|].
  destruct (le x y); [reflexivity|].
  rewrite perm_swap. apply perm_skip, IH.
Qed.

Lemma sorted_by_perm {A : Type} (le : A -> A -> bool) l :
  Permutation l (sorted_by le l).
Proof.
  induction l as [|x l IH]; simpl; [reflexivity|].
  rewrite <- insert_by_perm. apply perm_skip, IH.
Qed.

Lemma insert_sorted x l :
  StronglySorted Z.le l -> StronglySorted Z.le (insert_by Z.leb x l).
Proof.
  induction 1 as [|y l Hs IH Hy]; simpl; [repeat constructor|].
  destruct (Z.leb_spec x y).
  - constructor; [constructor; assumption|].
    constructor; [assumption|].
    eapply Forall_impl; [|exact Hy]. intros; lia.
  - constructor; [exact IH|].
    eapply Permutation_Forall; [apply insert_by_perm|].
    constructor; [lia | exact Hy].
Qed.

Lemma sorted_by_sorted l : StronglySorted Z.le (sorted_by Z.leb l).
Proof. induction l; simpl; [constructor | apply insert_sorted; assumption]. Qed.

Lemma sorted_nodup_strict l :
  StronglySorted Z.le l -> NoDup l -> StronglySorted Z.lt l.
Proof.
  induction 1 as [|x l Hs IH Hx]; intros Hn; [constructor|].
  inversion Hn as [|? ? Hnotin Hn']; subst.
  constructor; [apply IH, Hn'|].
  rewrite Forall_forall in *. intros y Hy. specialize (Hx y Hy).
  assert (x <> y) by (intros ->; contradiction). lia.
Qed.

Lemma existsb_eqb_In n ids : existsb (Z.eqb n) ids = true <-> In n ids.
Proof.
  rewrite existsb_exists. split.
  - intros (x & Hx & E). apply Z.eqb_eq in E. subst. exact Hx.
  - intros H. exists n. split; [exact H | apply Z.eqb_refl].
Qed.

Lemma set_add_In n m ids : In n (set_add m ids) <-> n = m \/ In n ids.
Proof.
  unfold set_add. destruct (existsb (Z.eqb m) ids) eqn:E.
  - apply existsb_eqb_In in E. split; [auto|]. intros [->|H]; assumption.
  - simpl. split; intros [H|H]; auto.
Qed.

Lemma set_add_NoDup m ids : NoDup ids -> NoDup (set_add m ids).
Proof.
  intros H. unfold set_add. destruct (existsb (Z.eqb m) ids) eqn:E; [exact H|].
  constructor; [|exact H]. intros Hin. apply existsb_eqb_In in Hin. congruence.
Qed.

Definition step_ids (ids : list Z) (line : string) : list Z :=
  match line_id line with
  | Some n => set_add n ids
  | None => ids
  end.

Lemma fold_ids_In ls : forall ids n,
  In n (fold_left step_ids ls ids) <->
  In n ids \/ exists line, In line ls /\ line_id line = Some n.
Proof.
  induction ls as [|l ls IH]; intros ids n; simpl.
  - split; [auto|]. intros [H|(x & [] & _)]. exact H.
  - rewrite IH. unfold step_ids. split.
    + intros [H|(x & Hx & E)].
      * destruct (line_id l) as [m|] eqn:El; [|auto].
        apply set_add_In in H. destruct H as [->|H]; [|auto].
        right. exists l. auto.
      * right. exists x. auto.
    + intros [H|(x & [<-|Hx] & E)].
      * left. destruct (line_id l); [apply set_add_In|]; auto.
      * left. rewrite E. apply set_add_In. auto.
      * right. exists x. auto.
Qed.

Lemma fold_ids_NoDup ls : forall ids, NoDup ids -> NoDup (fold_left step_ids ls ids).
Proof.
  induction ls as [|l ls IH]; intros ids H; simpl; [exact H|].
  apply IH. unfold step_ids. destruct (line_id l); [apply set_add_NoDup|]; exact H.
Qed.

Lemma extract_sorted log :
  StronglySorted Z.lt (extract_slurm_job_ids_from_log log).
Proof.
  destruct log as [text|]; simpl; [|constructor].
  apply sorted_nodup_strict; [apply sorted_by_sorted|].
  eapply Permutation_NoDup; [apply sorted_by_perm|].
  apply (fold_ids_NoDup (lines text) []). constructor.
Qed.

Lemma extract_In text n :
  In n (extract_slurm_job_ids_from_log (Some text)) <->
  exists line, In line (lines text) /\ line_id line = Some n.
Proof.
  simpl. split.
  - intros H. eapply Permutation_in in H; [|symmetry; apply sorted_by_perm].
    apply (fold_ids_In (lines text) [] n) in H. destruct H as [[]|H]. exact H.
  - intros H. eapply Permutation_in; [apply sorted_by_perm|].
    apply (fold_ids_In (lines text) [] n). right. exact H.
Qed.

Lemma last_char_cons c b :
  last_char (String c b) = Some (match last_char b with Some x => x | None => c end).
Proof.
  revert c. induction b as [|x b IH]; intros c; [reflexivity|].
  change (last_char (String c (String x b))) with (last_char (String x b)).
  rewrite IH. reflexivity.
Qed.

Definition before_or (before : string) (prev : option ascii) : option ascii :=
  match last_char before with
  | Some c => Some c
  | None => prev
  end.

Lemma before_or_cons c b prev : before_or (String c b) prev = before_or b (Some c).
Proof. unfold before_or. rewrite last_char_cons. destruct (last_char b); reflexivity. Qed.

Lemma before_or_none b : before_or b None = last_char b.
Proof. unfold before_or. destruct (last_char b); reflexivity. Qed.

(** [search] gives the group of the leftmost match. *)
Lemma search_leftmost ws s : forall prev d,
  search ws prev s = Some d <->
  exists before rest,
    s = (before ++ rest)%string
    /\ match_here ws (before_or before prev) rest = Some d
    /\ forall before' rest',
         s = (before' ++ rest')%string ->
         (String.length before' < String.length before)%nat ->
         match_here ws (before_or before' prev) rest' = None.
Proof.
  induction s as [|c s IH]; intros prev d; split.
  - cbn [search]. destruct (match_here ws prev EmptyString) eqn:E; [|discriminate].
    intros [= ->]. exists EmptyString, EmptyString.
    split; [reflexivity|]. split; [exact E|].
    intros b' r' _ Hlt. cbn [String.length] in Hlt. lia.
  - intros (b & r & Hs & Hm & _). destruct b; [|discriminate]. destruct r; [|discriminate].
    cbn [search]. change (before_or EmptyString prev) with prev in Hm.
    rewrite Hm. reflexivity.
  - cbn [search]. destruct (match_here ws prev (String c s)) eqn:E.
    + intros [= ->]. exists EmptyString, (String c s).
      split; [reflexivity|]. split; [exact E|].
      intros b' r' _ Hlt. cbn [String.length] in Hlt. lia.
    + intros H. apply IH in H. destruct H as (b & r & -> & Hm & Hfirst).
      exists (String c b), r. split; [reflexivity|].
      split; [rewrite before_or_cons; exact Hm|].
      intros b' r' Hs Hlt. destruct b' as [|c' b'].
      * cbn [String.append] in Hs. subst r'. exact E.
      * cbn [String.append] in Hs. injection Hs as <- Hs. rewrite before_or_cons.
        apply Hfirst; [exact Hs | cbn [String.length] in Hlt; lia].
  - intros (b & r & Hs & Hm & Hfirst). cbn [search]. destruct b as [|c' b].
    + cbn [String.append] in Hs. subst r.
      change (before_or EmptyString prev) with prev in Hm. rewrite Hm. reflexivity.
    + cbn [String.append] in Hs. injection Hs as <- Hs.
      assert (E : match_here ws prev (String c s) = None).
      { apply (Hfirst EmptyString (String c s)); [subst s; reflexivity|].
        cbn [String.length]. lia. }
      rewrite E. apply IH. exists b, r. split; [exact Hs|].
      split; [rewrite before_or_cons in Hm; exact Hm|].
      intros b' r' Hs' Hlt. rewrite <- (before_or_cons c b' prev). apply Hfirst.
      * cbn [String.append]. rewrite <- Hs'. reflexivity.
      * cbn [String.length]. lia.
Qed.

Lemma search_first ws line d :
  search ws None line = Some d <-> first_announced ws line d.
Proof.
  rewrite search_leftmost. unfold first_announced.
  split; intros (b & r & Hs & Hm & Hf); exists b, r; (split; [exact Hs|]).
  - rewrite before_or_none in Hm. split; [exact Hm|].
    intros b' r' H1 H2. rewrite <- before_or_none. apply Hf; assumption.
  - rewrite before_or_none. split; [exact Hm|].
    intros b' r' H1 H2. rewrite before_or_none. apply Hf; assumption.
Qed.

Lemma first_is_announced ws line d : first_announced ws line d -> announced ws line d.
Proof. intros (b & r & Hs & Hm & _). exists b, r. auto. Qed.

Lemma span_digits_fst s : all_digits (fst (span_digits s)) = true.
Proof.
  induction s as [|c s IH]; [reflexivity|]. cbn [span_digits].
  destruct (is_digit c) eqn:E; [|reflexivity].
  destruct (span_digits s) as [d r]. cbn [fst all_digits] in *. rewrite E, IH. reflexivity.
Qed.

Lemma id_here_digits s d : id_here s = Some d -> isdigit d = true.
Proof.
  unfold id_here. pose proof (span_digits_fst s) as H.
  destruct (span_digits s) as [d' r]. cbn [fst] in H.
  destruct d' as [|c d']; [discriminate|].
  destruct r as [|x r]; [|destruct (is_word x); [discriminate|]];
    intros [= <-]; exact H.
Qed.

(** The group of a match is a run of digits. *)
Lemma match_here_digits ws prev s d : match_here ws prev s = Some d -> isdigit d = true.
Proof.
  unfold match_here. destruct (word_start prev); [|discriminate].
  revert s. induction ws as [|w ws IH]; intros s; cbn [words_then_id].
  - apply id_here_digits.
  - destruct (lit_ci w s) as [r|]; [|discriminate].
    destruct (spaces1 r) as [r'|]; [|discriminate]. apply IH.
Qed.

(** [int] of the group: its value, unless it has more than 4300 digits. *)
Lemma int_of_group ws line d :
  announced ws line d ->
  isdigit d = true
  /\ int_of_str d = if (String.length d <=? 4300)%nat then Some (dec_value 0 d) else None.
Proof.
  intros (b & r & _ & Hm). pose proof (match_here_digits _ _ _ _ Hm) as Hd.
  split; [exact Hd|]. destruct (Nat.leb_spec (String.length d) 4300).
  - apply int_of_digits; assumption.
  - apply int_of_long_digits; assumption.
Qed.

(** The line gives [n] for the pattern: [int] of the group of its
    leftmost match is [n]. *)
Definition reads (ws : list string) (line : string) (n : Z) : Prop :=
  exists d, first_announced ws line d /\ int_of_str d = Some n.

Lemma found_reads ws line n : found ws line = Some n <-> reads ws line n.
Proof.
  unfold found, reads. split.
  - destruct (search ws None line) as [d|] eqn:E; [|discriminate].
    intros H. exists d. split; [apply search_first; exact E | exact H].
  - intros (d & Hf & Hi). apply search_first in Hf. rewrite Hf. exact Hi.
Qed.

Lemma found_nothing ws line : found ws line = None <-> forall n, ~ reads ws line n.
Proof.
  split.
  - intros E n H. apply found_reads in H. congruence.
  - intros H. destruct (found ws line) as [n|] eqn:E; [|reflexivity].
    exfalso. apply (H n). apply found_reads. exact E.
Qed.

(** A line gives the id of its first plugin announcement; that of its
    first sbatch announcement when the plugin pattern gives none. *)
Lemma line_id_reads line n :
  line_id line = Some n <->
  reads pat_plugin line n
  \/ ((forall m, ~ reads pat_plugin line m) /\ reads pat_sbatch line n).
Proof.
  unfold line_id. destruct (found pat_plugin line) as [m|] eqn:E.
  - split.
    + intros [= ->]. left. apply found_reads. exact E.
    + intros [H|[H _]].
      * apply found_reads in H. congruence.
      * exfalso. apply (H m). apply found_reads. exact E.
  - rewrite found_reads. split.
    + intros H. right. split; [apply found_nothing; exact E | exact H].
    + intros [H|[_ H]]; [apply found_reads in H; congruence | exact H].
Qed.

Lemma line_id_sound line n :
  line_id line = Some n ->
  exists d, int_of_str d = Some n
            /\ (announced pat_plugin line d \/ announced pat_sbatch line d).
Proof.
  intros H. apply line_id_reads in H.
  destruct H as [(d & Hf & Hi)|[_ (d & Hf & Hi)]]; exists d; (split; [exact Hi|]);
    [left | right]; apply first_is_announced; exact Hf.
Qed.

(** A turn of the monitor loop that finds the ids it knows writes nothing. *)
Lemma monitor_turn_quiet status_file run_id o w :
  exists w', monitor_turn status_file run_id (extract_slurm_job_ids_from_log (seen_log o)) o w
             = (Ok (extract_slurm_job_ids_from_log (seen_log o)), w')
             /\ trace w' = trace w
             /\ status_files w' = interference o (status_files w).
Proof.
  unfold monitor_turn, meet, bind, ask, set_files, ret.
  destruct (list_eq_dec Z.eq_dec _ _) as [_|Hne]; [|congruence].
  eexists. split; [reflexivity|]. split; reflexivity.
Qed.

Lemma monitor_turn_ids status_file run_id last o w ids w' :
  monitor_turn status_file run_id last o w = (Ok ids, w') ->
  ids = extract_slurm_job_ids_from_log (seen_log o).
Proof.
  unfold monitor_turn, meet, bind, ask, set_files, ret.
  destruct (list_eq_dec Z.eq_dec _ _) as [E|Hne].
  - intros [= <- _]. symmetry. exact E.
  - destruct (record_ids _ _ _ _) as [[[]|e] w1]; [|discriminate].
    intros [= <- _]. reflexivity.
Qed.

(** C8, as the code has it. The scraper returns a strictly increasing
    list, so sorted and without repetition. An integer is in it exactly
    when some line of the log yields it. A line yields at most one
    integer: [int] of the digits of its leftmost plugin-style announcement
    or, when the plugin pattern gives none (no announcement, or digits
    that [int] refuses), [int] of the digits of its leftmost
    submitted-batch-job announcement. What a pattern captures is a run of
    digits, and [int] refuses it only when it has more than 4300 digits.
    A missing or unreadable log gives the empty list. A turn of the
    monitor loop returns the ids it scraped, and a further turn over an
    unchanged log leaves the trace as it is: the status file is not
    rewritten. *)
Theorem extract_slurm_job_ids_spec :
  (forall log, StronglySorted Z.lt (extract_slurm_job_ids_from_log log))
  /\ (forall text n,
        In n (extract_slurm_job_ids_from_log (Some text)) <->
        exists line, In line (lines text) /\ line_id line = Some n)
  /\ (forall line n,
        line_id line = Some n <->
        reads pat_plugin line n
        \/ ((forall m, ~ reads pat_plugin line m) /\ reads pat_sbatch line n))
  /\ (forall ws line d,
        announced ws line d ->
        isdigit d = true
        /\ int_of_str d = if (String.length d <=? 4300)%nat
                          then Some (dec_value 0 d) else None)
  /\ extract_slurm_job_ids_from_log None = []
  /\ (forall status_file run_id last o w ids w1,
        monitor_turn status_file run_id last o w = (Ok ids, w1) ->
        ids = extract_slurm_job_ids_from_log (seen_log o)
        /\ forall o2, seen_log o2 = seen_log o ->
             exists w2, monitor_turn status_file run_id ids o2 w1 = (Ok ids, w2)
                        /\ trace w2 = trace w1
                        /\ status_files w2 = interference o2 (status_files w1)).
Proof.
  split; [| split; [| split; [| split; [| split]]]].
  - apply extract_sorted.
  - apply extract_In.
  - apply line_id_reads.
  - apply int_of_group.
  - reflexivity.
  - intros status_file run_id last o w ids w1 H.
    pose proof (monitor_turn_ids _ _ _ _ _ _ _ H) as ->.
    split; [reflexivity|]. intros o2 E. rewrite <- E. apply monitor_turn_quiet.
Qed.

Definition two_line_log : string :=
  "Job 3 has been submitted with SLURM jobid 12237391 (log: a)."
  ++ String "010" "Submitted batch job 77" ++ String "010" "".

Definition idle_world : World :=
  mkWorld "/home/u" [] (fun _ => false) (fun _ => false) (fun _ => Missing)
          (fun _ => "2024-01-01T00:00:00") 0
          (fun _ => mkEngineRun [] (mkObservation None (fun f => f)) 0
                                (mkObservation None (fun f => f)))
          [].

Lemma extract_slurm_job_ids_spec_witness :
  In 77 (extract_slurm_job_ids_from_log (Some two_line_log))
  /\ line_id "Submitted batch job 9 with SLURM jobid 5" = Some 5
  /\ int_of_str "12237391" = Some 12237391
  /\ exists w2,
       monitor_turn "/w/status.json" "1" [] (mkObservation None (fun f => f)) idle_world
       = (Ok [], w2) /\ trace w2 = trace idle_world.
Proof.
  destruct extract_slurm_job_ids_spec as (_ & Hin & Hline & Hint & _ & Hturn).
  split; [| split; [| split]].
  - apply Hin. exists "Submitted batch job 77". split; [right; left|]; reflexivity.
  - apply Hline. left. exists "5". split; [|reflexivity].
    apply search_first. reflexivity.
  - apply (Hint pat_plugin "SLURM jobid 12237391" "12237391").
    exists EmptyString, "SLURM jobid 12237391". split; reflexivity.
  - destruct (Hturn "/w/status.json" "1" [] (mkObservation None (fun f => f))
                    idle_world [] idle_world eq_refl) as [_ Hq].
    destruct (Hq (mkObservation None (fun f => f)) eq_refl) as (w2 & H1 & H2 & _).
    exists w2. split; assumption.
Defined.

(** C8 as stated fails: a line with two announcements yields its first id
    only, although the pattern matches the second one as well. *)
Lemma scraper_keeps_first_id_of_line :
  announced pat_plugin "SLURM jobid 1 SLURM jobid 2" "2"
  /\ int_of_str "2" = Some 2
  /\ extract_slurm_job_ids_from_log (Some "SLURM jobid 1 SLURM jobid 2") = [1]
  /\ ~ In 2 (extract_slurm_job_ids_from_log (Some "SLURM jobid 1 SLURM jobid 2")).
Proof.
  split; [| split; [| split]].
  - exists "SLURM jobid 1 ", "SLURM jobid 2". split; reflexivity.
  - reflexivity.
  - reflexivity.
  - intros [H|[]]. discriminate.
Qed.

End ScraperFacts.
(** ** Slurm state prober (claim C1) *)

Module Prober.
Import Py Agent PyFacts Eff.

Lemma skipn_app_exact {A : Type} (l l' : list A) : skipn (List.length l) (l ++ l') = l'.
Proof. induction l; simpl; auto. Qed.

Lemma states_put_app a b : states_put (a ++ b) = (states_put a ++ states_put b)%list.
Proof.
  induction a as [|e a IH]; simpl; [reflexivity|].
  destruct e; simpl; rewrite IH; reflexivity.
Qed.

(** Text that the removal of [COMPLETED] leaves empty is made of
    [COMPLETED] only. *)
Lemma removed_completed t :
  remove_all "COMPLETED" t = EmptyString ->
  t = EmptyString
  \/ exists r, t = ("COMPLETED" ++ r)%string /\ remove_all "COMPLETED" r = EmptyString.
Proof.
  unfold remove_all. intros H. destruct t as [|c t]; [auto|]. right.
  cbn [remove_from] in H. destruct (prefix "COMPLETED" (String c t)) eqn:E; [|discriminate].
  apply prefix_correct in E. simpl in E.
  destruct t as [|c1 [|c2 [|c3 [|c4 [|c5 [|c6 [|c7 [|c8 r]]]]]]]]; try discriminate.
  injection E as -> -> -> -> -> -> -> -> ->.
  exists r. split; [reflexivity|]. exact H.
Qed.

Lemma completed_only_clean : forall n t,
  (String.length t <= n)%nat ->
  remove_all "COMPLETED" t = EmptyString ->
  contains "CANCELLED" t = false /\ contains "FAILED" t = false.
Proof.
  induction n as [|n IH]; intros t Hn H.
  - destruct t; [split; reflexivity | simpl in Hn; lia].
  - destruct (removed_completed t H) as [->|(r & -> & Hr)]; [split; reflexivity|].
    assert (Hl : (String.length r <= n)%nat).
    { rewrite length_append in Hn. simpl in Hn. lia. }
    destruct (IH r Hl Hr) as [H1 H2].
    split; simpl; [exact H1 | exact H2].
Qed.

Lemma completed_clean t :
  remove_all "COMPLETED" t = EmptyString ->
  contains "CANCELLED" t = false /\ contains "FAILED" t = false.
Proof. apply (completed_only_clean (String.length t)). lia. Qed.

Section Probe.
Variable env : Env.
Variables slurm_id function_id : json.
Variable home_dir : string.
Hypothesis home_set : home env = Some home_dir.

Let text : string := accounting_text (stdout_of env (sacct_argv slurm_id)).

Definition in_flight : bool := contains "PENDING" text || contains "RUNNING" text.

(** The states the prober sends, as the code produces them. *)
Lemma prober_states :
  states_sent (control_slurm_job_state slurm_id function_id) env =
  if in_flight then []
  else ((if contains "CANCELLED" text then ["CANCELLED"] else [])
        ++ (if contains "FAILED" text then ["FAILED"] else [])
        ++ [if (String.length (remove_all "COMPLETED" text) =? 0)%nat
            then "COMPLETED" else "ProbFAILED"])%list.
Proof.
  unfold states_sent, in_flight, text, accounting_text, sacct_argv,
    control_slurm_job_state, run_post_slurm_command, run, update_slurm_id_running,
    bind, ask, emit, ret, raise. cbn [home stdout_of post_hook_exists trace fst snd].
  rewrite home_set.
  set (t := remove_all "State" _).
  destruct (contains "PENDING" t || contains "RUNNING" t).
  - cbn [snd trace]. rewrite skipn_app_exact. reflexivity.
  - destruct (post_hook_exists env);
      destruct (contains "CANCELLED" t), (contains "FAILED" t),
        (String.length (remove_all "COMPLETED" t) =? 0)%nat;
      cbn [snd trace home stdout_of post_hook_exists];
      rewrite <- ?app_assoc, skipn_app_exact; reflexivity.
Qed.

End Probe.

(** C1, as the code has it, for an agent whose HOME is set. Text holding
    PENDING or RUNNING: nothing is sent this time. Otherwise CANCELLED is
    sent for text that holds CANCELLED and FAILED for text that holds
    FAILED; text that is empty once COMPLETED is taken out is answered by
    the single state COMPLETED; any other text free of CANCELLED and FAILED
    is answered by the single state ProbFAILED, which is not FAILED. *)
Theorem control_slurm_job_state_spec env slurm_id function_id home_dir :
  home env = Some home_dir ->
  let text := accounting_text (stdout_of env (sacct_argv slurm_id)) in
  let sent := states_sent (control_slurm_job_state slurm_id function_id) env in
  (contains "PENDING" text || contains "RUNNING" text = true -> sent = [])
  /\ (contains "PENDING" text || contains "RUNNING" text = false ->
      (contains "CANCELLED" text = true -> In "CANCELLED" sent)
      /\ (contains "FAILED" text = true -> In "FAILED" sent)
      /\ (remove_all "COMPLETED" text = EmptyString -> sent = ["COMPLETED"])
      /\ (contains "CANCELLED" text = false -> contains "FAILED" text = false ->
          remove_all "COMPLETED" text <> EmptyString -> sent = ["ProbFAILED"]))
  /\ "ProbFAILED" <> "FAILED".
Proof.
  intros Hhome text sent. unfold sent.
  rewrite (prober_states env slurm_id function_id home_dir Hhome).
  unfold in_flight. fold text.
  split; [| split; [| discriminate]].
  - intros ->. reflexivity.
  - intros ->. split; [| split; [| split]].
    + intros ->. left. reflexivity.
    + intros ->. apply in_or_app. right. left. reflexivity.
    + intros E. destruct (completed_clean _ E) as [-> ->]. rewrite E. reflexivity.
    + intros -> -> E. destruct (remove_all "COMPLETED" text); [congruence | reflexivity].
Qed.

Definition sacct_says (out : string) : Env :=
  mkEnv (Some "/home/u") JNull JNull (fun _ => out) false [].

Definition newline : string := String "010" EmptyString.

Lemma control_slurm_job_state_spec_witness :
  states_sent (control_slurm_job_state (JInt 500) (JInt 7))
              (sacct_says ("State" ++ newline ++ "RUNNING" ++ newline)) = []
  /\ In "FAILED" (states_sent (control_slurm_job_state (JInt 500) (JInt 7))
                              (sacct_says ("State" ++ newline ++ "FAILED" ++ newline)))
  /\ states_sent (control_slurm_job_state (JInt 500) (JInt 7))
                 (sacct_says ("State" ++ newline ++ "COMPLETED" ++ newline
                              ++ "COMPLETED" ++ newline)) = ["COMPLETED"]
  /\ states_sent (control_slurm_job_state (JInt 500) (JInt 7))
                 (sacct_says ("State" ++ newline ++ "TIMEOUT" ++ newline)) = ["ProbFAILED"].
Proof.
  split; [| split; [| split]].
  - destruct (control_slurm_job_state_spec
                (sacct_says ("State" ++ newline ++ "RUNNING" ++ newline))
                (JInt 500) (JInt 7) "/home/u" eq_refl) as (H & _).
    apply H. reflexivity.
  - destruct (control_slurm_job_state_spec
                (sacct_says ("State" ++ newline ++ "FAILED" ++ newline))
                (JInt 500) (JInt 7) "/home/u" eq_refl) as (_ & H & _).
    destruct (H eq_refl) as (_ & Hf & _). apply Hf. reflexivity.
  - destruct (control_slurm_job_state_spec
                (sacct_says ("State" ++ newline ++ "COMPLETED" ++ newline
                             ++ "COMPLETED" ++ newline))
                (JInt 500) (JInt 7) "/home/u" eq_refl) as (_ & H & _).
    destruct (H eq_refl) as (_ & _ & Hc & _). apply Hc. reflexivity.
  - destruct (control_slurm_job_state_spec
                (sacct_says ("State" ++ newline ++ "TIMEOUT" ++ newline))
                (JInt 500) (JInt 7) "/home/u" eq_refl) as (_ & H & _).
    destruct (H eq_refl) as (_ & _ & _ & Hp). apply Hp; [reflexivity | reflexivity |].
    vm_compute. discriminate.
Defined.

(** C1 as stated fails: a finished job is reported as COMPLETED, not as
    FINISHED; and a cancelled job is reported twice, as CANCELLED and then
    as ProbFAILED. *)
Lemma prober_reports_completed_and_twice :
  states_sent (control_slurm_job_state (JInt 500) (JInt 7))
              (sacct_says ("State" ++ newline ++ "COMPLETED" ++ newline)) = ["COMPLETED"]
  /\ ["COMPLETED"] <> ["FINISHED"]
  /\ states_sent (control_slurm_job_state (JInt 500) (JInt 7))
                 (sacct_says ("State" ++ newline ++ "CANCELLED by 1000" ++ newline))
     = ["CANCELLED"; "ProbFAILED"].
Proof. split; [reflexivity | split; [discriminate | reflexivity]]. Qed.

End Prober.
(** ** Agent poller: a fresh job (claim C9) *)

Module FreshJob.
Import Py Agent PyFacts Prober Eff.

Lemma rstrip_char_head x s c t :
  rstrip_char x s = String c t -> exists t', s = String c t'.
Proof.
  destruct s as [|a s']; simpl; [discriminate|].
  destruct (rstrip_char x s'); [destruct (a =? x)%char|]; intros [= -> _]; eauto.
Qed.

Lemma digits_not_acknowledged out :
  isdigit (rstrip_char "010" out) = true -> startswith out "Submitted batch job" = false.
Proof.
  intros H. apply isdigit_cons in H. destruct H as (c & t & E & Hc & _).
  apply rstrip_char_head in E. destruct E as (t' & ->).
  unfold startswith. cbn [prefix].
  destruct (ascii_dec "S" c) as [<-|]; [vm_compute in Hc; discriminate Hc | reflexivity].
Qed.

Section Fresh.
Variable env : Env.
Variable d : dict.
Variables (name : string) (args : list json) (argv : list string) (function_id : json).
Variable home_dir : string.
Hypothesis job_is : new_job env = JObj d.
Hypothesis has_work : dict_mem "Bad_request" d = false.
Hypothesis well_formed : dict_mem "type" d = false.
Hypothesis no_cluster_id : dict_get "slurm_id" d = Some JNull.
Hypothesis has_name : dict_get "name" d = Some (JStr name).
Hypothesis has_args : dict_get "args" d = Some (JArr args).
Hypothesis args_are_text : strings args = Ok argv.
Hypothesis has_id : dict_get "function_id" d = Some function_id.
Hypothesis home_set : home env = Some home_dir.
Hypothesis home_not_empty : home_dir <> EmptyString.

Definition command : list string :=
  ((home_dir ++ "/functions/" ++ name ++ ".sh")%string :: argv ++ [str function_id])%list.

Lemma strings_app l1 : forall r1 l2 r2,
  strings l1 = Ok r1 -> strings l2 = Ok r2 -> strings (l1 ++ l2) = Ok (r1 ++ r2)%list.
Proof.
  induction l1 as [|v l1 IH]; intros r1 l2 r2; simpl.
  - intros [= <-] H. exact H.
  - destruct v; try discriminate. destruct (strings l1) eqn:E; [|discriminate].
    simpl. intros [= <-] H2. rewrite (IH _ _ _ eq_refl H2). reflexivity.
Qed.

(** The job step comes down to the classification of the script output. *)
Lemma job_step_fresh :
  let out := stdout_of env command in
  let trimmed := rstrip_char "010" out in
  events_of job_step env =
  (Executed command ::
   if isdigit trimmed || startswith out "Submitted batch job" then
     match int_of_str (if startswith out "Submitted batch job"
                       then drop 20 trimmed else trimmed) with
     | Some n => [SlurmStatePut (str function_id) "BatchJobRunning" (JInt n)]
     | None => []
     end
   else [StatePut (str function_id) "FINISHED"])%list.
Proof.
  intros out trimmed. unfold events_of, job_step, bind, ask, lift. rewrite job_is.
  unfold contains_key. rewrite has_work, well_formed.
  unfold getitem. rewrite no_cluster_id. cbn [is_none negb].
  unfold run_fresh_job, execute_function, home_or_exit, bind, ask, lift, getitem, raise, ret.
  rewrite home_set.
  destruct (String.eqb_spec home_dir EmptyString) as [->|_]; [congruence|].
  rewrite has_name, has_args, has_id. cbn [script_path unpack].
  assert (Es : strings (JStr (home_dir ++ "/functions/" ++ name ++ ".sh")
                        :: args ++ [JStr (str function_id)])%list = Ok command).
  { change (strings (JStr ?s :: ?l)) with (and_then (strings l) (fun r => Ok (s :: r))).
    rewrite (strings_app args argv [JStr (str function_id)] [str function_id]
               args_are_text eq_refl). reflexivity. }
  rewrite Es. unfold run, emit, bind, ask.
  cbn [home checksum_job new_job stdout_of post_hook_exists trace fst snd].
  fold out. fold trimmed.
  destruct (isdigit trimmed || startswith out "Submitted batch job").
  - unfold int_of_json.
    destruct (int_of_str (if startswith out "Submitted batch job"
                          then drop 20 trimmed else trimmed)) as [n|].
    + unfold update_slurm_id_running, emit.
      cbn [home checksum_job new_job stdout_of post_hook_exists trace fst snd].
      rewrite <- app_assoc, skipn_app_exact. reflexivity.
    + cbn [snd trace]. rewrite skipn_app_exact. reflexivity.
  - unfold update_job_status, emit.
    cbn [home checksum_job new_job stdout_of post_hook_exists trace fst snd].
    rewrite <- app_assoc, skipn_app_exact. reflexivity.
Qed.

(** How the job step ends: [exit()] after a report with a cluster id, a
    [ValueError] when [int] refuses the id, a return after FINISHED. *)
Lemma job_step_fresh_ends :
  let out := stdout_of env command in
  let trimmed := rstrip_char "010" out in
  fst (job_step env) =
  if isdigit trimmed || startswith out "Submitted batch job" then
    match int_of_str (if startswith out "Submitted batch job"
                      then drop 20 trimmed else trimmed) with
    | Some n => Raise SystemExit
    | None => Raise ValueError
    end
  else Ok tt.
Proof.
  intros out trimmed. unfold job_step, bind, ask, lift. rewrite job_is.
  unfold contains_key. rewrite has_work, well_formed.
  unfold getitem. rewrite no_cluster_id. cbn [is_none negb].
  unfold run_fresh_job, execute_function, home_or_exit, bind, ask, lift, getitem, raise, ret.
  rewrite home_set.
  destruct (String.eqb_spec home_dir EmptyString) as [->|_]; [congruence|].
  rewrite has_name, has_args, has_id. cbn [script_path unpack].
  assert (Es : strings (JStr (home_dir ++ "/functions/" ++ name ++ ".sh")
                        :: args ++ [JStr (str function_id)])%list = Ok command).
  { change (strings (JStr ?s :: ?l)) with (and_then (strings l) (fun r => Ok (s :: r))).
    rewrite (strings_app args argv [JStr (str function_id)] [str function_id]
               args_are_text eq_refl). reflexivity. }
  rewrite Es. unfold run, emit, bind, ask.
  cbn [home checksum_job new_job stdout_of post_hook_exists trace fst snd].
  fold out. fold trimmed.
  destruct (isdigit trimmed || startswith out "Submitted batch job").
  - unfold int_of_json.
    destruct (int_of_str (if startswith out "Submitted batch job"
                          then drop 20 trimmed else trimmed)) as [n|]; reflexivity.
  - reflexivity.
Qed.

End Fresh.

Definition acknowledging_job : dict :=
  [("function_id", JInt 9); ("name", JStr "init"); ("args", JArr [JStr "wf1.smk"]);
   ("slurm_id", JNull)].

(** The agent of scenario E2E-3: the script of the fresh job prints the
    acknowledgement of [sbatch]. *)
Definition acknowledging_env : Env :=
  mkEnv (Some "/home/u") (JObj [("Bad_request", JStr "no checksum job")])
        (JObj acknowledging_job)
        (fun _ => ("Submitted batch job 77531" ++ String "010" EmptyString)%string)
        false [].

(** C9, as the code has it: a job without a recorded cluster id is
    executed as [$HOME/functions/<name>.sh], with its arguments and then its
    own id; this job step is all [main_loop] does when no checksum is due. When the output without its final line feeds is a run of at
    most 4300 digits, the agent sends the state BatchJobRunning with that
    number. When the output begins with [Submitted batch job], the agent
    drops the first 20 characters of the output without its final line
    feeds and hands the rest to [int]: it sends BatchJobRunning with the
    integer [int] gives, and when [int] refuses the rest it ends with a
    [ValueError], having sent nothing. Any output of neither kind is
    answered by FINISHED. A script printing [Submitted batch job 77531]
    leads to BatchJobRunning with id 77531. *)
Theorem fresh_job_classified env d name args argv function_id home_dir :
  new_job env = JObj d ->
  dict_mem "Bad_request" d = false ->
  dict_mem "type" d = false ->
  dict_get "slurm_id" d = Some JNull ->
  dict_get "name" d = Some (JStr name) ->
  dict_get "args" d = Some (JArr args) ->
  strings args = Ok argv ->
  dict_get "function_id" d = Some function_id ->
  home env = Some home_dir ->
  home_dir <> EmptyString ->
  let cmd := ((home_dir ++ "/functions/" ++ name ++ ".sh")%string
              :: argv ++ [str function_id])%list in
  let out := stdout_of env cmd in
  let trimmed := rstrip_char "010" out in
  (isdigit trimmed = true -> (String.length trimmed <= 4300)%nat ->
   events_of job_step env =
   [Executed cmd;
    SlurmStatePut (str function_id) "BatchJobRunning" (JInt (dec_value 0 trimmed))])
  /\ (forall n, startswith out "Submitted batch job" = true ->
                int_of_str (drop 20 trimmed) = Some n ->
                events_of job_step env =
                [Executed cmd; SlurmStatePut (str function_id) "BatchJobRunning" (JInt n)])
  /\ (startswith out "Submitted batch job" = true ->
      int_of_str (drop 20 trimmed) = None ->
      events_of job_step env = [Executed cmd]
      /\ fst (job_step env) = Raise ValueError)
  /\ (isdigit trimmed = false -> startswith out "Submitted batch job" = false ->
      events_of job_step env = [Executed cmd; StatePut (str function_id) "FINISHED"])
  /\ (forall c, checksum_job env = JObj c -> dict_mem "Bad_request" c = true ->
                main_loop env = job_step env)
  /\ events_of main_loop acknowledging_env =
     [Executed ["/home/u/functions/init.sh"; "wf1.smk"; "9"];
      SlurmStatePut "9" "BatchJobRunning" (JInt 77531)].
Proof.
  intros Hjob Hwork Hwf Hnull Hname Hargs Hargv Hid Hhome Hne cmd out trimmed.
  pose proof (job_step_fresh env d name args argv function_id home_dir
                Hjob Hwork Hwf Hnull Hname Hargs Hargv Hid Hhome Hne) as E.
  pose proof (job_step_fresh_ends env d name args argv function_id home_dir
                Hjob Hwork Hwf Hnull Hname Hargs Hargv Hid Hhome Hne) as R.
  unfold command in E, R. cbv zeta in E, R.
  fold cmd in E, R. fold out in E, R. fold trimmed in E, R.
  split; [| split; [| split; [| split; [| split]]]].
  - intros Hd Hlen. rewrite E, Hd, (digits_not_acknowledged out Hd).
    cbn [orb]. rewrite (int_of_digits _ Hd Hlen). reflexivity.
  - intros n Hp Hn. rewrite E, Hp, orb_true_r, Hn. reflexivity.
  - intros Hp Hn. rewrite E, R, Hp, orb_true_r, Hn. split; reflexivity.
  - intros Hd Hp. rewrite E, Hd, Hp. reflexivity.
  - intros c Hc Hb. unfold main_loop, checksum_step. unfold bind at 1. unfold bind at 1.
    unfold ask at 1. cbv beta iota. rewrite Hc, Hb. reflexivity.
  - reflexivity.
Qed.

Definition numeric_env : Env :=
  mkEnv (Some "/home/u") JNull (JObj acknowledging_job)
        (fun _ => ("4711" ++ String "010" EmptyString)%string) false [].

Definition synchronous_env : Env :=
  mkEnv (Some "/home/u") JNull (JObj acknowledging_job) (fun _ => "done") false [].

(** The script of the fresh job prints [text] and a line feed. *)
Definition printing_env (text : string) : Env :=
  mkEnv (Some "/home/u") (JObj [("Bad_request", JStr "no checksum job")])
        (JObj acknowledging_job)
        (fun _ => (text ++ String "010" EmptyString)%string)
        false [].

Lemma fresh_job_classified_witness :
  events_of job_step numeric_env =
  [Executed ["/home/u/functions/init.sh"; "wf1.smk"; "9"];
   SlurmStatePut "9" "BatchJobRunning" (JInt 4711)]
  /\ events_of job_step acknowledging_env =
     [Executed ["/home/u/functions/init.sh"; "wf1.smk"; "9"];
      SlurmStatePut "9" "BatchJobRunning" (JInt 77531)]
  /\ (events_of job_step (printing_env "Submitted batch job 77531.") =
      [Executed ["/home/u/functions/init.sh"; "wf1.smk"; "9"]]
      /\ fst (job_step (printing_env "Submitted batch job 77531.")) = Raise ValueError)
  /\ events_of job_step synchronous_env =
     [Executed ["/home/u/functions/init.sh"; "wf1.smk"; "9"]; StatePut "9" "FINISHED"].
Proof.
  split; [| split; [| split]].
  - destruct (fresh_job_classified numeric_env acknowledging_job "init" [JStr "wf1.smk"]
                ["wf1.smk"] (JInt 9) "/home/u" eq_refl eq_refl eq_refl eq_refl eq_refl
                eq_refl eq_refl eq_refl eq_refl ltac:(discriminate)) as (H & _).
    exact (H eq_refl ltac:(cbn; lia)).
  - destruct (fresh_job_classified acknowledging_env acknowledging_job "init"
                [JStr "wf1.smk"] ["wf1.smk"] (JInt 9) "/home/u" eq_refl eq_refl eq_refl
                eq_refl eq_refl eq_refl eq_refl eq_refl eq_refl ltac:(discriminate))
      as (_ & H & _).
    exact (H 77531 eq_refl eq_refl).
  - destruct (fresh_job_classified (printing_env "Submitted batch job 77531.")
                acknowledging_job "init"
                [JStr "wf1.smk"] ["wf1.smk"] (JInt 9) "/home/u" eq_refl eq_refl eq_refl
                eq_refl eq_refl eq_refl eq_refl eq_refl eq_refl ltac:(discriminate))
      as (_ & _ & H & _).
    exact (H eq_refl eq_refl).
  - destruct (fresh_job_classified synchronous_env acknowledging_job "init"
                [JStr "wf1.smk"] ["wf1.smk"] (JInt 9) "/home/u" eq_refl eq_refl eq_refl
                eq_refl eq_refl eq_refl eq_refl eq_refl eq_refl ltac:(discriminate))
      as (_ & _ & _ & H & _).
    exact (H eq_refl eq_refl).
Defined.

(** C9 as stated fails. An output that begins with the acknowledgement
    and goes on after the id is of the first kind of the claim, and gets
    neither a running report nor FINISHED: the agent ends with a
    [ValueError]. And the id is not parsed out after the prefix: the first
    20 characters are dropped, one more than the prefix has, so that of an
    id that follows the prefix at once the first digit is lost. *)
Lemma acknowledgement_is_cut_at_20 :
  startswith "Submitted batch job 77531 on cluster hpc" "Submitted batch job" = true
  /\ events_of main_loop (printing_env "Submitted batch job 77531 on cluster hpc") =
     [Executed ["/home/u/functions/init.sh"; "wf1.smk"; "9"]]
  /\ fst (main_loop (printing_env "Submitted batch job 77531 on cluster hpc"))
     = Raise ValueError
  /\ String.length "Submitted batch job" = 19%nat
  /\ events_of main_loop (printing_env "Submitted batch job77531") =
     [Executed ["/home/u/functions/init.sh"; "wf1.smk"; "9"];
      SlurmStatePut "9" "BatchJobRunning" (JInt 7531)].
Proof. repeat split. Qed.

End FreshJob.
(** ** The run daemon: malformed status documents (claim C2) *)

Module DaemonFacts.
Import Py SnakeD Scraper Daemon PyFacts Eff.

Lemma bind_ok {S A B : Type} (c : M S A) (k : A -> M S B) w a w1 :
  c w = (Ok a, w1) -> bind c k w = k a w1.
Proof. unfold bind. intros ->. reflexivity. Qed.

Lemma bind_raise {S A B : Type} (c : M S A) (k : A -> M S B) w e w1 :
  c w = (Raise e, w1) -> bind c k w = (Raise e, w1).
Proof. unfold bind. intros ->. reflexivity. Qed.

Lemma bind_inv_ok {S A B : Type} (c : M S A) (k : A -> M S B) w b w' :
  bind c k w = (Ok b, w') -> exists a w1, c w = (Ok a, w1) /\ k a w1 = (Ok b, w').
Proof.
  unfold bind. destruct (c w) as [[a|e] w1]; [eauto | discriminate].
Qed.

(** A launch that comes back has run the engine to its end. *)
Lemma launch_returns_true job_id status_file status job_dir run_id snakefile_name w b w' :
  launch job_id status_file status job_dir run_id snakefile_name w = (Ok b, w') ->
  b = true.
Proof.
  unfold launch. intros H.
  repeat (apply bind_inv_ok in H; destruct H as (? & ? & _ & H)).
  unfold Eff.ret in H. congruence.
Qed.

Definition error_line (msg : string) : Prop := prefix "[ERROR]" msg = true.

(** A job that is passed over leaves every status file as it was, and the
    trace longer by at most one line, which reports an error. *)
(** Case analysis on the innermost test of a computation that is known to
    have returned. *)
Ltac split_run H :=
  repeat (match type of H with
          | context [match ?x with _ => _ end] =>
              lazymatch x with
              | context [match _ with _ => _ end] => fail
              | _ => destruct x eqn:?
              end
          end; cbv beta iota in H; try discriminate H).

Lemma handle_job_skip job_id watch_dir w w' :
  handle_job job_id watch_dir w = (Ok false, w') ->
  w' = w \/ exists msg, error_line msg /\ w' = with_event (Printed msg) w.
Proof.
  unfold handle_job, load_json, isdir_json, join_json, print, emit.
  unfold bind, ask, lift, Eff.ret, Eff.raise, get_method. intros H.
  split_run H;
    try (apply launch_returns_true in H; discriminate H);
    injection H as <-;
    first [ left; reflexivity
          | right; eexists; split; [|reflexivity]; reflexivity ].
Qed.

Lemma handle_job_unparsable job_id watch_dir w :
  status_files w (path_join watch_dir "status.json") = Unparsable ->
  handle_job job_id watch_dir w = (Raise JSONDecodeError, w).
Proof.
  intros H. unfold handle_job, load_json, bind, ask, Eff.raise.
  cbv beta iota. rewrite H. cbv beta iota. rewrite H. reflexivity.
Qed.

Lemma handle_job_no_job_dir job_id watch_dir w d :
  status_files w (path_join watch_dir "status.json") = Document (JObj d) ->
  truthy (match dict_get "job_dir" d with Some x => x | None => JNull end) = false ->
  handle_job job_id watch_dir w =
  (Ok false, with_event (Printed ("[ERROR] job_dir missing in status.json for job "
                                  ++ job_id)) w).
Proof.
  intros H Ht. unfold handle_job, load_json, bind, ask, lift, Eff.ret, get_method.
  cbv beta iota. rewrite H. cbv beta iota. rewrite H. cbv beta iota. rewrite Ht.
  reflexivity.
Qed.

Lemma or_else_dict r k default :
  get_method (or_else (JObj r) (JObj [])) k default
  = Ok (match dict_get k r with Some x => x | None => default end).
Proof. destruct r; reflexivity. Qed.

Lemma handle_job_not_a_directory job_id watch_dir w d p :
  status_files w (path_join watch_dir "status.json") = Document (JObj d) ->
  dict_get "job_dir" d = Some (JStr p) ->
  p <> EmptyString ->
  is_dir w p = false ->
  handle_job job_id watch_dir w =
  (Ok false, with_event (Printed ("[ERROR] job_dir does not exist for job "
                                  ++ job_id ++ ": " ++ p)) w).
Proof.
  intros H Hj Hp Hd. unfold handle_job, load_json, bind, ask, lift, Eff.ret, get_method.
  cbv beta iota. rewrite H. cbv beta iota. rewrite H. cbv beta iota. rewrite Hj.
  cbn [truthy]. destruct (String.eqb_spec p "") as [->|_]; [congruence|].
  cbn [negb isdir_json]. unfold ask. rewrite Hd. reflexivity.
Qed.

Lemma handle_job_no_snakefile job_id watch_dir w d p run_id runs r :
  status_files w (path_join watch_dir "status.json") = Document (JObj d) ->
  dict_get "job_dir" d = Some (JStr p) ->
  p <> EmptyString ->
  is_dir w p = true ->
  pick_queued_run d = Some run_id ->
  dict_get "runs" d = Some (JObj runs) ->
  dict_get run_id runs = Some (JObj r) ->
  truthy (match dict_get "snakefile" r with Some x => x | None => JNull end) = false ->
  handle_job job_id watch_dir w =
  (Ok false, with_event (Printed ("[ERROR] snakefile missing for job " ++ job_id
                                  ++ " run " ++ run_id)) w).
Proof.
  intros H Hj Hp Hd Hpick Hruns Hrun Hs.
  unfold handle_job, load_json, bind, ask, lift, Eff.ret.
  cbv beta iota. rewrite H. cbv beta iota. rewrite H. cbv beta iota.
  cbn [get_method]. rewrite Hj.
  cbn [truthy]. destruct (String.eqb_spec p "") as [->|_]; [congruence|].
  cbn [negb isdir_json]. unfold ask. rewrite Hd. cbn [negb]. rewrite Hpick, Hruns.
  cbn [get_method]. rewrite Hrun, or_else_dict. cbv beta iota. rewrite Hs. reflexivity.
Qed.

Lemma handle_job_snakefile_not_found job_id watch_dir w d p run_id runs r name :
  status_files w (path_join watch_dir "status.json") = Document (JObj d) ->
  dict_get "job_dir" d = Some (JStr p) ->
  p <> EmptyString ->
  is_dir w p = true ->
  pick_queued_run d = Some run_id ->
  dict_get "runs" d = Some (JObj runs) ->
  dict_get run_id runs = Some (JObj r) ->
  dict_get "snakefile" r = Some (JStr name) ->
  name <> EmptyString ->
  is_file w (path_join p name) = false ->
  handle_job job_id watch_dir w =
  (Ok false, with_event (Printed ("[ERROR] snakefile not found for job " ++ job_id
                                  ++ " run " ++ run_id ++ ": " ++ path_join p name)) w).
Proof.
  intros H Hj Hp Hd Hpick Hruns Hrun Hs Hn Hf.
  unfold handle_job, load_json, bind, ask, lift, Eff.ret.
  cbv beta iota. rewrite H. cbv beta iota. rewrite H. cbv beta iota.
  cbn [get_method]. rewrite Hj.
  cbn [truthy]. destruct (String.eqb_spec p "") as [->|_]; [congruence|].
  cbn [negb isdir_json]. unfold ask. rewrite Hd. cbn [negb]. rewrite Hpick, Hruns.
  cbn [get_method]. rewrite Hrun, or_else_dict. cbv beta iota. rewrite Hs.
  cbn [truthy]. destruct (String.eqb_spec name "") as [->|_]; [congruence|].
  cbn [negb join_json str]. unfold Eff.ret. rewrite Hf. reflexivity.
Qed.

Lemma visit_cons job_id rest w :
  visit (job_id :: rest) w =
  if is_dir w (path_join (watch_base_dir w) job_id)
  then match handle_job job_id (path_join (watch_base_dir w) job_id) w with
       | (Ok _, w') => visit rest w'
       | (Raise e, w') => (Raise e, w')
       end
  else visit rest w.
Proof.
  cbn [visit]. unfold bind, ask, Eff.ret.
  destruct (is_dir w _); [|reflexivity].
  destruct (handle_job _ _ w) as [[b|e] w']; reflexivity.
Qed.

Lemma cycles_raise n w e w' :
  visit (listing w) w = (Raise e, w') -> cycles (S n) w = (Raise e, w').
Proof.
  intros H. cbn [cycles]. unfold poll_cycle, bind, ask. rewrite H. reflexivity.
Qed.

(** C2, as the code has it. For a job directory of the watch directory:
    a status file that cannot be parsed raises [JSONDecodeError] out of
    [handle_job]; the loop over the directories does not catch it, so the
    remaining jobs are not visited and [main_loop] ends with the exception.
    A job that [handle_job] passes over is left with its status files
    untouched, no document empty or otherwise is written in its place, at
    most one [ERROR] line is printed, and the loop goes on to the next
    directory. A document is passed over in this way, with its [ERROR]
    line, when it has no [job_dir], when its [job_dir] is not a directory,
    when the selected run has no [snakefile], and when the snakefile is
    not a file of the job directory. *)
Theorem malformed_status_handling w job_id rest :
  let watch_dir := path_join (watch_base_dir w) job_id in
  let status_file := path_join watch_dir "status.json" in
  is_dir w watch_dir = true ->
  (status_files w status_file = Unparsable ->
   handle_job job_id watch_dir w = (Raise JSONDecodeError, w)
   /\ visit (job_id :: rest) w = (Raise JSONDecodeError, w))
  /\ (forall e w', visit (listing w) w = (Raise e, w') ->
        forall n, cycles (S n) w = (Raise e, w'))
  /\ (forall w', handle_job job_id watch_dir w = (Ok false, w') ->
        (w' = w \/ exists msg, error_line msg /\ w' = with_event (Printed msg) w)
        /\ status_files w' = status_files w
        /\ visit (job_id :: rest) w = visit rest w')
  /\ (forall d, status_files w status_file = Document (JObj d) ->
        truthy (match dict_get "job_dir" d with Some x => x | None => JNull end) = false ->
        handle_job job_id watch_dir w =
        (Ok false, with_event (Printed ("[ERROR] job_dir missing in status.json for job "
                                        ++ job_id)) w))
  /\ (forall d p, status_files w status_file = Document (JObj d) ->
        dict_get "job_dir" d = Some (JStr p) ->
        p <> EmptyString ->
        is_dir w p = false ->
        handle_job job_id watch_dir w =
        (Ok false, with_event (Printed ("[ERROR] job_dir does not exist for job "
                                        ++ job_id ++ ": " ++ p)) w))
  /\ (forall d p run_id runs r, status_files w status_file = Document (JObj d) ->
        dict_get "job_dir" d = Some (JStr p) ->
        p <> EmptyString ->
        is_dir w p = true ->
        pick_queued_run d = Some run_id ->
        dict_get "runs" d = Some (JObj runs) ->
        dict_get run_id runs = Some (JObj r) ->
        truthy (match dict_get "snakefile" r with Some x => x | None => JNull end) = false ->
        handle_job job_id watch_dir w =
        (Ok false, with_event (Printed ("[ERROR] snakefile missing for job " ++ job_id
                                        ++ " run " ++ run_id)) w))
  /\ (forall d p run_id runs r name, status_files w status_file = Document (JObj d) ->
        dict_get "job_dir" d = Some (JStr p) ->
        p <> EmptyString ->
        is_dir w p = true ->
        pick_queued_run d = Some run_id ->
        dict_get "runs" d = Some (JObj runs) ->
        dict_get run_id runs = Some (JObj r) ->
        dict_get "snakefile" r = Some (JStr name) ->
        name <> EmptyString ->
        is_file w (path_join p name) = false ->
        handle_job job_id watch_dir w =
        (Ok false, with_event (Printed ("[ERROR] snakefile not found for job " ++ job_id
                                        ++ " run " ++ run_id ++ ": "
                                        ++ path_join p name)) w)).
Proof.
  intros watch_dir status_file Hdir.
  split; [| split; [| split; [| split; [| split; [| split]]]]].
  - intros H. pose proof (handle_job_unparsable job_id watch_dir w H) as Hh.
    split; [exact Hh|]. rewrite visit_cons. fold watch_dir. rewrite Hdir, Hh. reflexivity.
  - intros e w' H n. apply cycles_raise, H.
  - intros w' H. pose proof (handle_job_skip _ _ _ _ H) as Hs.
    split; [exact Hs|]. split.
    + destruct Hs as [->|(msg & _ & ->)]; reflexivity.
    + rewrite visit_cons. fold watch_dir. rewrite Hdir, H. reflexivity.
  - intros d H Ht. apply handle_job_no_job_dir with (d := d); assumption.
  - intros d p H Hj Hp Hd. apply handle_job_not_a_directory with (d := d); assumption.
  - intros d p run_id runs r H Hj Hp Hd Hpick Hruns Hrun Hs.
    apply handle_job_no_snakefile with (d := d) (p := p) (runs := runs) (r := r); assumption.
  - intros d p run_id runs r name H Hj Hp Hd Hpick Hruns Hrun Hs Hn Hf.
    apply handle_job_snakefile_not_found with (d := d) (runs := runs) (r := r); assumption.
Qed.

(** A watch directory with two jobs: the status file of job [a] is not
    JSON; job [b] has a run ready to start. *)
Definition ready_doc : json :=
  JObj [("job_dir", JStr "/w/b"); ("active_run_id", JNull);
        ("runs", JObj [("1", JObj [("state", JStr "QUEUED");
                                   ("snakefile", JStr "wf1.smk")])])].

Definition still (log : option string) : observation := mkObservation log (fun f => f).

Definition short_run : engine_run :=
  mkEngineRun [] (still (Some EmptyString)) 0 (still (Some EmptyString)).

Definition watch_of (jobs : list string) : World :=
  mkWorld "/home/u" jobs
          (fun p => (p =? "/home/u/BA_Code/Agent/job-watch/a")%string
                    || (p =? "/home/u/BA_Code/Agent/job-watch/b")%string
                    || (p =? "/w/b")%string)
          (fun p => (p =? "/w/b/wf1.smk")%string)
          (fun p =>
             if (p =? "/home/u/BA_Code/Agent/job-watch/a/status.json")%string
             then Unparsable
             else if (p =? "/home/u/BA_Code/Agent/job-watch/b/status.json")%string
                  then Document ready_doc
                  else Missing)
          (fun _ => "2024-01-01T00:00:00") 0 (fun _ => short_run) [].

Definition no_job_dir_world : World :=
  mkWorld "/home/u" ["c"]
          (fun p => (p =? "/home/u/BA_Code/Agent/job-watch/c")%string)
          (fun _ => false)
          (fun p =>
             if (p =? "/home/u/BA_Code/Agent/job-watch/c/status.json")%string
             then Document (JObj [("runs", JObj [])])
             else Missing)
          (fun _ => "2024-01-01T00:00:00") 0 (fun _ => short_run) [].

(** The job directory of job [b] is there, the snakefile of its run is not. *)
Definition no_snakefile_world : World :=
  mkWorld "/home/u" ["b"]
          (fun p => (p =? "/home/u/BA_Code/Agent/job-watch/b")%string
                    || (p =? "/w/b")%string)
          (fun _ => false)
          (fun p =>
             if (p =? "/home/u/BA_Code/Agent/job-watch/b/status.json")%string
             then Document ready_doc
             else Missing)
          (fun _ => "2024-01-01T00:00:00") 0 (fun _ => short_run) [].

Lemma malformed_status_handling_witness :
  visit ["a"; "b"] (watch_of ["a"; "b"]) = (Raise JSONDecodeError, watch_of ["a"; "b"])
  /\ visit ["c"] no_job_dir_world
     = visit [] (with_event (Printed "[ERROR] job_dir missing in status.json for job c")
                            no_job_dir_world)
  /\ handle_job "b" "/home/u/BA_Code/Agent/job-watch/b" no_snakefile_world
     = (Ok false,
        with_event (Printed "[ERROR] snakefile not found for job b run 1: /w/b/wf1.smk")
                   no_snakefile_world).
Proof.
  split; [| split].
  - destruct (malformed_status_handling (watch_of ["a"; "b"]) "a" ["b"] eq_refl)
      as (H & _).
    exact (proj2 (H eq_refl)).
  - destruct (malformed_status_handling no_job_dir_world "c" [] eq_refl)
      as (_ & _ & Hskip & Hdoc & _).
    specialize (Hdoc [("runs", JObj [])] eq_refl eq_refl).
    exact (proj2 (proj2 (Hskip _ Hdoc))).
  - destruct (malformed_status_handling no_snakefile_world "b" [] eq_refl)
      as (_ & _ & _ & _ & _ & _ & Hfile).
    exact (Hfile _ "/w/b" "1" _ _ "wf1.smk" eq_refl eq_refl ltac:(discriminate) eq_refl
                 eq_refl eq_refl eq_refl eq_refl ltac:(discriminate) eq_refl).
Defined.

(** C2 as stated fails: with the corrupt status file of job [a] in the
    watch directory the daemon ends with [JSONDecodeError] in its first
    turn, and job [b], whose run is ready and is started when [b] is alone,
    is never visited. *)
Lemma corrupt_status_ends_daemon :
  fst (main_loop 1 (watch_of ["a"; "b"])) = Raise JSONDecodeError
  /\ trace (snd (main_loop 1 (watch_of ["a"; "b"])))
     = [Printed "[INFO] SnakeD started, polling for jobs...";
        MadeDirs "/home/u/BA_Code/Agent/job-watch"]
  /\ fst (main_loop 1 (watch_of ["b"])) = Ok tt
  /\ In (Spawned "/w/b" "/w/b/wf1.smk" "/w/b/.mcse_profile_run1" "/w/b/snakemake_run1.log")
        (trace (snd (main_loop 1 (watch_of ["b"])))).
Proof.
  split; [| split; [| split]]; vm_compute; try reflexivity.
  repeat (try (left; reflexivity); right).
Qed.

End DaemonFacts.

(** ** The run daemon: launch of a run (claim C6) *)

Module Launch.
Import Py SnakeD Scraper Daemon PyFacts Eff DaemonFacts Selection.

(** *** Dictionaries *)

Lemma dict_get_set k v d k' :
  dict_get k' (dict_set k v d) = if (k =? k')%string then Some v else dict_get k' d.
Proof.
  induction d as [|[k0 v0] d IH]; simpl.
  - destruct (String.eqb_spec k k'); reflexivity.
  - destruct (String.eqb_spec k0 k) as [->|Hne]; simpl.
    + destruct (String.eqb_spec k k'); reflexivity.
    + rewrite IH. destruct (String.eqb_spec k0 k') as [->|]; [|reflexivity].
      destruct (String.eqb_spec k k'); [congruence | reflexivity].
Qed.

Lemma dict_get_default k v d k' :
  dict_get k' (if dict_mem k d then d else dict_set k v d) =
  if (k =? k')%string
  then Some (match dict_get k d with Some x => x | None => v end)
  else dict_get k' d.
Proof.
  unfold dict_mem. destruct (dict_get k d) as [x|] eqn:E.
  - destruct (String.eqb_spec k k') as [<-|]; [exact E | reflexivity].
  - rewrite dict_get_set. reflexivity.
Qed.

Lemma setitem_inv v k x v' :
  setitem v k x = Ok v' -> exists d, v = JObj d /\ v' = JObj (dict_set k x d).
Proof. destruct v; simpl; try discriminate. intros [= <-]. eauto. Qed.

Lemma setdefault_inv v k x v' :
  setdefault v k x = Ok v' ->
  exists d, v = JObj d /\ v' = JObj (if dict_mem k d then d else dict_set k x d).
Proof. destruct v; simpl; try discriminate. intros [= <-]. eauto. Qed.

Lemma update_at_inv v k f v' :
  update_at v k f = Ok v' ->
  exists d x x', v = JObj d /\ dict_get k d = Some x /\ f x = Ok x'
                 /\ v' = JObj (dict_set k x' d).
Proof.
  unfold update_at. destruct v as [| | | | |d]; simpl; try discriminate.
  destruct (dict_get k d) as [x|] eqn:E; [|discriminate].
  destruct (f x) as [x'|] eqn:Ef; [|discriminate].
  intros [= <-]. exists d, x, x'. auto.
Qed.

(** A change of the run leaves a document in which the run is the changed
    one. *)
Lemma at_run_inv status run_id f status' :
  at_run status run_id f = Ok status' ->
  exists r r', run_of status run_id = Ok r /\ f r = Ok r'
               /\ run_of status' run_id = Ok r'.
Proof.
  unfold at_run. intros H.
  apply update_at_inv in H. destruct H as (d & runs & runs' & -> & Hruns & H & ->).
  apply update_at_inv in H. destruct H as (rd & r & r' & -> & Hr & Hf & ->).
  exists r, r'. unfold run_of, getitem, and_then.
  rewrite Hruns, Hr. repeat (rewrite dict_get_set, String.eqb_refl). auto.
Qed.

(** *** Traces *)

Lemma events_since_refl w : events_since w w = [].
Proof. unfold events_since. apply skipn_all. Qed.

Lemma events_since_app w w' evs : trace w' = (trace w ++ evs)%list -> events_since w w' = evs.
Proof. unfold events_since. intros ->. apply Prober.skipn_app_exact. Qed.

(** A computation that appends only events of a given kind. *)
Definition only {A : Type} (P : event -> Prop) (c : Daemon.M A) : Prop :=
  forall w r w', c w = (r, w') ->
                 exists evs, trace w' = (trace w ++ evs)%list /\ Forall P evs.

Lemma only_bind {A B : Type} P (c : Daemon.M A) (k : A -> Daemon.M B) :
  only P c -> (forall a, only P (k a)) -> only P (bind c k).
Proof.
  intros Hc Hk w r w'. unfold bind. destruct (c w) as [[a|e] w1] eqn:E.
  - intros H. destruct (Hc _ _ _ E) as (e1 & T1 & F1).
    destruct (Hk a _ _ _ H) as (e2 & T2 & F2).
    exists (e1 ++ e2)%list. split; [|apply Forall_app; auto].
    rewrite T2, T1, app_assoc. reflexivity.
  - intros [= <- <-]. apply (Hc _ _ _ E).
Qed.

Lemma only_silent {A : Type} P (c : Daemon.M A) :
  (forall w, trace (snd (c w)) = trace w) -> only P c.
Proof.
  intros H w r w' E. exists []. rewrite app_nil_r. split; [|constructor].
  specialize (H w). rewrite E in H. exact H.
Qed.

Lemma only_ret {A : Type} P (a : A) : only P (Eff.ret a).
Proof. apply only_silent. reflexivity. Qed.

Lemma only_raise {A : Type} P e : only P (@Eff.raise World A e).
Proof. apply only_silent. reflexivity. Qed.

Lemma only_lift {A : Type} P (o : outcome A) : only P (lift o).
Proof. apply only_silent. reflexivity. Qed.

Lemma only_ask {A : Type} P (f : World -> A) : only P (ask f).
Proof. apply only_silent. reflexivity. Qed.

Lemma only_set_files P f : only P (set_files f).
Proof. apply only_silent. reflexivity. Qed.

Lemma only_now_ts P : only P now_ts.
Proof. apply only_silent. reflexivity. Qed.

Lemma only_emit (P : event -> Prop) e : P e -> only P (emit e).
Proof.
  intros H w r w' [= <- <-]. exists [e]. split; [reflexivity | repeat constructor; exact H].
Qed.

Definition not_spawn (e : event) : Prop :=
  match e with
  | Spawned _ _ _ _ => False
  | _ => True
  end.

Ltac only_steps :=
  repeat lazymatch goal with
         | |- only _ (bind _ _) => apply only_bind; [|intros ?]
         | |- only _ (Eff.ret _) => apply only_ret
         | |- only _ (Eff.raise _) => apply only_raise
         | |- only _ (lift _) => apply only_lift
         | |- only _ (ask _) => apply only_ask
         | |- only _ (set_files _) => apply only_set_files
         | |- only _ now_ts => apply only_now_ts
         | |- only _ (emit _) => apply only_emit; exact I
         | |- only _ (match ?x with _ => _ end) => destruct x
         | |- only _ (let _ := _ in _) => cbv zeta
         end.

Lemma only_atomic_write path obj : only not_spawn (atomic_write_json path obj).
Proof. unfold atomic_write_json. only_steps. Qed.

Lemma only_load path : only not_spawn (load_json path).
Proof. unfold load_json. only_steps. Qed.

Lemma only_write_slurm status run_id ids : only not_spawn (write_slurm status run_id ids).
Proof. unfold write_slurm, set_run_subfield. only_steps. Qed.

Lemma only_record_ids status_file run_id ids :
  only not_spawn (record_ids status_file run_id ids).
Proof.
  unfold record_ids, default_run, default_run_field.
  only_steps; first [apply only_load | apply only_write_slurm | apply only_atomic_write].
Qed.

Lemma only_monitor_turn status_file run_id last o :
  only not_spawn (monitor_turn status_file run_id last o).
Proof. unfold monitor_turn, meet. only_steps. apply only_record_ids. Qed.

Lemma only_monitor status_file run_id running : forall last_ids last,
  only not_spawn (monitor status_file run_id last_ids running last).
Proof.
  induction running as [|o rest IH]; intros last_ids last; cbn [monitor].
  - only_steps. apply only_monitor_turn.
  - only_steps; [apply only_monitor_turn | apply IH].
Qed.

Lemma only_finalize status_file run_id code o :
  only not_spawn (finalize status_file run_id code o).
Proof.
  unfold finalize, meet, set_run_field, default_run_field, set_run_subfield.
  only_steps; first [apply only_load | apply only_write_slurm | apply only_atomic_write].
Qed.

Definition never (e : event) : Prop := False.

Lemma only_never_silent {A : Type} (c : Daemon.M A) w r w' :
  only never c -> c w = (r, w') -> trace w' = trace w.
Proof.
  intros H E. destruct (H _ _ _ E) as (evs & T & F).
  destruct evs as [|e evs]; [rewrite app_nil_r in T; exact T|].
  inversion F as [|? ? []].
Qed.

Lemma mark_running_silent status run_id log_name : only never (mark_running status run_id log_name).
Proof.
  unfold mark_running, default_run, set_run_field, default_run_field, set_run_subfield.
  only_steps.
Qed.

(** The part of [launch] that follows the start of the engine. *)
Definition watch (job_id status_file run_id : string) (proc : engine_run) : Daemon.M bool :=
  bind (monitor status_file run_id [] (while_running proc) (at_exit proc)) (fun _ =>
  bind (finalize status_file run_id (exit_code proc) (after_exit proc)) (fun _ =>
  bind (print ("[INFO] Job " ++ job_id ++ " run " ++ run_id ++ " finished with exit code "
               ++ str_of_int (exit_code proc))) (fun _ =>
  Eff.ret true))).

Lemma only_watch job_id status_file run_id proc :
  only not_spawn (watch job_id status_file run_id proc).
Proof.
  unfold watch, print. only_steps; [apply only_monitor | apply only_finalize].
Qed.

(** The events of a launch: nothing when the document cannot be marked;
    otherwise the save of the marked document, then the profile, then the
    start of the engine, then events among which there is no other start. *)
Lemma launch_shape job_id status_file status job_dir run_id snakefile_name w r w' :
  launch job_id status_file status job_dir run_id snakefile_name w = (r, w') ->
  let log_name := ("snakemake_run" ++ run_id ++ ".log")%string in
  let profile_dir := path_join job_dir (".mcse_profile_run" ++ run_id) in
  let tmp := (status_file ++ ".tmp")%string in
  events_since w w' = []
  \/ exists doc w1,
       mark_running status run_id log_name w = (Ok doc, w1)
       /\ (events_since w w' = [Dumped tmp doc; Replaced tmp status_file]
           \/ events_since w w' = [Dumped tmp doc; Replaced tmp status_file;
                                   MadeDirs profile_dir]
           \/ exists lines msg rest,
                events_since w w' =
                ([Dumped tmp doc; Replaced tmp status_file; MadeDirs profile_dir;
                  ProfileWritten (path_join profile_dir "config.yaml") lines;
                  Printed msg;
                  Spawned job_dir (path_join job_dir snakefile_name) profile_dir
                          (path_join job_dir log_name)] ++ rest)%list
                /\ Forall not_spawn rest).
Proof.
  intros H log_name profile_dir tmp. unfold launch in H. fold log_name in H.
  unfold bind at 1 in H.
  destruct (mark_running status run_id log_name w) as [[doc|e] w1] eqn:Em.
  2:{ injection H as <- <-. left. apply events_since_app. rewrite app_nil_r.
      apply (only_never_silent _ _ _ _ (mark_running_silent _ _ _) Em). }
  pose proof (only_never_silent _ _ _ _ (mark_running_silent _ _ _) Em) as T1.
  right. exists doc, w1. split; [reflexivity|].
  unfold atomic_write_json, ensure_profile, start_snakemake_with_plugin, print in H.
  fold tmp in H. fold profile_dir in H.
  unfold bind, emit, ask, set_files, lift, Eff.ret in H.
  cbn [status_files with_event with_files trace home listing is_dir is_file clock ticks
       engine_of] in H.
  destruct (and_then (getitem doc "runs") (fun runs => getitem runs run_id)) as [run|e].
  2:{ injection H as <- <-. left. apply events_since_app. cbn [trace with_files with_event].
      rewrite T1, <- app_assoc. reflexivity. }
  destruct (get_method run "requested_resources" (JObj [])) as [requested|e].
  2:{ injection H as <- <-. left. apply events_since_app. cbn [trace with_files with_event].
      rewrite T1, <- app_assoc. reflexivity. }
  destruct (profile_lines (or_else requested (JObj []))) as [lines|e].
  2:{ injection H as <- <-. right. left. apply events_since_app.
      cbn [trace with_files with_event]. rewrite T1, <- !app_assoc. reflexivity. }
  right. right.
  match type of H with
  | (let (o, w'0) := ?c ?w5 in _) = _ =>
      change (watch job_id status_file run_id
                (engine_of w1 (path_join job_dir log_name)) w5 = (r, w')) in H
  end.
  destruct (only_watch _ _ _ _ _ _ _ H) as (rest & T & F).
  exists lines. eexists. exists rest. split; [|exact F].
  apply events_since_app. rewrite T. cbn [trace with_files with_event].
  rewrite T1, <- !app_assoc. reflexivity.
Qed.

(** The run is in place in the document, with its time stamps and its
    slurm record: what the monitor loop and the final step rely on. *)
Definition run_ready (doc : json) (run_id : string) : Prop :=
  exists r sl ts,
    run_of doc run_id = Ok (JObj r)
    /\ dict_get "slurm" r = Some (JObj sl)
    /\ dict_get "timestamps" r = Some (JObj ts).

Ltac invert_steps :=
  repeat match goal with
         | H : bind _ _ _ = (Ok _, _) |- _ =>
             apply bind_inv_ok in H; destruct H as (? & ? & ? & ?)
         | H : lift _ _ = (Ok _, _) |- _ =>
             unfold lift in H; injection H as H ?; subst
         | H : now_ts _ = (Ok _, _) |- _ =>
             unfold now_ts in H; injection H as ? ?; subst
         | H : Eff.ret _ _ = (Ok _, _) |- _ =>
             unfold Eff.ret in H; injection H as ? ?; subst
         end.

(** Follow a run through a chain of in-place changes. *)
Ltac follow_run :=
  repeat match goal with
         | H : at_run _ _ _ = Ok _ |- _ =>
             apply at_run_inv in H; destruct H as (? & ? & ? & ? & ?)
         end;
  repeat match goal with
         | H1 : run_of ?s ?i = Ok ?a, H2 : run_of ?s ?i = Ok ?b |- _ =>
             assert (a = b) by congruence; subst; clear H2
         end;
  repeat match goal with
         | H : setitem _ _ _ = Ok _ |- _ =>
             apply setitem_inv in H; destruct H as (? & ? & ?); subst
         | H : setdefault _ _ _ = Ok _ |- _ =>
             apply setdefault_inv in H; destruct H as (? & ? & ?); subst
         | H : update_at _ _ _ = Ok _ |- _ =>
             apply update_at_inv in H; destruct H as (? & ? & ? & ? & ? & ? & ?); subst
         | H : JObj _ = JObj _ |- _ => injection H as H; subst
         end.

Ltac dict_simp :=
  repeat (rewrite ?dict_get_set, ?dict_get_default; cbn [String.eqb Ascii.eqb Bool.eqb andb]).

Lemma mark_running_doc status run_id log_name w doc w1 :
  mark_running status run_id log_name w = (Ok doc, w1) ->
  run_field doc run_id "state" = Ok (JStr "RUNNING")
  /\ run_subfield doc run_id "timestamps" "started" = Ok (JStr (clock w (ticks w)))
  /\ run_field doc run_id "slurm" = Ok empty_slurm_record
  /\ run_ready doc run_id
  /\ w1 = with_tick w.
Proof.
  intros H.
  unfold mark_running, default_run, set_run_field, default_run_field, set_run_subfield in H.
  invert_steps. follow_run.
  unfold run_subfield, run_field, run_ready.
  match goal with H : run_of doc run_id = Ok _ |- _ => rewrite H end.
  do 3 (cbn [and_then getitem]; dict_simp).
  split; [reflexivity|]. split; [reflexivity|]. split; [reflexivity|].
  split; [|reflexivity].
  do 3 eexists. split; [reflexivity|]. dict_simp. split; reflexivity.
Qed.

(** *** A run that is RUNNING is not selected *)

Lemma lowest_in_queued queued x : lowest queued = Some x -> In x queued.
Proof.
  unfold lowest. destruct (int_keys queued).
  - intros H. apply (hd_sorted_by _ _ int_le_total int_le_trans _ _ H).
  - intros H. apply (hd_sorted_by _ _ String.leb_total string_leb_trans _ _ H).
Qed.

Lemma pick_in_queued status x : pick_queued_run status = Some x -> In x (queued_of status).
Proof.
  rewrite pick_unfold. destruct (queued_of status) as [|q0 q]; [discriminate|].
  cbv beta iota zeta.
  destruct (negb _ && mem_str _ _) eqn:E.
  - intros [= <-]. apply andb_true_iff in E. apply mem_str_In, E.
  - apply lowest_in_queued.
Qed.

Lemma queued_ids_in runs x :
  In x (queued_ids runs) ->
  exists robj state, In (x, robj) runs /\ run_state robj = Ok state
                     /\ is_str state "QUEUED" = true.
Proof.
  induction runs as [|[rid robj] runs IH]; simpl; [contradiction|].
  destruct (run_state robj) as [state|e] eqn:Es.
  - destruct (is_str state "QUEUED") eqn:Eq.
    + intros [<-|H].
      * exists robj, state. auto.
      * destruct (IH H) as (r & st & Hin & Hr). exists r, st. auto.
    + intros H. destruct (IH H) as (r & st & Hin & Hr). exists r, st. auto.
  - intros H. destruct (IH H) as (r & st & Hin & Hr). exists r, st. auto.
Qed.

Lemma dict_get_unique (d : dict) k v :
  NoDup (map fst d) -> In (k, v) d -> dict_get k d = Some v.
Proof.
  induction d as [|[k0 v0] d IH]; simpl; [contradiction|].
  intros Hn [[= -> ->]|Hin].
  - rewrite String.eqb_refl. reflexivity.
  - inversion Hn as [|? ? Hnot Hn']; subst.
    destruct (String.eqb_spec k0 k) as [->|_]; [|apply IH; assumption].
    exfalso. apply Hnot. apply (in_map fst) in Hin. exact Hin.
Qed.

Lemma running_not_selected d runs run_id :
  run_field (JObj d) run_id "state" = Ok (JStr "RUNNING") ->
  dict_get "runs" d = Some (JObj runs) ->
  NoDup (map fst runs) ->
  pick_queued_run d <> Some run_id.
Proof.
  intros Hstate Hruns Hn Hpick.
  apply pick_in_queued in Hpick. unfold queued_of in Hpick. rewrite Hruns in Hpick.
  apply queued_ids_in in Hpick. destruct Hpick as (robj & st & Hin & Hst & Hq).
  apply (dict_get_unique _ _ _ Hn) in Hin.
  unfold run_field, run_of, and_then, getitem in Hstate. rewrite Hruns, Hin in Hstate.
  destruct robj as [| | | | |r]; try discriminate.
  destruct (dict_get "state" r) as [x|] eqn:Ex; [|discriminate].
  injection Hstate as ->.
  unfold run_state, or_else, get_method in Hst.
  destruct r as [|kv r]; [discriminate|]. cbn [truthy] in Hst.
  rewrite Ex in Hst. injection Hst as <-. discriminate.
Qed.

(** *** The launch within [handle_job] *)

Lemma events_since_one w e : events_since w (with_event e w) = [e].
Proof. apply events_since_app. reflexivity. Qed.

Lemma handle_job_cases job_id watch_dir w :
  Forall not_spawn (events_since w (snd (handle_job job_id watch_dir w)))
  \/ exists d job_dir run_id snakefile_name,
       handle_job job_id watch_dir w =
       launch job_id (path_join watch_dir "status.json") (JObj d) job_dir run_id
              snakefile_name w
       /\ status_files w (path_join watch_dir "status.json") = Document (JObj d)
       /\ pick_queued_run d = Some run_id.
Proof.
  destruct (handle_job job_id watch_dir w) as [r w'] eqn:H. cbn [snd].
  unfold handle_job, load_json, isdir_json, join_json, print, emit in H.
  unfold bind, ask, lift, Eff.ret, Eff.raise, get_method in H.
  split_run H;
    try solve [exfalso; congruence];
    try solve [right; do 4 eexists; split; [rewrite <- H; reflexivity|];
               split; [congruence | eassumption]];
    left; injection H as <- <-;
    rewrite ?events_since_refl, ?events_since_one; repeat constructor.
Qed.

End Launch.



(** ** The run daemon: the end of a run (claim C7) *)

Module Finish.
Import Py SnakeD Scraper Daemon PyFacts Eff DaemonFacts Launch.

(** Two documents that differ in one run at most. *)
Definition same_but_run (run_id : string) (doc doc' : json) : Prop :=
  (forall k, k <> "runs" -> getitem doc' k = getitem doc k)
  /\ (forall other, other <> run_id -> run_of doc' other = run_of doc other).

Lemma same_but_run_refl run_id doc : same_but_run run_id doc doc.
Proof. split; reflexivity. Qed.

Lemma same_but_run_trans run_id a b c :
  same_but_run run_id a b -> same_but_run run_id b c -> same_but_run run_id a c.
Proof.
  intros [H1 H2] [H3 H4]. split; intros x Hx.
  - rewrite H3, H1; auto.
  - rewrite H4, H2; auto.
Qed.

Lemma run_of_inv doc run_id r :
  run_of doc run_id = Ok r ->
  exists d rd, doc = JObj d /\ dict_get "runs" d = Some (JObj rd)
               /\ dict_get run_id rd = Some r.
Proof.
  unfold run_of, and_then, getitem. destruct doc as [| | | | |d]; try discriminate.
  destruct (dict_get "runs" d) as [[| | | | |rd]|] eqn:E; try discriminate.
  destruct (dict_get run_id rd) as [x|] eqn:Er; [|discriminate].
  intros [= <-]. eauto.
Qed.

Lemma string_eqb_neq a b : a <> b -> (a =? b)%string = false.
Proof. intros H. destruct (String.eqb_spec a b); [contradiction | reflexivity]. Qed.

Lemma at_run_ok doc run_id f r r' :
  run_of doc run_id = Ok r -> f r = Ok r' ->
  exists doc', at_run doc run_id f = Ok doc' /\ run_of doc' run_id = Ok r'
               /\ same_but_run run_id doc doc'.
Proof.
  intros Hr Hf. destruct (run_of_inv _ _ _ Hr) as (d & rd & -> & Hruns & Hrun).
  eexists. unfold at_run, update_at, getitem. rewrite Hruns, Hrun, Hf. cbn [setitem].
  split; [reflexivity|]. split.
  - unfold run_of, and_then, getitem.
    repeat (rewrite dict_get_set, String.eqb_refl). reflexivity.
  - split.
    + intros k Hk. unfold getitem. rewrite dict_get_set.
      rewrite string_eqb_neq by congruence. reflexivity.
    + intros other Ho. unfold run_of, and_then, getitem.
      rewrite dict_get_set, String.eqb_refl, Hruns, dict_get_set.
      rewrite string_eqb_neq by congruence. reflexivity.
Qed.

Lemma dict_mem_get k (d : dict) v : dict_get k d = Some v -> dict_mem k d = true.
Proof. unfold dict_mem. intros ->. reflexivity. Qed.

Section Steps.
Variable w : World.
Variable run_id : string.

Lemma set_run_field_ok status k x e :
  run_of status run_id = Ok (JObj e) ->
  exists status', set_run_field status run_id k x w = (Ok status', w)
                  /\ run_of status' run_id = Ok (JObj (dict_set k x e))
                  /\ same_but_run run_id status status'.
Proof.
  intros H.
  destruct (at_run_ok status run_id (fun r => setitem r k x) _ _ H eq_refl)
    as (s' & E & Hr & Hs).
  exists s'. unfold set_run_field, lift. rewrite E. auto.
Qed.

Lemma default_run_field_ok status k e v :
  run_of status run_id = Ok (JObj e) -> dict_get k e = Some v ->
  exists status', default_run_field status run_id k w = (Ok status', w)
                  /\ run_of status' run_id = Ok (JObj e)
                  /\ same_but_run run_id status status'.
Proof.
  intros H Hk.
  destruct (at_run_ok status run_id (fun r => setdefault r k (JObj [])) _ (JObj e) H)
    as (s' & E & Hr & Hs).
  { cbn [setdefault]. rewrite (dict_mem_get _ _ _ Hk). reflexivity. }
  exists s'. unfold default_run_field, lift. rewrite E. auto.
Qed.

Lemma set_run_subfield_ok status k k2 x e t :
  run_of status run_id = Ok (JObj e) -> dict_get k e = Some (JObj t) ->
  exists status', set_run_subfield status run_id k k2 x w = (Ok status', w)
                  /\ run_of status' run_id
                     = Ok (JObj (dict_set k (JObj (dict_set k2 x t)) e))
                  /\ same_but_run run_id status status'.
Proof.
  intros H Hk.
  destruct (at_run_ok status run_id
              (fun r => update_at r k (fun t => setitem t k2 x)) _
              (JObj (dict_set k (JObj (dict_set k2 x t)) e)) H)
    as (s' & E & Hr & Hs).
  { unfold update_at, getitem. rewrite Hk. reflexivity. }
  exists s'. unfold set_run_subfield, lift. rewrite E. auto.
Qed.

Lemma default_run_ok status r :
  run_of status run_id = Ok r ->
  exists status', default_run status run_id w = (Ok status', w)
                  /\ run_of status' run_id = Ok r
                  /\ same_but_run run_id status status'.
Proof.
  intros H. destruct (run_of_inv _ _ _ H) as (d & rd & -> & Hruns & Hrun).
  eexists. unfold default_run, bind, lift. cbn [setdefault].
  rewrite (dict_mem_get _ _ _ Hruns). unfold update_at, getitem. rewrite Hruns.
  cbn [setdefault]. rewrite (dict_mem_get _ _ _ Hrun). cbn [setitem].
  split; [reflexivity|]. split.
  - unfold run_of, and_then, getitem. rewrite dict_get_set, String.eqb_refl. rewrite Hrun.
    reflexivity.
  - split.
    + intros k Hk. unfold getitem. rewrite dict_get_set.
      rewrite string_eqb_neq by congruence. reflexivity.
    + intros other Ho. unfold run_of, and_then, getitem.
      rewrite dict_get_set, String.eqb_refl, Hruns. reflexivity.
Qed.

End Steps.

(** *** Saving *)

Lemma tmp_differs path : (path =? path ++ ".tmp")%string = false.
Proof.
  apply string_eqb_neq. intros H. apply (f_equal String.length) in H.
  rewrite length_append in H. simpl in H. lia.
Qed.

Lemma atomic_write_ok path obj w :
  exists w', atomic_write_json path obj w = (Ok tt, w')
             /\ trace w' = (trace w ++ [Dumped (path ++ ".tmp") obj;
                                        Replaced (path ++ ".tmp") path])%list
             /\ status_files w' path = Document obj
             /\ clock w' = clock w /\ ticks w' = ticks w /\ engine_of w' = engine_of w.
Proof.
  exists (snd (atomic_write_json path obj w)).
  unfold atomic_write_json, bind, emit, ask, set_files.
  cbn [snd status_files with_event with_files trace clock ticks engine_of].
  split; [reflexivity|]. split; [rewrite <- app_assoc; reflexivity|].
  split; [|split; [|split]; reflexivity].
  unfold update. rewrite tmp_differs, !String.eqb_refl. reflexivity.
Qed.

Lemma load_ok path doc w : status_files w path = Document doc -> load_json path w = (Ok doc, w).
Proof. intros H. unfold load_json, bind, ask, Eff.ret. cbv beta iota. rewrite H. reflexivity. Qed.

(** *** The slurm record *)

Lemma dict_set_set k v v' (d : dict) : dict_set k v (dict_set k v' d) = dict_set k v d.
Proof.
  induction d as [|[k0 v0] d IH]; simpl.
  - rewrite String.eqb_refl. reflexivity.
  - destruct (String.eqb_spec k0 k) as [->|Hne]; simpl.
    + rewrite String.eqb_refl. reflexivity.
    + rewrite (string_eqb_neq _ _ Hne), IH. reflexivity.
Qed.

Definition slurm_written (ids : list Z) (stamp : string) (sl : dict) : dict :=
  dict_set "last_update" (JStr stamp)
    (dict_set "jobs_submitted" (JInt (Z.of_nat (List.length ids)))
       (dict_set "job_ids" (JArr (map JInt ids))
          (dict_set "executor" executor_label sl))).

Lemma write_slurm_ok status run_id ids e sl w :
  run_of status run_id = Ok (JObj e) -> dict_get "slurm" e = Some (JObj sl) ->
  exists status',
    write_slurm status run_id ids w = (Ok status', with_tick w)
    /\ run_of status' run_id
       = Ok (JObj (dict_set "slurm" (JObj (slurm_written ids (clock w (ticks w)) sl)) e))
    /\ same_but_run run_id status status'.
Proof.
  intros H Hsl. unfold write_slurm.
  destruct (set_run_subfield_ok w run_id status "slurm" "executor" executor_label e sl H Hsl)
    as (s1 & E1 & H1 & S1).
  rewrite (bind_ok _ _ _ _ _ E1).
  destruct (set_run_subfield_ok w run_id s1 "slurm" "job_ids" (JArr (map JInt ids)) _ _ H1
              ltac:(rewrite dict_get_set; reflexivity)) as (s2 & E2 & H2 & S2).
  rewrite (bind_ok _ _ _ _ _ E2).
  destruct (set_run_subfield_ok w run_id s2 "slurm" "jobs_submitted"
              (JInt (Z.of_nat (List.length ids))) _ _ H2
              ltac:(rewrite dict_get_set; reflexivity)) as (s3 & E3 & H3 & S3).
  rewrite (bind_ok _ _ _ _ _ E3).
  rewrite (bind_ok _ _ _ _ _ (eq_refl : now_ts w = (Ok (clock w (ticks w)), with_tick w))).
  destruct (set_run_subfield_ok (with_tick w) run_id s3 "slurm" "last_update"
              (JStr (clock w (ticks w))) _ _ H3
              ltac:(rewrite dict_get_set; reflexivity)) as (s4 & E4 & H4 & S4).
  exists s4. split; [exact E4|]. split.
  - rewrite H4. rewrite !dict_set_set. reflexivity.
  - eauto using same_but_run_trans.
Qed.

(** *** The monitor loop *)

Lemma record_ids_ok status_file run_id ids doc w :
  status_files w status_file = Document doc -> run_ready doc run_id ->
  exists doc' w',
    record_ids status_file run_id ids w = (Ok tt, w')
    /\ status_files w' status_file = Document doc'
    /\ run_ready doc' run_id
    /\ run_field doc' run_id "state" = run_field doc run_id "state"
    /\ trace w' = (trace w ++ [Dumped (status_file ++ ".tmp") doc';
                                Replaced (status_file ++ ".tmp") status_file])%list
    /\ clock w' = clock w
    /\ engine_of w' = engine_of w.
Proof.
  intros Hf (r & sl & ts & Hr & Hsl & Hts). unfold record_ids.
  rewrite (bind_ok _ _ _ _ _ (load_ok _ _ _ Hf)).
  destruct (default_run_ok w run_id doc _ Hr) as (s1 & E1 & H1 & S1).
  rewrite (bind_ok _ _ _ _ _ E1).
  destruct (default_run_field_ok w run_id s1 "slurm" r _ H1 Hsl) as (s2 & E2 & H2 & S2).
  rewrite (bind_ok _ _ _ _ _ E2).
  destruct (write_slurm_ok s2 run_id (sorted_by Z.leb ids) r sl w H2 Hsl)
    as (s3 & E3 & H3 & S3).
  rewrite (bind_ok _ _ _ _ _ E3).
  destruct (atomic_write_ok status_file s3 (with_tick w))
    as (w' & E & Ht & Hfile & Hc & _ & He).
  exists s3, w'. split; [exact E|]. split; [exact Hfile|].
  split; [|split; [|split; [|split]]].
  - do 3 eexists. split; [exact H3|]. dict_simp. split; [reflexivity | exact Hts].
  - unfold run_field. rewrite H3, Hr. cbn [and_then getitem]. dict_simp. reflexivity.
  - exact Ht.
  - rewrite Hc. reflexivity.
  - rewrite He. reflexivity.
Qed.

(** The monitor loop is followed under an invariant [Q] of the document
    in the status file: one that makes the run ready, and that depends on
    the document only through the state of the run. *)
Section Watching.

Variables (status_file run_id : string) (Q : json -> Prop).
Hypothesis Q_ready : forall doc, Q doc -> run_ready doc run_id.
Hypothesis Q_kept : forall doc doc',
  Q doc -> run_ready doc' run_id ->
  run_field doc' run_id "state" = run_field doc run_id "state" -> Q doc'.

(** The status file holds a document with the invariant. *)
Definition on_disk (files : string -> file_state) : Prop :=
  exists doc, files status_file = Document doc /\ Q doc.

(** What the other parties do keeps the invariant. *)
Definition kept_by (o : observation) : Prop :=
  forall files, on_disk files -> on_disk (interference o files).

(** Every document saved has the invariant. *)
Definition saves (events : list event) : Prop :=
  Forall (fun e => match e with Dumped _ d => Q d | _ => True end) events.

Lemma monitor_turn_ok last o w :
  on_disk (status_files w) -> kept_by o ->
  exists ids w',
    monitor_turn status_file run_id last o w = (Ok ids, w')
    /\ on_disk (status_files w')
    /\ clock w' = clock w
    /\ engine_of w' = engine_of w
    /\ exists events, trace w' = (trace w ++ events)%list /\ saves events.
Proof.
  intros Hd Hb. unfold monitor_turn, meet.
  unfold bind at 1. unfold bind at 1. unfold ask, set_files. cbv beta iota.
  specialize (Hb _ Hd). destruct Hb as (doc & Hf & HQ).
  destruct (list_eq_dec Z.eq_dec _ last) as [_|_].
  - eexists _, _. split; [reflexivity|]. cbn [status_files with_files clock engine_of trace].
    split; [exists doc; auto|]. split; [reflexivity|]. split; [reflexivity|].
    exists []. rewrite app_nil_r. split; [reflexivity | constructor].
  - destruct (record_ids_ok status_file run_id
                (extract_slurm_job_ids_from_log (seen_log o)) doc
                (with_files (interference o (status_files w)) w) Hf (Q_ready _ HQ))
      as (doc' & w' & E & Hf' & Hr' & Hs & Ht & Hc & He).
    rewrite (bind_ok _ _ _ _ _ E). eexists _, w'. split; [reflexivity|].
    split; [exists doc'; eauto|]. split; [exact Hc|]. split; [exact He|].
    eexists. split; [exact Ht|]. repeat constructor. eauto.
Qed.

Lemma monitor_ok running : forall last_ids last w,
  on_disk (status_files w) -> Forall kept_by running -> kept_by last ->
  exists w',
    monitor status_file run_id last_ids running last w = (Ok tt, w')
    /\ on_disk (status_files w')
    /\ clock w' = clock w
    /\ engine_of w' = engine_of w
    /\ exists events, trace w' = (trace w ++ events)%list /\ saves events.
Proof.
  induction running as [|o rest IH]; intros last_ids last w Hd Hall Hlast; cbn [monitor].
  - destruct (monitor_turn_ok last_ids last w Hd Hlast) as (ids & w' & E & Hd' & Hc).
    rewrite (bind_ok _ _ _ _ _ E). exists w'. auto.
  - inversion Hall as [|? ? Ho Hrest]; subst.
    destruct (monitor_turn_ok last_ids o w Hd Ho)
      as (ids & w1 & E & Hd1 & Hc1 & He1 & ev1 & Ht1 & Hs1).
    rewrite (bind_ok _ _ _ _ _ E).
    rewrite (bind_ok _ _ _ _ _ (eq_refl : emit (Slept 5) w1 = (Ok tt, with_event (Slept 5) w1))).
    destruct (IH ids last (with_event (Slept 5) w1) Hd1 Hrest Hlast)
      as (w' & E' & Hd' & Hc' & He' & ev' & Ht' & Hs').
    exists w'. split; [exact E'|]. split; [exact Hd'|].
    split; [rewrite Hc'; exact Hc1|]. split; [rewrite He'; exact He1|].
    exists (ev1 ++ Slept 5 :: ev')%list. split.
    + rewrite Ht'. cbn [trace with_event]. rewrite Ht1, <- !app_assoc. reflexivity.
    + apply Forall_app. split; [exact Hs1|]. constructor; [exact I | exact Hs'].
Qed.

End Watching.

(** *** The final step *)

Definition final_state (code : Z) : string := if code =? 0 then "FINISHED" else "FAILED".

Lemma finalize_ok status_file run_id code o doc w :
  interference o (status_files w) status_file = Document doc ->
  run_ready doc run_id ->
  let ids := extract_slurm_job_ids_from_log (seen_log o) in
  exists doc' w',
    finalize status_file run_id code o w = (Ok tt, w')
    /\ status_files w' status_file = Document doc'
    /\ trace w' = (trace w ++ [Dumped (status_file ++ ".tmp") doc';
                                Replaced (status_file ++ ".tmp") status_file])%list
    /\ run_field doc' run_id "state" = Ok (JStr (final_state code))
    /\ run_subfield doc' run_id "timestamps" "finished" = Ok (JStr (clock w (ticks w)))
    /\ run_field doc' run_id "snakemake_exit_code" = Ok (JInt code)
    /\ run_subfield doc' run_id "slurm" "job_ids" = Ok (JArr (map JInt ids))
    /\ run_subfield doc' run_id "slurm" "jobs_submitted"
       = Ok (JInt (Z.of_nat (List.length ids)))
    /\ same_but_run run_id doc doc'.
Proof.
  intros Hf (r & sl & ts & Hr & Hsl & Hts) ids. unfold finalize, meet.
  unfold bind at 1. unfold bind at 1. unfold ask, set_files. cbv beta iota.
  set (w0 := with_files (interference o (status_files w)) w).
  rewrite (bind_ok _ _ _ _ _ (load_ok status_file doc w0 Hf)).
  fold (final_state code).
  destruct (set_run_field_ok w0 run_id doc "state" (JStr (final_state code)) r Hr)
    as (s1 & E1 & H1 & S1).
  rewrite (bind_ok _ _ _ _ _ E1).
  destruct (default_run_field_ok w0 run_id s1 "timestamps" _ (JObj ts) H1
              ltac:(dict_simp; exact Hts)) as (s2 & E2 & H2 & S2).
  rewrite (bind_ok _ _ _ _ _ E2).
  rewrite (bind_ok _ _ _ _ _ (eq_refl : now_ts w0 = (Ok (clock w0 (ticks w0)), with_tick w0))).
  destruct (set_run_subfield_ok (with_tick w0) run_id s2 "timestamps" "finished"
              (JStr (clock w0 (ticks w0))) _ ts H2 ltac:(dict_simp; exact Hts))
    as (s3 & E3 & H3 & S3).
  rewrite (bind_ok _ _ _ _ _ E3).
  destruct (set_run_field_ok (with_tick w0) run_id s3 "snakemake_exit_code" (JInt code) _ H3)
    as (s4 & E4 & H4 & S4).
  rewrite (bind_ok _ _ _ _ _ E4).
  destruct (default_run_field_ok (with_tick w0) run_id s4 "slurm" _ (JObj sl) H4
              ltac:(dict_simp; exact Hsl)) as (s5 & E5 & H5 & S5).
  cbv zeta. rewrite (bind_ok _ _ _ _ _ E5).
  destruct (write_slurm_ok s5 run_id ids _ sl (with_tick w0) H5 ltac:(dict_simp; exact Hsl))
    as (s6 & E6 & H6 & S6).
  rewrite (bind_ok _ _ _ _ _ E6).
  destruct (atomic_write_ok status_file s6 (with_tick (with_tick w0)))
    as (w' & E & Ht & Hfile & _ & _ & _).
  exists s6, w'. split; [exact E|]. split; [exact Hfile|].
  split; [exact Ht|].
  unfold run_subfield, run_field. rewrite H6.
  do 3 (cbn [and_then getitem]; unfold slurm_written; dict_simp).
  repeat (split; [reflexivity|]).
  eauto 10 using same_but_run_trans.
Qed.

(** *** From the start of the engine to its end *)

(** The world in which the engine has just been started. *)
Definition started_world (status_file job_dir run_id snakefile_name : string) (doc : json)
  (lines : list string) (msg : string) (w : World) : World :=
  let profile_dir := path_join job_dir (".mcse_profile_run" ++ run_id) in
  with_event (Spawned job_dir (path_join job_dir snakefile_name) profile_dir
                      (path_join job_dir ("snakemake_run" ++ run_id ++ ".log")))
    (with_event (Printed msg)
       (with_event (ProfileWritten (path_join profile_dir "config.yaml") lines)
          (with_event (MadeDirs profile_dir)
             (snd (atomic_write_json status_file doc (with_tick w)))))).

(** A launch in which the engine is started is the marking of the run, the
    save, the profile and the start, followed by the watch. *)
Lemma launch_started job_id status_file status job_dir run_id snakefile_name w e :
  In e (events_since w
          (snd (launch job_id status_file status job_dir run_id snakefile_name w))) ->
  ~ not_spawn e ->
  exists doc lines msg,
    mark_running status run_id ("snakemake_run" ++ run_id ++ ".log") w = (Ok doc, with_tick w)
    /\ launch job_id status_file status job_dir run_id snakefile_name w
       = watch job_id status_file run_id
               (engine_of w (path_join job_dir ("snakemake_run" ++ run_id ++ ".log")))
               (started_world status_file job_dir run_id snakefile_name doc lines msg w).
Proof.
  intros Hin Hspawn.
  destruct (launch job_id status_file status job_dir run_id snakefile_name w)
    as [r w'] eqn:El.
  cbn [snd] in Hin. unfold launch in El.
  destruct (mark_running status run_id ("snakemake_run" ++ run_id ++ ".log") w)
    as [[doc|ex] w1] eqn:Hm.
  2:{ exfalso. rewrite (bind_raise _ _ _ _ _ Hm) in El. injection El as <- <-.
      rewrite (events_since_app w w1 []) in Hin; [exact Hin|].
      rewrite app_nil_r. apply (only_never_silent _ _ _ _ (mark_running_silent _ _ _) Hm). }
  destruct (mark_running_doc _ _ _ _ _ _ Hm) as (_ & _ & _ & (r0 & sl & ts & Hr & _) & ->).
  exists doc.
  rewrite (bind_ok _ _ _ _ _ Hm) in El.
  destruct (atomic_write_ok status_file doc (with_tick w)) as (wa & Ea & Ta & _).
  assert (Hwa : wa = snd (atomic_write_json status_file doc (with_tick w)))
    by (rewrite Ea; reflexivity).
  rewrite (bind_ok _ _ _ _ _ Ea) in El.
  fold (run_of doc run_id) in El. rewrite Hr in El.
  unfold lift at 1 in El. unfold bind at 1 in El.
  unfold get_method, lift at 1 in El. unfold bind at 1 in El.
  unfold ensure_profile, start_snakemake_with_plugin, print in El.
  unfold bind at 1 in El. unfold bind at 1 in El. unfold emit at 1 in El.
  unfold bind at 1 in El. unfold lift at 1 in El.
  destruct (profile_lines _) as [lines'|ex] eqn:Ep.
  2:{ exfalso. injection El as <- <-.
      rewrite (events_since_app w _ [Dumped (status_file ++ ".tmp") doc;
                                     Replaced (status_file ++ ".tmp") status_file;
                                     MadeDirs (path_join job_dir
                                                 (".mcse_profile_run" ++ run_id))]) in Hin.
      - destruct Hin as [<-|[<-|[<-|[]]]]; apply Hspawn; exact I.
      - cbn [trace with_event]. rewrite Ta. cbn [trace with_tick].
        rewrite <- app_assoc. reflexivity. }
  exists lines'. eexists. split; [reflexivity|].
  rewrite <- El. subst wa. unfold watch, started_world, print, emit, ask, bind.
  cbv beta iota zeta. reflexivity.
Qed.

Lemma started_world_facts status_file job_dir run_id snakefile_name doc lines msg w :
  let w5 := started_world status_file job_dir run_id snakefile_name doc lines msg w in
  let profile_dir := path_join job_dir (".mcse_profile_run" ++ run_id) in
  trace w5 = (trace w ++ [Dumped (status_file ++ ".tmp") doc;
                          Replaced (status_file ++ ".tmp") status_file;
                          MadeDirs profile_dir;
                          ProfileWritten (path_join profile_dir "config.yaml") lines;
                          Printed msg;
                          Spawned job_dir (path_join job_dir snakefile_name) profile_dir
                            (path_join job_dir ("snakemake_run" ++ run_id ++ ".log"))])%list
  /\ status_files w5 status_file = Document doc
  /\ clock w5 = clock w
  /\ engine_of w5 = engine_of w.
Proof.
  intros w5 profile_dir. unfold w5, started_world. fold profile_dir.
  destruct (atomic_write_ok status_file doc (with_tick w)) as (wa & Ea & Ta & Fa & Ca & _ & Ga).
  rewrite Ea. cbn [snd trace status_files clock engine_of with_event].
  rewrite Ta, Fa, Ca, Ga. cbn [trace clock engine_of with_tick].
  rewrite <- !app_assoc. repeat split.
Qed.

(** *** Saves that give the run a terminal state *)

Definition is_terminal (run_id : string) (doc : json) : bool :=
  match run_field doc run_id "state" with
  | Ok (JStr s) => (s =? "FINISHED")%string || (s =? "FAILED")%string
  | _ => false
  end.

Definition terminal_saves (run_id : string) (events : list event) : list json :=
  flat_map (fun e => match e with
                     | Dumped _ d => if is_terminal run_id d then [d] else []
                     | _ => []
                     end) events.

(** The two invariants under which the watch is followed: the run is in
    place; the run is in place and in a given state. *)
Definition in_place (run_id : string) (doc : json) : Prop := run_ready doc run_id.

Definition in_state (run_id state : string) (doc : json) : Prop :=
  run_ready doc run_id /\ run_field doc run_id "state" = Ok (JStr state).

Lemma in_state_kept run_id state doc doc' :
  in_state run_id state doc -> run_ready doc' run_id ->
  run_field doc' run_id "state" = run_field doc run_id "state" -> in_state run_id state doc'.
Proof. intros (_ & Hs) Hr E. split; [exact Hr | rewrite E; exact Hs]. Qed.

Lemma running_saves_not_terminal run_id events :
  saves (in_state run_id "RUNNING") events -> terminal_saves run_id events = [].
Proof.
  induction 1 as [|e events He _ IH]; [reflexivity|].
  cbn [terminal_saves flat_map]. fold (terminal_saves run_id events). rewrite IH.
  destruct e; try reflexivity.
  destruct He as (_ & Hs). unfold is_terminal. rewrite Hs. reflexivity.
Qed.

Lemma final_state_terminal run_id doc code :
  run_field doc run_id "state" = Ok (JStr (final_state code)) -> is_terminal run_id doc = true.
Proof.
  intros H. unfold is_terminal. rewrite H. unfold final_state.
  destruct (code =? 0); reflexivity.
Qed.

Lemma final_state_finished code : final_state code = "FINISHED" <-> code = 0.
Proof.
  unfold final_state. destruct (Z.eqb_spec code 0); split; intros H;
    try reflexivity; try assumption; try discriminate; contradiction.
Qed.

Lemma final_state_failed code : final_state code = "FAILED" <-> code <> 0.
Proof.
  unfold final_state. destruct (Z.eqb_spec code 0); split; intros H;
    try reflexivity; try assumption; try discriminate; contradiction.
Qed.

(** C7: when a launch has started the engine, and the other parties that
    write the status file leave the run in place, the launch returns
    [True]. Once the exit of the engine is seen, the document is read from
    the file as it then is, and saved once with the run changed and
    everything else as read: the state of the run is FINISHED when the exit
    code is 0 and FAILED otherwise, [timestamps.finished] is the reading of
    the clock, [snakemake_exit_code] is the exit code, and the slurm record
    holds the ids found in the log at the end. Nothing is saved after that.
    When the other parties also leave the state RUNNING alone, this save is
    the only one of the launch that gives the run a terminal state. *)
Theorem terminal_state_after_exit job_id status_file status job_dir run_id snakefile_name w :
  let log_path := path_join job_dir ("snakemake_run" ++ run_id ++ ".log") in
  let profile_dir := path_join job_dir (".mcse_profile_run" ++ run_id) in
  let proc := engine_of w log_path in
  let observations := (while_running proc ++ [at_exit proc; after_exit proc])%list in
  let code := exit_code proc in
  let ids := extract_slurm_job_ids_from_log (seen_log (after_exit proc)) in
  let tmp := (status_file ++ ".tmp")%string in
  let result := launch job_id status_file status job_dir run_id snakefile_name w in
  In (Spawned job_dir (path_join job_dir snakefile_name) profile_dir log_path)
     (events_since w (snd result)) ->
  Forall (kept_by status_file (in_place run_id)) observations ->
  exists doc lines msg w0 doc0 doc' w',
    result = (Ok true, w')
    /\ monitor status_file run_id [] (while_running proc) (at_exit proc)
               (started_world status_file job_dir run_id snakefile_name doc lines msg w)
       = (Ok tt, w0)
    /\ interference (after_exit proc) (status_files w0) status_file = Document doc0
    /\ events_since w0 w'
       = [Dumped tmp doc'; Replaced tmp status_file;
          Printed ("[INFO] Job " ++ job_id ++ " run " ++ run_id
                   ++ " finished with exit code " ++ str_of_int code)]
    /\ (exists before, events_since w w' = (before ++ events_since w0 w')%list)
    /\ status_files w' status_file = Document doc'
    /\ same_but_run run_id doc0 doc'
    /\ run_field doc' run_id "state" = Ok (JStr (final_state code))
    /\ (final_state code = "FINISHED" <-> code = 0)
    /\ (final_state code = "FAILED" <-> code <> 0)
    /\ run_subfield doc' run_id "timestamps" "finished" = Ok (JStr (clock w0 (ticks w0)))
    /\ run_field doc' run_id "snakemake_exit_code" = Ok (JInt code)
    /\ run_subfield doc' run_id "slurm" "job_ids" = Ok (JArr (map JInt ids))
    /\ run_subfield doc' run_id "slurm" "jobs_submitted"
       = Ok (JInt (Z.of_nat (List.length ids)))
    /\ (Forall (kept_by status_file (in_state run_id "RUNNING")) observations ->
        terminal_saves run_id (events_since w w') = [doc']).
Proof.
  intros log_path profile_dir proc observations code ids tmp result Hin Hall.
  destruct (launch_started _ _ _ _ _ _ _ _ Hin (fun H => H))
    as (doc & lines & msg & Hm & El).
  fold log_path proc in El. fold result in El.
  destruct (mark_running_doc _ _ _ _ _ _ Hm) as (Hrun & _ & _ & Hready & _).
  set (w5 := started_world status_file job_dir run_id snakefile_name doc lines msg w) in *.
  destruct (started_world_facts status_file job_dir run_id snakefile_name doc lines msg w)
    as (T5 & F5 & C5 & G5). fold w5 in T5, F5, C5, G5. fold profile_dir log_path in T5.
  apply Forall_app in Hall. destruct Hall as (Hwhile & Hend).
  inversion Hend as [|? ? Hexit Hend']; subst. inversion Hend' as [|? ? Hafter _]; subst.
  destruct (monitor_ok status_file run_id (in_place run_id) (fun _ H => H)
              (fun _ _ _ H _ => H) (while_running proc) [] (at_exit proc) w5
              ltac:(exists doc; auto) Hwhile Hexit)
    as (w0 & Emon & Hdisk & C0 & G0 & evs & T0 & _).
  destruct (Hafter _ Hdisk) as (doc0 & F0 & Hready0).
  destruct (finalize_ok status_file run_id code (after_exit proc) doc0 w0 F0 Hready0)
    as (doc' & w1 & Efin & F1 & Ev1 & Hstate & Hfin & Hcode & Hids & Hn & Hsame).
  fold ids in Hids, Hn. fold tmp in Ev1.
  set (line := ("[INFO] Job " ++ job_id ++ " run " ++ run_id
                ++ " finished with exit code " ++ str_of_int code)%string).
  assert (Eres : result = (Ok true, with_event (Printed line) w1)).
  { rewrite El. unfold watch. fold code. rewrite (bind_ok _ _ _ _ _ Emon).
    rewrite (bind_ok _ _ _ _ _ Efin). reflexivity. }
  exists doc, lines, msg, w0, doc0, doc', (with_event (Printed line) w1).
  split; [exact Eres|]. split; [exact Emon|]. split; [exact F0|].
  assert (Elast : events_since w0 (with_event (Printed line) w1)
                  = [Dumped tmp doc'; Replaced tmp status_file; Printed line]).
  { apply events_since_app. cbn [trace with_event]. rewrite Ev1, <- app_assoc. reflexivity. }
  assert (Eall : events_since w (with_event (Printed line) w1)
                 = ([Dumped tmp doc; Replaced tmp status_file; MadeDirs profile_dir;
                     ProfileWritten (path_join profile_dir "config.yaml") lines; Printed msg;
                     Spawned job_dir (path_join job_dir snakefile_name) profile_dir log_path]
                    ++ evs ++ [Dumped tmp doc'; Replaced tmp status_file; Printed line])%list).
  { apply events_since_app. cbn [trace with_event]. rewrite Ev1, T0, T5, <- !app_assoc.
    reflexivity. }
  split; [exact Elast|].
  split; [rewrite Elast, Eall; eexists; rewrite app_assoc; reflexivity|].
  split; [exact F1|]. split; [exact Hsame|]. split; [exact Hstate|].
  split; [apply final_state_finished|]. split; [apply final_state_failed|].
  split; [exact Hfin|]. split; [exact Hcode|]. split; [exact Hids|]. split; [exact Hn|].
  intros Hsteady.
  apply Forall_app in Hsteady. destruct Hsteady as (Swhile & Send).
  inversion Send as [|? ? Sexit _]; subst.
  destruct (monitor_ok status_file run_id (in_state run_id "RUNNING") (fun _ H => proj1 H)
              (in_state_kept run_id "RUNNING") (while_running proc) [] (at_exit proc) w5
              ltac:(exists doc; split; [exact F5 | split; assumption]) Swhile Sexit)
    as (w0' & Emon' & _ & _ & _ & evs' & T0' & Hsaves).
  rewrite Emon in Emon'. injection Emon' as <-.
  rewrite T0 in T0'. apply app_inv_head in T0'. subst evs'.
  rewrite Eall. unfold terminal_saves. rewrite !flat_map_app.
  fold (terminal_saves run_id evs). rewrite (running_saves_not_terminal _ _ Hsaves).
  cbn [flat_map app]. unfold is_terminal at 1. rewrite Hrun.
  cbn [String.eqb Ascii.eqb Bool.eqb orb andb].
  rewrite (final_state_terminal _ _ _ Hstate). reflexivity.
Qed.

(** A job whose engine submits two cluster jobs and fails: the first id is
    in the log while the engine runs, the second once it has ended. *)
Definition failing_run : engine_run :=
  mkEngineRun [still (Some "Submitted batch job 41")]
              (still (Some "Submitted batch job 41"))
              1
              (still (Some ("Submitted batch job 41" ++ String (chr 10) "SLURM jobid 42"))).

Definition failing_world : World :=
  mkWorld "/home/u" ["b"]
          (fun p => (p =? "/home/u/BA_Code/Agent/job-watch/b")%string || (p =? "/w/b")%string)
          (fun p => (p =? "/w/b/wf1.smk")%string)
          (fun p => if (p =? "/home/u/BA_Code/Agent/job-watch/b/status.json")%string
                    then Document ready_doc else Missing)
          (fun n => ("t" ++ str_of_int (Z.of_nat n))%string) 0 (fun _ => failing_run) [].

Lemma still_keeps status_file Q log : kept_by status_file Q (still log).
Proof. intros files H. exact H. Qed.

Lemma terminal_state_after_exit_witness :
  let status_file := "/home/u/BA_Code/Agent/job-watch/b/status.json" in
  exists doc' w',
    launch "b" status_file ready_doc "/w/b" "1" "wf1.smk" failing_world = (Ok true, w')
    /\ status_files w' status_file = Document doc'
    /\ run_field doc' "1" "state" = Ok (JStr "FAILED")
    /\ run_subfield doc' "1" "timestamps" "finished" = Ok (JStr "t2")
    /\ run_field doc' "1" "snakemake_exit_code" = Ok (JInt 1)
    /\ run_subfield doc' "1" "slurm" "job_ids" = Ok (JArr [JInt 41; JInt 42])
    /\ terminal_saves "1" (events_since failing_world w') = [doc'].
Proof.
  intros status_file.
  assert (Hin : In (Spawned "/w/b" "/w/b/wf1.smk" "/w/b/.mcse_profile_run1"
                            "/w/b/snakemake_run1.log")
                   (events_since failing_world
                      (snd (launch "b" status_file ready_doc "/w/b" "1" "wf1.smk"
                                   failing_world)))).
  { vm_compute. do 5 right. left. reflexivity. }
  destruct (terminal_state_after_exit "b" status_file ready_doc "/w/b" "1" "wf1.smk"
              failing_world Hin ltac:(repeat constructor; apply still_keeps))
    as (doc & lines & msg & w0 & doc0 & doc' & w' & Eres & Emon & _ & _ & _ & Hfile
        & _ & Hstate & _ & _ & Hfin & Hcode & Hids & _ & Honce).
  exists doc', w'. split; [exact Eres|]. split; [exact Hfile|]. split; [exact Hstate|].
  split.
  { assert (Ew : w' = snd (launch "b" status_file ready_doc "/w/b" "1" "wf1.smk"
                                  failing_world)) by (rewrite Eres; reflexivity).
    rewrite Ew in Hfile. vm_compute in Hfile. injection Hfile as <-. reflexivity. }
  split; [exact Hcode|]. split; [exact Hids|].
  apply Honce. repeat constructor; apply still_keeps.
Defined.

End Finish.

(** ** The run daemon: the run is RUNNING on disk when the engine starts (claim C6) *)

Module Persisted.
Import Py SnakeD Scraper Daemon PyFacts Eff DaemonFacts Launch Finish.

(** The world in which the engine is about to be started. *)
Definition ready_world (status_file job_dir run_id : string) (doc : json)
  (lines : list string) (msg : string) (w : World) : World :=
  let profile_dir := path_join job_dir (".mcse_profile_run" ++ run_id) in
  with_event (Printed msg)
    (with_event (ProfileWritten (path_join profile_dir "config.yaml") lines)
       (with_event (MadeDirs profile_dir)
          (snd (atomic_write_json status_file doc (with_tick w))))).

Lemma ready_world_facts status_file job_dir run_id snakefile_name doc lines msg w :
  let w4 := ready_world status_file job_dir run_id doc lines msg w in
  let profile_dir := path_join job_dir (".mcse_profile_run" ++ run_id) in
  trace w4 = (trace w ++ [Dumped (status_file ++ ".tmp") doc;
                          Replaced (status_file ++ ".tmp") status_file;
                          MadeDirs profile_dir;
                          ProfileWritten (path_join profile_dir "config.yaml") lines;
                          Printed msg])%list
  /\ status_files w4 status_file = Document doc
  /\ status_files w4 (status_file ++ ".tmp") = Missing
  /\ started_world status_file job_dir run_id snakefile_name doc lines msg w
     = with_event (Spawned job_dir (path_join job_dir snakefile_name) profile_dir
                           (path_join job_dir ("snakemake_run" ++ run_id ++ ".log"))) w4.
Proof.
  intros w4 profile_dir. unfold w4, ready_world, started_world. fold profile_dir.
  destruct (atomic_write_ok status_file doc (with_tick w)) as (wa & Ea & Ta & Fa & _).
  split; [|split; [|split; [|reflexivity]]].
  - rewrite Ea. cbn [snd trace with_event]. rewrite Ta. cbn [trace with_tick].
    rewrite <- !app_assoc. reflexivity.
  - rewrite Ea. cbn [snd status_files with_event]. exact Fa.
  - unfold atomic_write_json, bind, emit, ask, set_files.
    cbn [snd status_files with_event with_files]. unfold update.
    rewrite String.eqb_refl. reflexivity.
Qed.

(** C6, as the code has it. In a run of [handle_job] the engine is
    started at most once. When it is started, [handle_job] has read a
    document from the status file and the selection policy has chosen a
    run of it; the events up to the start are the dump of the marked
    document to the temporary file, its move onto the status file, the
    profile and a log line; and the engine is started in a world in which
    the status file holds the marked document and the temporary file is
    gone. In that document the run is RUNNING, carries the reading of the
    clock as its [started] time stamp, and has a slurm record without ids.
    With run ids that are distinct, as the keys of a dictionary are, the
    selection policy does not choose this run from that document, and a
    later [handle_job] that finds the document in the status file starts
    no engine or launches another run. *)
Theorem running_persisted_before_spawn job_id watch_dir w :
  let status_file := path_join watch_dir "status.json" in
  let tmp := (status_file ++ ".tmp")%string in
  let events := events_since w (snd (handle_job job_id watch_dir w)) in
  Forall not_spawn events
  \/ exists d doc run_id job_dir snakefile_name lines msg rest w4,
       let profile_dir := path_join job_dir (".mcse_profile_run" ++ run_id) in
       let log_path := path_join job_dir ("snakemake_run" ++ run_id ++ ".log") in
       let start := Spawned job_dir (path_join job_dir snakefile_name) profile_dir log_path in
       status_files w status_file = Document (JObj d)
       /\ pick_queued_run d = Some run_id
       /\ events =
          ([Dumped tmp doc; Replaced tmp status_file; MadeDirs profile_dir;
            ProfileWritten (path_join profile_dir "config.yaml") lines;
            Printed msg; start] ++ rest)%list
       /\ Forall not_spawn rest
       /\ trace w4 =
          (trace w ++ [Dumped tmp doc; Replaced tmp status_file; MadeDirs profile_dir;
                       ProfileWritten (path_join profile_dir "config.yaml") lines;
                       Printed msg])%list
       /\ status_files w4 status_file = Document doc
       /\ status_files w4 tmp = Missing
       /\ handle_job job_id watch_dir w
          = watch job_id status_file run_id (engine_of w log_path) (with_event start w4)
       /\ run_field doc run_id "state" = Ok (JStr "RUNNING")
       /\ run_subfield doc run_id "timestamps" "started" = Ok (JStr (clock w (ticks w)))
       /\ run_field doc run_id "slurm" = Ok empty_slurm_record
       /\ (forall d' runs,
             doc = JObj d' -> dict_get "runs" d' = Some (JObj runs) ->
             NoDup (map fst runs) ->
             pick_queued_run d' <> Some run_id
             /\ forall w2,
                  status_files w2 status_file = Document doc ->
                  Forall not_spawn (events_since w2 (snd (handle_job job_id watch_dir w2)))
                  \/ exists job_dir2 run_id2 snakefile2,
                       run_id2 <> run_id
                       /\ handle_job job_id watch_dir w2
                          = launch job_id status_file doc job_dir2 run_id2 snakefile2 w2).
Proof.
  intros status_file tmp events. unfold events.
  destruct (handle_job_cases job_id watch_dir w)
    as [H|(d & job_dir & run_id & snakefile_name & H & Hfile & Hpick)]; [left; exact H|].
  fold status_file in Hfile, H. rewrite H.
  destruct (launch job_id status_file (JObj d) job_dir run_id snakefile_name w)
    as [r w'] eqn:El. cbn [snd].
  destruct (launch_shape _ _ _ _ _ _ _ _ _ El)
    as [E|(doc0 & w1 & Hm0 & [E|[E|(lines0 & msg0 & rest0 & E & F0)]])];
    try solve [left; rewrite E; repeat constructor].
  right.
  destruct (launch_started job_id status_file (JObj d) job_dir run_id snakefile_name w
              (Spawned job_dir (path_join job_dir snakefile_name)
                       (path_join job_dir (".mcse_profile_run" ++ run_id))
                       (path_join job_dir ("snakemake_run" ++ run_id ++ ".log"))))
    as (doc & lines & msg & Hm & Hl).
  { rewrite El. cbn [snd]. rewrite E. apply in_or_app. left.
    do 5 right. left. reflexivity. }
  { intros Hs. exact Hs. }
  destruct (mark_running_doc _ _ _ _ _ _ Hm) as (Hs & Ht & Hsl & _ & _).
  destruct (started_world_facts status_file job_dir run_id snakefile_name doc lines msg w)
    as (T5 & _).
  destruct (ready_world_facts status_file job_dir run_id snakefile_name doc lines msg w)
    as (T4 & F4 & M4 & E5).
  rewrite El in Hl.
  destruct (only_watch job_id status_file run_id _ _ _ _ (eq_sym Hl)) as (rest & Tr & Fr).
  exists d, doc, run_id, job_dir, snakefile_name, lines, msg, rest,
         (ready_world status_file job_dir run_id doc lines msg w).
  cbv zeta.
  split; [exact Hfile|]. split; [exact Hpick|].
  split. { apply events_since_app. rewrite Tr, T5, <- app_assoc. reflexivity. }
  split; [exact Fr|]. split; [exact T4|]. split; [exact F4|]. split; [exact M4|].
  split; [rewrite <- E5; exact Hl|].
  split; [exact Hs|]. split; [exact Ht|]. split; [exact Hsl|].
  intros d' runs Hd Hruns Hn. subst doc.
  pose proof (running_not_selected d' runs run_id Hs Hruns Hn) as Hnot.
  split; [exact Hnot|].
  intros w2 H2.
  destruct (handle_job_cases job_id watch_dir w2)
    as [Hq|(d2 & job_dir2 & run_id2 & snakefile2 & Hh & Hfile2 & Hpick2)]; [left; exact Hq|].
  right. fold status_file in Hfile2, Hh. rewrite H2 in Hfile2. injection Hfile2 as <-.
  exists job_dir2, run_id2, snakefile2. split; [|exact Hh].
  intros ->. contradiction.
Qed.

(** The job [b] of the watch directory, alone: its run 1 is started. *)
Lemma running_persisted_before_spawn_witness :
  let w := watch_of ["b"] in
  let watch_dir := "/home/u/BA_Code/Agent/job-watch/b" in
  exists doc lines rest w4,
    events_since w (snd (handle_job "b" watch_dir w))
    = ([Dumped (watch_dir ++ "/status.json.tmp") doc;
        Replaced (watch_dir ++ "/status.json.tmp") (watch_dir ++ "/status.json");
        MadeDirs "/w/b/.mcse_profile_run1";
        ProfileWritten "/w/b/.mcse_profile_run1/config.yaml" lines;
        Printed "[INFO] Starting Snakemake for job b run 1 using slurm executor plugin";
        Spawned "/w/b" "/w/b/wf1.smk" "/w/b/.mcse_profile_run1" "/w/b/snakemake_run1.log"]
       ++ rest)%list
    /\ Forall not_spawn rest
    /\ status_files w4 (watch_dir ++ "/status.json") = Document doc
    /\ status_files w4 (watch_dir ++ "/status.json.tmp") = Missing
    /\ run_field doc "1" "state" = Ok (JStr "RUNNING")
    /\ run_subfield doc "1" "timestamps" "started" = Ok (JStr "2024-01-01T00:00:00")
    /\ run_field doc "1" "slurm" = Ok empty_slurm_record
    /\ exists d, doc = JObj d /\ pick_queued_run d = None.
Proof.
  intros w watch_dir.
  destruct (running_persisted_before_spawn "b" watch_dir w) as [H|H].
  - exfalso. vm_compute in H.
    repeat match type of H with
           | Forall _ (_ :: _) => inversion H as [|? ? Hhead Htail]; subst; clear H;
                                  try contradiction; rename Htail into H; clear Hhead
           end.
  - cbv zeta in H.
    destruct H as (d & doc & run_id & job_dir & snakefile_name & lines & msg & rest & w4
                   & Hfile & Hpick & E & F & _ & F4 & M4 & _ & Hs & Ht & Hsl & _).
    vm_compute in Hfile. injection Hfile as <-.
    vm_compute in Hpick. injection Hpick as <-.
    vm_compute in E. injection E; clear E; intros Erest _ _ _ _ _ Elines _ _ Edoc.
    exists doc, lines, rest, w4.
    split; [subst doc lines rest; vm_compute; reflexivity|]. split; [exact F|].
    split; [exact F4|]. split; [exact M4|]. split; [exact Hs|]. split; [exact Ht|].
    split; [exact Hsl|]. subst doc. eexists. split; reflexivity.
Defined.

End Persisted.

(** ** Saves and concurrent readers (claim C10) *)

Module StoreFacts.
Import Py Eff Daemon Store PyFacts.

Lemma drop_nil n : drop n EmptyString = EmptyString.
Proof. destruct n; reflexivity. Qed.

Lemma write_at_end written chunk :
  write_at (String.length written) chunk written = (written ++ chunk)%string.
Proof.
  induction written as [|c written IH]; cbn [String.length write_at String.append].
  - rewrite drop_nil. apply append_nil_r.
  - rewrite IH. reflexivity.
Qed.

Lemma take_drop k : forall s, (take k s ++ drop k s)%string = s.
Proof.
  induction k as [|k IH]; intros s; [destruct s; reflexivity|].
  destruct s as [|c s]; [reflexivity|]. cbn [take drop String.append].
  rewrite IH. reflexivity.
Qed.

(** What a write at the end of the file leaves in the file system. *)
Lemma write_appends fd written chunk fs :
  data fs fd = written ->
  dir (write fd (String.length written) chunk fs) = dir fs
  /\ next (write fd (String.length written) chunk fs) = next fs
  /\ forall j, data (write fd (String.length written) chunk fs) j
               = put (data fs) fd (written ++ chunk)%string j.
Proof.
  intros H. unfold write. destruct chunk as [|c chunk].
  - split; [reflexivity|]. split; [reflexivity|]. intros j.
    rewrite append_nil_r, <- H. unfold put.
    destruct (Nat.eqb_spec j fd) as [->|_]; reflexivity.
  - cbn [dir next data]. split; [reflexivity|]. split; [reflexivity|]. intros j.
    rewrite H, write_at_end. reflexivity.
Qed.

Lemma has_char_app x a b : has_char x (a ++ b) = has_char x a || has_char x b.
Proof.
  induction a as [|c a IH]; cbn [has_char String.append]; [reflexivity|].
  rewrite IH. apply orb_assoc.
Qed.

(** The temporary file is in the directory of the status file. *)
Lemma same_directory path : directory_of (path ++ ".tmp") = directory_of path.
Proof.
  induction path as [|c path IH]; [reflexivity|].
  cbn [directory_of String.append]. rewrite has_char_app, IH.
  replace (has_char "/" ".tmp") with false by reflexivity. rewrite orb_false_r.
  reflexivity.
Qed.

Lemma tmp_is_other path : (path =? path ++ ".tmp")%string = false.
Proof.
  destruct (String.eqb_spec path (path ++ ".tmp")) as [H|_]; [|reflexivity].
  apply (f_equal String.length) in H. rewrite length_append in H. simpl in H. lia.
Qed.

Lemma last_snoc {A : Type} (l : list A) (x d : A) : last (l ++ [x]) d = x.
Proof.
  induction l as [|y l IH]; [reflexivity|].
  cbn [app]. destruct (l ++ [x])%list eqn:E; [destruct l; discriminate|].
  cbn [last]. exact IH.
Qed.

(** *** One process that saves *)

Section OneWriter.

Variables (path initial : string) (all : list string).

Let tmp_path : string := (path ++ ".tmp")%string.

(** The texts a reader may see: the one the file had at the start, and the
    complete text of each save. *)
Definition complete : list string := initial :: all.

(** The text of the file after the saves [done]. *)
Definition current (done : list string) : string := last done initial.

Lemma current_complete done rest : all = (done ++ rest)%list -> In (current done) complete.
Proof.
  intros H. unfold current, complete. rewrite H. clear H.
  destruct done as [|x done' _] using rev_ind; [left; reflexivity|].
  rewrite last_snoc. right.
  apply in_or_app. left. apply in_or_app. right. left. reflexivity.
Qed.

(** What holds between the steps: the status file has the text of the last
    save that was completed; the files readers hold have complete texts;
    the temporary file, when there is one, is neither the status file nor
    held by a reader; and the temporary file has what has been written of
    the save under way. *)
Definition invariant (s : System) : Prop :=
  exists p it done,
    processes s = [p]
    /\ all = (done ++ saves p)%list
    /\ dir (files s) path = Some it
    /\ (it < next (files s))%nat
    /\ data (files s) it = current done
    /\ Forall (fun h => (h < next (files s))%nat /\ In (data (files s) h) complete) (held s)
    /\ Forall (fun t => In t complete) (seen s)
    /\ (forall j, dir (files s) tmp_path = Some j ->
                  (j < next (files s))%nat /\ j <> it /\ ~ In j (held s))
    /\ match at_point p with
       | Idle => True
       | Writing fd off rest =>
           dir (files s) tmp_path = Some fd
           /\ exists later,
                saves p = (data (files s) fd ++ rest)%string :: later
                /\ off = String.length (data (files s) fd)
       | Closed =>
           exists fd later,
             dir (files s) tmp_path = Some fd
             /\ saves p = data (files s) fd :: later
       | Crashed _ => False
       end.

Lemma held_elsewhere (d : nat -> string) (n : nat) (hs : list nat) i x :
  Forall (fun h => (h < n)%nat /\ In (d h) complete) hs -> ~ In i hs ->
  Forall (fun h => (h < n)%nat /\ In (put d i x h) complete) hs.
Proof.
  intros F Hn. rewrite Forall_forall in *. intros h Hh. unfold put.
  destruct (Nat.eqb_spec h i) as [->|_]; [contradiction | auto].
Qed.

Lemma held_fresh (d : nat -> string) (n : nat) (hs : list nat) x :
  Forall (fun h => (h < n)%nat /\ In (d h) complete) hs ->
  Forall (fun h => (h < S n)%nat /\ In (put d n x h) complete) hs.
Proof.
  intros F. rewrite Forall_forall in *. intros h Hh. destruct (F h Hh) as (Hlt & Hin).
  unfold put. destruct (Nat.eqb_spec h n) as [->|_]; [lia|]. split; [lia | exact Hin].
Qed.

(** A write to the temporary file, as the other parts of the invariant
    see it. *)
Lemma write_keeps s p it done fd off rest chunk rest' :
  processes s = [p] ->
  all = (done ++ saves p)%list ->
  dir (files s) path = Some it ->
  (it < next (files s))%nat ->
  data (files s) it = current done ->
  Forall (fun h => (h < next (files s))%nat /\ In (data (files s) h) complete) (held s) ->
  Forall (fun t => In t complete) (seen s) ->
  (forall j, dir (files s) tmp_path = Some j ->
             (j < next (files s))%nat /\ j <> it /\ ~ In j (held s)) ->
  dir (files s) tmp_path = Some fd ->
  (exists later, saves p = (data (files s) fd ++ rest)%string :: later
                 /\ off = String.length (data (files s) fd)) ->
  rest = (chunk ++ rest')%string ->
  let fs' := write fd off chunk (files s) in
  dir fs' path = Some it
  /\ (it < next fs')%nat
  /\ data fs' it = current done
  /\ Forall (fun h => (h < next fs')%nat /\ In (data fs' h) complete) (held s)
  /\ (forall j, dir fs' tmp_path = Some j -> (j < next fs')%nat /\ j <> it /\ ~ In j (held s))
  /\ dir fs' tmp_path = Some fd
  /\ exists later, saves p = (data fs' fd ++ rest')%string :: later
                   /\ (off + String.length chunk)%nat = String.length (data fs' fd).
Proof.
  intros Hp Hall Hdir Hlt Hdata Hheld Hseen Htmp Efd (later & Hsv & Hoff) Hrest fs'.
  destruct (Htmp fd Efd) as (Hj & Hne & Hnh).
  destruct (write_appends fd (data (files s) fd) chunk (files s) eq_refl) as (Ed & En & Ea).
  rewrite <- Hoff in Ed, En, Ea. fold fs' in Ed, En, Ea.
  rewrite Ed, En.
  split; [exact Hdir|]. split; [exact Hlt|].
  split; [rewrite Ea; unfold put; destruct (Nat.eqb_spec it fd); [congruence | exact Hdata]|].
  split.
  { pose proof (held_elsewhere (data (files s)) (next (files s)) (held s) fd
                  (data (files s) fd ++ chunk)%string Hheld Hnh) as F.
    rewrite Forall_forall in *. intros h Hh. rewrite Ea. apply F, Hh. }
  split; [exact Htmp|]. split; [exact Efd|].
  exists later. rewrite Ea. unfold put. rewrite Nat.eqb_refl. split.
  - rewrite append_assoc, <- Hrest. exact Hsv.
  - rewrite length_append, Hoff. reflexivity.
Qed.

Lemma work_keeps s : invariant s -> invariant (step path (Work 0) s).
Proof.
  intros (p & it & done & Hp & Hall & Hdir & Hlt & Hdata & Hheld & Hseen & Htmp & Hat).
  cbn [step]. rewrite Hp. cbn [nth_error].
  destruct p as [pt sv]. cbn [at_point saves] in *.
  unfold atomic_write_json_step. cbn [at_point saves]. fold tmp_path.
  destruct pt as [|fd off rest| |e]; [| | |contradiction].
  - (* open *)
    destruct sv as [|text later].
    { exists (mkProcess Idle []), it, done. cbn [files processes held seen set_nth].
      repeat (split; [assumption || reflexivity|]). exact I. }
    unfold open_w. destruct (dir (files s) tmp_path) as [j|] eqn:Ej.
    + destruct (Htmp j eq_refl) as (Hj & Hne & Hnh).
      exists (mkProcess (Writing j 0 text) (text :: later)), it, done.
      cbn [files processes held seen set_nth dir data next at_point saves].
      split; [reflexivity|]. split; [exact Hall|]. split; [exact Hdir|]. split; [exact Hlt|].
      split; [unfold put; destruct (Nat.eqb_spec it j); [congruence | exact Hdata]|].
      split; [apply held_elsewhere; assumption|]. split; [exact Hseen|].
      split; [intros j' Hj'; rewrite Ej in Hj'; injection Hj' as <-; auto|].
      split; [exact Ej|]. exists later. unfold put. rewrite Nat.eqb_refl.
      split; reflexivity.
    + exists (mkProcess (Writing (next (files s)) 0 text) (text :: later)), it, done.
      cbn [files processes held seen set_nth dir data next at_point saves].
      assert (Hself : bind_path (dir (files s)) tmp_path (Some (next (files s))) tmp_path
                      = Some (next (files s))).
      { unfold bind_path. rewrite String.eqb_refl. reflexivity. }
      split; [reflexivity|]. split; [exact Hall|].
      split; [unfold bind_path, tmp_path; rewrite tmp_is_other; exact Hdir|].
      split; [lia|].
      split; [unfold put; destruct (Nat.eqb_spec it (next (files s))); [lia | exact Hdata]|].
      split; [apply held_fresh; exact Hheld|]. split; [exact Hseen|].
      split.
      { intros j Hj. rewrite Hself in Hj. injection Hj as <-.
        split; [lia|]. split; [lia|]. intros Hin. rewrite Forall_forall in Hheld.
        destruct (Hheld _ Hin). lia. }
      split; [exact Hself|]. exists later. unfold put. rewrite Nat.eqb_refl.
      split; reflexivity.
  - (* close *)
    destruct Hat as (Efd & Hw).
    destruct (write_keeps s (mkProcess (Writing fd off rest) sv) it done fd off rest
                rest EmptyString Hp Hall Hdir Hlt Hdata Hheld Hseen Htmp Efd Hw
                (eq_sym (append_nil_r rest)))
      as (H1 & H2 & H3 & H4 & H5 & H6 & later & H7 & _).
    cbn [saves] in H7. rewrite append_nil_r in H7.
    exists (mkProcess Closed sv), it, done.
    cbn [files processes held seen set_nth at_point saves].
    repeat (split; [assumption || reflexivity|]).
    exists fd, later. split; assumption.
  - (* replace *)
    destruct Hat as (fd & later & Efd & Hsv). subst sv.
    destruct (Htmp fd Efd) as (Hj & Hne & Hnh).
    unfold os_replace. rewrite Efd.
    exists (mkProcess Idle later), fd, (done ++ [data (files s) fd])%list.
    cbn [files processes held seen set_nth dir data next at_point saves].
    split; [reflexivity|]. split; [rewrite <- app_assoc; exact Hall|].
    split; [unfold bind_path, tmp_path; rewrite tmp_is_other, String.eqb_refl; reflexivity|].
    split; [exact Hj|].
    split; [unfold current; rewrite last_snoc; reflexivity|].
    split; [exact Hheld|]. split; [exact Hseen|].
    split; [|exact I].
    intros j Hjj. unfold bind_path in Hjj. rewrite String.eqb_refl in Hjj. discriminate.
Qed.

Lemma flush_keeps k s : invariant s -> invariant (step path (Flush 0 k) s).
Proof.
  intros (p & it & done & Hp & Hall & Hdir & Hlt & Hdata & Hheld & Hseen & Htmp & Hat).
  cbn [step]. rewrite Hp. cbn [nth_error].
  destruct p as [pt sv]. cbn [at_point saves] in *.
  unfold flush. cbn [at_point saves].
  destruct pt as [|fd off rest| |e];
    try (exists (mkProcess Idle sv), it, done; cbn [files processes held seen set_nth];
         repeat (split; [assumption || reflexivity|]); exact I);
    try (exists (mkProcess Closed sv), it, done; cbn [files processes held seen set_nth];
         repeat (split; [assumption || reflexivity|]); exact Hat);
    [|contradiction].
  destruct Hat as (Efd & Hw).
  destruct (write_keeps s (mkProcess (Writing fd off rest) sv) it done fd off rest
              (take k rest) (drop k rest) Hp Hall Hdir Hlt Hdata Hheld Hseen Htmp Efd Hw
              (eq_sym (take_drop k rest)))
    as (H1 & H2 & H3 & H4 & H5 & H6 & later & H7 & H8).
  cbn [saves] in H7.
  exists (mkProcess (Writing fd (off + String.length (take k rest)) (drop k rest)) sv),
         it, done.
  cbn [files processes held seen set_nth at_point saves].
  split; [reflexivity|]. split; [exact Hall|]. split; [exact H1|]. split; [exact H2|].
  split; [exact H3|]. split; [exact H4|]. split; [exact Hseen|]. split; [exact H5|].
  split; [exact H6|]. exists later. split; [exact H7 | exact H8].
Qed.

Lemma step_keeps a s : invariant s -> invariant (step path a s).
Proof.
  intros H. destruct a as [i|i k| |k].
  - destruct i as [|i]; [apply work_keeps; exact H|].
    destruct H as (p & H). destruct H as (it & done & Hp & H).
    cbn [step]. rewrite Hp. destruct i; cbn [nth_error]; exists p, it, done; auto.
  - destruct i as [|i]; [apply flush_keeps; exact H|].
    destruct H as (p & H). destruct H as (it & done & Hp & H).
    cbn [step]. rewrite Hp. destruct i; cbn [nth_error]; exists p, it, done; auto.
  - destruct H as (p & it & done & Hp & Hall & Hdir & Hlt & Hdata & Hheld & Hseen & Htmp & Hat).
    cbn [step]. rewrite Hdir. exists p, it, done. cbn [files processes held seen].
    repeat (split; [assumption|]). split; [|split; [exact Hseen|split; [|exact Hat]]].
    + apply Forall_app. split; [exact Hheld|]. constructor; [|constructor].
      split; [exact Hlt|]. rewrite Hdata. apply (current_complete _ _ Hall).
    + intros j Hj. destruct (Htmp j Hj) as (H1 & H2 & H3).
      split; [exact H1|]. split; [exact H2|]. intros Hin. apply in_app_or in Hin.
      destruct Hin as [Hin|[Hin|[]]]; [contradiction | congruence].
  - destruct H as (p & it & done & Hp & Hall & Hdir & Hlt & Hdata & Hheld & Hseen & Htmp & Hat).
    cbn [step]. destruct (nth_error (held s) k) as [i|] eqn:Ek.
    + exists p, it, done. cbn [files processes held seen].
      repeat (split; [assumption|]). split; [|split; assumption].
      apply Forall_app. split; [exact Hseen|]. constructor; [|constructor].
      apply nth_error_In in Ek. rewrite Forall_forall in Hheld. apply (Hheld _ Ek).
    + exists p, it, done. repeat (split; [assumption|]). assumption.
Qed.

Lemma run_keeps schedule : forall s, invariant s -> invariant (run path schedule s).
Proof.
  induction schedule as [|a schedule IH]; intros s H; [exact H|].
  cbn [run fold_left]. apply IH. apply step_keeps. exact H.
Qed.

End OneWriter.

(** The start: one process that has not begun, no reader yet, the status
    file with its text, and a temporary file, if one was left behind, that
    is not the status file. *)
Definition well_started (path initial : string) (all : list string) (s : System)
  : Prop :=
  processes s = [mkProcess Idle all] /\ held s = [] /\ seen s = []
  /\ exists it,
       dir (files s) path = Some it /\ (it < next (files s))%nat
       /\ data (files s) it = initial
       /\ forall j, dir (files s) (path ++ ".tmp") = Some j ->
                    (j < next (files s))%nat /\ j <> it.

Lemma well_started_invariant path initial all s :
  well_started path initial all s -> invariant path initial all s.
Proof.
  intros (Hp & Hh & Hs & it & Hdir & Hlt & Hdata & Htmp).
  exists (mkProcess Idle all), it, []. rewrite Hh, Hs. cbn [at_point saves app].
  split; [exact Hp|]. split; [reflexivity|]. split; [exact Hdir|]. split; [exact Hlt|].
  split; [exact Hdata|]. split; [constructor|]. split; [constructor|].
  split; [|exact I]. intros j Hj. destruct (Htmp j Hj). auto.
Qed.

(** C10, as the code has it: a save dumps the document to [path + ".tmp"],
    a path in the directory of [path], and then moves that file onto
    [path], after which [path] holds the document. With one process that
    saves to the status file, whatever the interleaving of its steps and
    of the moments at which its buffer is written out with the opens and
    reads of readers: every text a reader reads is the text the file had
    at the start or the complete text of one of the saves; the status
    file always has the text of the last save that was completed; and no
    save fails. *)
Theorem saves_are_whole path obj w initial all s schedule :
  well_started path initial all s ->
  let s' := run path schedule s in
  (exists w', atomic_write_json path obj w = (Ok tt, w')
              /\ events_since w w' = [Dumped (path ++ ".tmp") obj;
                                      Replaced (path ++ ".tmp") path]
              /\ status_files w' path = Document obj)
  /\ directory_of (path ++ ".tmp") = directory_of path
  /\ Forall (fun t => In t (initial :: all)) (seen s')
  /\ exists p done it,
       processes s' = [p]
       /\ all = (done ++ saves p)%list
       /\ dir (files s') path = Some it
       /\ data (files s') it = last done initial
       /\ forall e, at_point p <> Crashed e.
Proof.
  intros H s'. split; [|split; [apply same_directory|]].
  - destruct (Finish.atomic_write_ok path obj w) as (w' & E & T & F & _).
    exists w'. split; [exact E|]. split; [|exact F]. apply Launch.events_since_app. exact T.
  - destruct (run_keeps path initial all schedule s (well_started_invariant _ _ _ _ H))
      as (p & it & done & Hp & Hall & Hdir & _ & Hdata & _ & Hseen & _ & Hat).
    fold s' in Hp, Hdir, Hdata, Hseen. split; [exact Hseen|].
    exists p, done, it. repeat (split; [assumption|]).
    intros e He. rewrite He in Hat. exact Hat.
Qed.

(** Documents as [json.dump(obj, f, indent=2)] writes them. *)
Definition quoted (s : string) : string :=
  (String "034"%char s ++ String "034"%char EmptyString)%string.

Definition feed : string := String "010" EmptyString.

(** [{"runs": {}}] *)
Definition old_text : string :=
  ("{" ++ feed ++ "  " ++ quoted "runs" ++ ": {}" ++ feed ++ "}")%string.

(** [{"runs": {"1": {}}}] *)
Definition save_a : string :=
  ("{" ++ feed ++ "  " ++ quoted "runs" ++ ": {" ++ feed
   ++ "    " ++ quoted "1" ++ ": {}" ++ feed ++ "  }" ++ feed ++ "}")%string.

(** [{"runs": {"1": {}, "2": {}}}] *)
Definition save_b : string :=
  ("{" ++ feed ++ "  " ++ quoted "runs" ++ ": {" ++ feed
   ++ "    " ++ quoted "1" ++ ": {}," ++ feed
   ++ "    " ++ quoted "2" ++ ": {}" ++ feed ++ "  }" ++ feed ++ "}")%string.

(** Two saves of one process, the second with its buffer written out in
    three pieces, and a reader at work between the steps. *)
Definition calm_schedule : list action :=
  [Open; Work 0; Read 0; Work 0; Open; Read 1; Work 0; Read 1; Open; Read 2; Read 0;
   Work 0; Flush 0 1; Read 2; Open; Flush 0 10; Read 3; Work 0; Read 3; Work 0; Open;
   Read 4; Read 0].

Lemma saves_are_whole_witness :
  let s' := run "status.json" calm_schedule (start "status.json" old_text [[save_a; save_b]]) in
  seen s' = [old_text; old_text; old_text; save_a; old_text; save_a; save_a; save_a;
             save_b; old_text]
  /\ Forall (fun t => In t [old_text; save_a; save_b]) (seen s')
  /\ exists p, processes s' = [p] /\ forall e, at_point p <> Crashed e.
Proof.
  intros s'.
  assert (H : well_started "status.json" old_text [save_a; save_b]
                (start "status.json" old_text [[save_a; save_b]])).
  { split; [reflexivity|]. split; [reflexivity|]. split; [reflexivity|].
    exists O. split; [reflexivity|]. split; [cbn; lia|]. split; [reflexivity|].
    intros j Hj. vm_compute in Hj. discriminate Hj. }
  destruct (saves_are_whole "status.json" JNull
              (DaemonFacts.watch_of []) old_text [save_a; save_b] _ calm_schedule H)
    as (_ & _ & Hseen & p & done & it & Hp & _ & _ & _ & Hat).
  split; [vm_compute; reflexivity|]. split; [exact Hseen|].
  exists p. split; [exact Hp | exact Hat].
Defined.

(** C10 as stated fails for two processes that save to one status file.
    Both use the same temporary file. Process 1 opens it once process 0
    has written and closed it, and before process 0 moves it: the file
    that becomes the status file is empty, and a reader reads an empty
    text, which is no document. The document of process 1 then reaches the
    status file at its [close]; its move finds no temporary file and
    fails. *)
Definition racing_schedule : list action :=
  [Work 0; Work 0; Work 1; Work 0; Open; Read 0; Work 1; Open; Read 1; Work 1].

Lemma concurrent_saves_expose_partial_text :
  let s' := run "status.json" racing_schedule
                (start "status.json" old_text [[save_a]; [save_b]]) in
  seen s' = [EmptyString; save_b]
  /\ ~ Forall (fun t => In t [old_text; save_a; save_b]) (seen s')
  /\ map at_point (processes s') = [Idle; Crashed FileNotFoundError].
Proof.
  intros s'.
  assert (Hseen : seen s' = [EmptyString; save_b]) by (vm_compute; reflexivity).
  split; [exact Hseen|]. split; [|vm_compute; reflexivity].
  rewrite Hseen. intros H. inversion H as [|? ? Hin _]; subst.
  destruct Hin as [Hin|[Hin|[Hin|[]]]]; vm_compute in Hin; discriminate Hin.
Qed.

End StoreFacts.

(** * Further properties of the run daemon and the agent *)

(** ** The resource parsers on arbitrary input *)

Module ParserFacts.
Import Py SnakeD PyFacts.

Lemma parse_time_text_min s : 1 <= parse_time_text s.
Proof.
  unfold parse_time_text.
  destruct (split ":" (strip s)) as [|p0 [|p1 [|p2 [|p3 ps]]]]; try lia.
  destruct (int_of_str p0) as [h|]; [|lia].
  destruct (int_of_str p1) as [m|]; [|lia].
  destruct (int_of_str p2) as [x|]; [|lia].
  cbv zeta. set (total := if 0 <? x then h * 60 + m + 1 else h * 60 + m).
  destruct (Z.ltb_spec total 1); lia.
Qed.

(** X1: whatever value is found under [time], text or not, well formed
    or not, the runtime handed to the cluster is at least one minute. *)
Theorem parse_time_to_minutes_min (time_str : json) : 1 <= parse_time_to_minutes time_str.
Proof.
  destruct time_str; cbn [parse_time_to_minutes];
    try (destruct (truthy _); [lia | apply parse_time_text_min]).
  apply parse_time_text_min.
Qed.

(** *** White space and letter case *)

Lemma lstrip_idem s : lstrip (lstrip s) = lstrip s.
Proof.
  induction s as [|c s IH]; [reflexivity|]. cbn [lstrip].
  destruct (is_space c) eqn:E; [exact IH|]. cbn [lstrip]. rewrite E. reflexivity.
Qed.

Lemma rstrip_fixed_tail c u : rstrip (String c u) = String c u -> u <> EmptyString -> rstrip u = u.
Proof.
  cbn [rstrip]. destruct (rstrip u) as [|d r] eqn:E.
  - destruct (is_space c); [discriminate|]. intros [= <-] H. contradiction.
  - intros [= <-] _. reflexivity.
Qed.

Lemma rstrip_idem s : rstrip (rstrip s) = rstrip s.
Proof.
  induction s as [|c s IH]; [reflexivity|]. cbn [rstrip].
  destruct (rstrip s) as [|d r] eqn:E.
  - destruct (is_space c) eqn:Ec; [reflexivity|]. cbn [rstrip]. rewrite Ec. reflexivity.
  - cbn [rstrip]. cbn [rstrip] in IH. destruct (rstrip r) as [|d' r'] eqn:Er.
    + destruct (is_space d) eqn:Ed; [discriminate IH|]. injection IH as <-. reflexivity.
    + rewrite IH. reflexivity.
Qed.

Lemma rstrip_lstrip_fixed u : rstrip u = u -> rstrip (lstrip u) = lstrip u.
Proof.
  induction u as [|c u IH]; intros H; [reflexivity|]. cbn [lstrip].
  destruct (is_space c) eqn:Ec; [|exact H].
  destruct u as [|d u']; [reflexivity|].
  apply IH. apply (rstrip_fixed_tail c); [exact H | discriminate].
Qed.

Lemma strip_idem s : strip (strip s) = strip s.
Proof.
  unfold strip. rewrite (rstrip_lstrip_fixed _ (rstrip_idem s)). apply lstrip_idem.
Qed.

Lemma is_space_upper c : is_space (upper_char c) = is_space c.
Proof. destruct c as [[] [] [] [] [] [] [] []]; reflexivity. Qed.

Lemma upper_char_idem c : upper_char (upper_char c) = upper_char c.
Proof. destruct c as [[] [] [] [] [] [] [] []]; reflexivity. Qed.

Lemma upper_idem s : upper (upper s) = upper s.
Proof.
  induction s as [|c s IH]; [reflexivity|]. cbn [upper]. rewrite upper_char_idem, IH.
  reflexivity.
Qed.

Lemma lstrip_upper s : lstrip (upper s) = upper (lstrip s).
Proof.
  induction s as [|c s IH]; [reflexivity|]. cbn [upper lstrip]. rewrite is_space_upper.
  destruct (is_space c); [exact IH | reflexivity].
Qed.

Lemma rstrip_upper s : rstrip (upper s) = upper (rstrip s).
Proof.
  induction s as [|c s IH]; [reflexivity|]. cbn [upper rstrip]. rewrite IH, is_space_upper.
  destruct (rstrip s); cbn [upper]; [destruct (is_space c)|]; reflexivity.
Qed.

Lemma strip_upper s : strip (upper s) = upper (strip s).
Proof. unfold strip. rewrite rstrip_upper, lstrip_upper. reflexivity. Qed.

(** X2: both parsers read a text as they read it stripped of the white
    space around it, and the memory parser reads [2g] as it reads [2G]. *)
Theorem parsers_ignore_space_and_case (s : string) :
  parse_time_to_minutes (JStr (strip s)) = parse_time_to_minutes (JStr s)
  /\ parse_mem_to_mb (JStr (strip s)) = parse_mem_to_mb (JStr s)
  /\ parse_mem_to_mb (JStr (upper s)) = parse_mem_to_mb (JStr s).
Proof.
  cbn [parse_time_to_minutes parse_mem_to_mb]. unfold parse_time_text, parse_mem_text.
  rewrite strip_idem, strip_upper, upper_idem. repeat split.
Qed.

End ParserFacts.

(** ** The generated profile *)

Module ProfileFacts.
Import Py SnakeD PyFacts ParserFacts.

Lemma mem_mb_per_cpu_min cpus total n : mem_mb_per_cpu cpus total = Some n -> 1 <= n.
Proof.
  unfold mem_mb_per_cpu. destruct (int_of_json cpus) as [c|]; [|discriminate].
  destruct total as [t|]; [|discriminate].
  destruct (true_div t _) as [q|]; [|discriminate].
  destruct (int_of_float q) as [m|]; [|discriminate].
  intros [= <-]. lia.
Qed.

Lemma str_of_int_digits z : isdigit (str_of_int z) = true -> 0 <= z.
Proof.
  unfold str_of_int. destruct (Z.ltb_spec z 0) as [H|H]; [|lia].
  intros E. discriminate E.
Qed.

Lemma cpus_shown_nonneg cpus c : cpus_shown cpus = Ok c -> 0 <= c.
Proof.
  unfold cpus_shown. destruct (isdigit (str cpus)) eqn:E; [|intros [= <-]; lia].
  destruct cpus as [|b|z|s|l|m]; cbn [int_of_json]; try discriminate.
  - intros [= <-]. destruct b; lia.
  - intros [= <-]. apply str_of_int_digits. exact E.
  - cbn [str] in E. destruct (int_of_str s) as [n|] eqn:Ei; [|discriminate].
    intros [= <-]. rewrite (int_of_digits_value _ _ E Ei).
    apply dec_value_nonneg; [lia | apply isdigit_all; exact E].
Qed.

Lemma format_int_shown z r : format_int z = Some r -> r = str_of_int z.
Proof. unfold format_int. destruct (_ <=? _); [discriminate|]. intros [= <-]. reflexivity. Qed.

Lemma resource_truthy resources k default v :
  resource resources k default = Ok v -> truthy default = true -> truthy v = true.
Proof.
  unfold resource. destruct (get_method _ k JNull) as [x|]; [|discriminate].
  intros [= <-] H. unfold or_else. destruct (truthy x) eqn:E; assumption.
Qed.

Lemma cpus_shown_int c x :
  truthy (JInt c) = true -> cpus_shown (JInt c) = Ok x -> 1 <= x.
Proof.
  intros H E. pose proof (cpus_shown_nonneg (JInt c) x E) as H0. unfold cpus_shown in E.
  cbn [int_of_json] in E. cbn [truthy] in H.
  destruct (isdigit (str (JInt c))); injection E as <-; [|lia].
  destruct (Z.eqb_spec c 0); [discriminate | lia].
Qed.

(** The six lines every profile has, and the line for the memory. *)
Definition head_lines (partition : string) (runtime cpus : Z) : list string :=
  ["executor: slurm"; "jobs: 50"; "default-resources:";
   "  slurm_partition: " ++ String "034" (partition ++ String "034" EmptyString);
   "  runtime: " ++ str_of_int runtime;
   "  cpus_per_task: " ++ str_of_int cpus].

Definition memory_line (memory : option Z) : list string :=
  match memory with
  | Some m => ["  mem_mb_per_cpu: " ++ str_of_int m]
  | None => []
  end.

(** X3: every profile written has the three fixed lines, the quoted
    partition, a runtime of at least one minute and a count of cpus that is
    not negative (at least 1 when the request gives it as a number), and
    then at most one line more, a memory per cpu of at least 1 MB. *)
Theorem profile_lines_shape resources lines :
  profile_lines resources = Ok lines ->
  exists partition runtime cpus memory,
    lines = app (head_lines partition runtime cpus) (memory_line memory)
    /\ 1 <= runtime
    /\ 0 <= cpus
    /\ (forall c, resource resources "cpus_per_task" (JInt 1) = Ok (JInt c) -> 1 <= cpus)
    /\ (forall m, memory = Some m -> 1 <= m).
Proof.
  unfold profile_lines. intros H.
  destruct (resource resources "job_name" (JStr "snakemake_job")) as [job_name|]; [|discriminate].
  destruct (resource resources "partition" (JStr "medium")) as [partition|]; [|discriminate].
  destruct (resource resources "time" (JStr "01:00:00")) as [time_limit|]; [|discriminate].
  destruct (resource resources "cpus_per_task" (JInt 1)) as [cpus|] eqn:Ec; [|discriminate].
  destruct (resource resources "mem" (JStr "2G")) as [mem|]; [|discriminate].
  cbv zeta in H.
  destruct (format_int (parse_time_to_minutes time_limit)) as [runtime|] eqn:Er;
    [|discriminate].
  apply format_int_shown in Er. subst runtime.
  destruct (cpus_shown cpus) as [shown|] eqn:Es; [|discriminate].
  exists (str partition), (parse_time_to_minutes time_limit), shown,
         (mem_mb_per_cpu cpus (parse_mem_to_mb mem)).
  split.
  { injection H as <-. destruct (mem_mb_per_cpu cpus (parse_mem_to_mb mem)); reflexivity. }
  split; [apply parse_time_to_minutes_min|]. split; [apply (cpus_shown_nonneg _ _ Es)|].
  split.
  - intros c [= ->]. apply (cpus_shown_int c shown); [|exact Es].
    apply (resource_truthy _ _ _ _ Ec). reflexivity.
  - intros m Hm. apply (mem_mb_per_cpu_min _ _ _ Hm).
Qed.

Definition gpu_request : json :=
  JObj [("partition", JStr "gpu"); ("time", JStr "00:10:30");
        ("cpus_per_task", JInt 4); ("mem", JStr "8G")].

Lemma profile_lines_shape_witness :
  exists lines,
    profile_lines gpu_request = Ok lines
    /\ List.length lines = 7%nat
    /\ nth 4 lines EmptyString = "  runtime: 11"
    /\ nth 6 lines EmptyString = "  mem_mb_per_cpu: 2048".
Proof.
  destruct (profile_lines gpu_request) as [lines|e] eqn:E; [|discriminate E].
  destruct (profile_lines_shape gpu_request lines E) as (p & r & c & m & Hl & _).
  exists lines. split; [reflexivity|].
  vm_compute in E. injection E as <-. repeat split.
Defined.

(** The profile written for a request without content. *)
Definition default_profile : list string :=
  ["executor: slurm"; "jobs: 50"; "default-resources:";
   "  slurm_partition: " ++ String "034" ("medium" ++ String "034" EmptyString);
   "  runtime: 60"; "  cpus_per_task: 1"; "  mem_mb_per_cpu: 2048"].

Lemma dict_get_other k k' v d : k <> k' -> dict_get k' (dict_set k v d) = dict_get k' d.
Proof.
  intros H. rewrite Launch.dict_get_set.
  destruct (String.eqb_spec k k'); [contradiction | reflexivity].
Qed.

Lemma resource_other resources_d k k' v default :
  k <> k' ->
  resource (JObj (dict_set k v resources_d)) k' default = resource (JObj resources_d) k' default.
Proof.
  intros H. unfold resource, or_else, get_method.
  assert (E : truthy (JObj (dict_set k v resources_d)) = true).
  { destruct resources_d as [|[k0 v0] d]; cbn [dict_set truthy]; [reflexivity|].
    destruct (k0 =? k)%string; reflexivity. }
  rewrite E, (dict_get_other _ _ _ _ H).
  destruct resources_d as [|kv d]; cbn [truthy]; reflexivity.
Qed.

(** X4: a request that is absent or empty ([None], [{}], [0], ...) gives
    the default profile: partition medium, 60 minutes, one cpu, 2048 MB;
    and the [job_name] of a request never changes the profile. *)
Theorem profile_defaults :
  (forall resources, truthy resources = false -> profile_lines resources = Ok default_profile)
  /\ (forall d name,
        profile_lines (JObj (dict_set "job_name" name d)) = profile_lines (JObj d)).
Proof.
  split.
  - intros resources H.
    assert (E : forall k default,
               resource resources k default = Ok (or_else JNull default)).
    { intros k default. unfold resource.
      replace (or_else resources (JObj [])) with (JObj [])
        by (unfold or_else; rewrite H; reflexivity).
      reflexivity. }
    unfold profile_lines. rewrite !E. vm_compute. reflexivity.
  - intros d name. unfold profile_lines.
    rewrite (resource_other d "job_name" "partition") by discriminate.
    rewrite (resource_other d "job_name" "time") by discriminate.
    rewrite (resource_other d "job_name" "cpus_per_task") by discriminate.
    rewrite (resource_other d "job_name" "mem") by discriminate.
    unfold resource at 1 6, get_method, or_else.
    destruct (truthy (JObj (dict_set "job_name" name d))); destruct (truthy (JObj d));
      reflexivity.
Qed.

(** X5: the memory per cpu, taken [cpus] times, never exceeds the total
    requested and falls short of it by less than [cpus]. *)
Theorem mem_per_cpu_within_total c total n :
  1 <= c -> c <= total -> total < 2 ^ 53 ->
  mem_mb_per_cpu (JInt c) (Some total) = Some n ->
  n * c <= total < (n + 1) * c.
Proof.
  intros Hc Ht Hb. rewrite (Memory.mem_per_cpu_floor c total) by lia.
  intros [= <-]. replace (Z.max 1 c) with c by lia.
  assert (1 <= total / c) by (apply Z.div_le_lower_bound; lia).
  replace (Z.max 1 (total / c)) with (total / c) by lia.
  pose proof (Z.mul_div_le total c ltac:(lia)).
  pose proof (Z.mul_succ_div_gt total c ltac:(lia)). nia.
Qed.

Lemma mem_per_cpu_within_total_witness :
  mem_mb_per_cpu (JInt 3) (Some 8192) = Some 2730 /\ 2730 * 3 <= 8192 < 2731 * 3.
Proof.
  assert (E : mem_mb_per_cpu (JInt 3) (Some 8192) = Some 2730) by (vm_compute; reflexivity).
  split; [exact E|].
  apply (mem_per_cpu_within_total 3 8192 2730); [lia | lia | reflexivity | exact E].
Defined.

End ProfileFacts.

(** ** Run selection: what is picked is queued *)

Module SelectionFacts.
Import Py SnakeD PyFacts Selection.

Lemma lowest_some queued : queued <> [] -> lowest queued <> None.
Proof.
  intros H. unfold lowest. destruct (int_keys queued).
  - destruct (hd_sorted_by_some _ (fun a b => int_key a <=? int_key b) queued H) as (r & E).
    rewrite E. discriminate.
  - destruct (hd_sorted_by_some _ String.leb queued H) as (r & E).
    rewrite E. discriminate.
Qed.

(** X6: [pick_queued_run] returns nothing exactly when no run of the
    document is a dictionary whose [state] is QUEUED, and the run it
    returns is one of the [runs] of the document whose [state] is QUEUED;
    this holds whatever else the document holds. *)
Theorem pick_queued_run_sound (status : dict) :
  (pick_queued_run status = None <->
   forall runs x r,
     dict_get "runs" status = Some (JObj runs) -> In (x, JObj r) runs ->
     dict_get "state" r <> Some (JStr "QUEUED"))
  /\ forall r, pick_queued_run status = Some r ->
       exists runs robj,
         dict_get "runs" status = Some (JObj runs)
         /\ In (r, robj) runs
         /\ get_method robj "state" (JStr EmptyString) = Ok (JStr "QUEUED").
Proof.
  split.
  - assert (Hnone : pick_queued_run status = None <-> queued_of status = []).
    { rewrite pick_unfold. destruct (queued_of status) as [|q0 q] eqn:E; [tauto|].
      cbv beta iota zeta. split; [|discriminate].
      destruct (negb _ && mem_str _ _); [discriminate|].
      intros H. exfalso. apply (lowest_some (q0 :: q)); [discriminate | exact H]. }
    rewrite Hnone. split.
    + intros Hq runs x r Hruns Hin Hs.
      assert (Hx : In x (queued_of status)).
      { apply queued_of_In. exists runs, (JObj r). split; [exact Hruns|].
        split; [exact Hin|]. exists r. split; [reflexivity | exact Hs]. }
      rewrite Hq in Hx. exact Hx.
    + intros H. destruct (queued_of status) as [|x q] eqn:E; [reflexivity|].
      exfalso. assert (Hx : In x (queued_of status)) by (rewrite E; left; reflexivity).
      apply queued_of_In in Hx. destruct Hx as (runs & robj & Hruns & Hin & r & -> & Hs).
      apply (H runs x r Hruns Hin Hs).
  - intros r H. apply Launch.pick_in_queued in H. unfold queued_of in H.
    destruct (dict_get "runs" status) as [[| | | | |runs]|]; try contradiction.
    destruct (Launch.queued_ids_in _ _ H) as (robj & state & Hin & Hs & Hq).
    exists runs, robj. split; [reflexivity|]. split; [exact Hin|].
    unfold run_state, or_else in Hs.
    destruct state; try discriminate Hq. cbn [is_str] in Hq.
    apply String.eqb_eq in Hq. subst s.
    destruct (truthy robj) eqn:Et; [exact Hs|].
    cbn [get_method dict_get] in Hs. discriminate Hs.
Qed.

End SelectionFacts.

(** ** The log scraper as the log grows *)

Module ScraperGrowth.
Import Py Scraper PyFacts ScraperFacts.

Definition newline : string := String "010" EmptyString.

Lemma lines_cons c s :
  lines (String c s) =
  if (c =? "010")%char then EmptyString :: lines s
  else if (c =? "013")%char then
         match s with
         | String "010" s' => EmptyString :: lines s'
         | _ => EmptyString :: lines s
         end
       else match lines s with
            | [] => [String c EmptyString]
            | l :: ls => String c l :: ls
            end.
Proof. reflexivity. Qed.

Lemma lines_not_nil c s : lines (String c s) <> [].
Proof.
  rewrite lines_cons. destruct (c =? "010")%char; [discriminate|].
  destruct (c =? "013")%char.
  - destruct s as [|[[] [] [] [] [] [] [] []] r]; discriminate.
  - destruct (lines s); discriminate.
Qed.

(** A line feed ends a line whatever follows it. *)
Lemma lines_after_feed a : forall b,
  lines (a ++ newline ++ b) = (lines (a ++ newline) ++ lines b)%list
  /\ forall c, lines (String c a ++ newline ++ b)
               = (lines (String c a ++ newline) ++ lines b)%list.
Proof.
  induction a as [|x a IH]; intros b.
  - split; [reflexivity|]. intros c. cbn [String.append newline].
    rewrite !lines_cons. cbn [Ascii.eqb Bool.eqb lines app].
    destruct (c =? "010")%char; [reflexivity|].
    destruct (c =? "013")%char; reflexivity.
  - destruct (IH b) as (IH1 & IH2). split; [apply IH2|].
    intros c. pose proof (IH2 x) as Hx. cbn [String.append] in Hx, IH1 |- *.
    rewrite (lines_cons c (String x (a ++ newline ++ b))).
    rewrite (lines_cons c (String x (a ++ newline))).
    destruct (c =? "010")%char; [rewrite Hx; reflexivity|].
    destruct (c =? "013")%char.
    + destruct x as [[] [] [] [] [] [] [] []]; cbv beta iota;
        try (rewrite Hx; reflexivity).
      rewrite IH1. reflexivity.
    + rewrite Hx.
      destruct (lines (String x (a ++ newline))) eqn:E; [|reflexivity].
      exfalso. apply (lines_not_nil _ _ E).
Qed.

(** X7: an id found in a log is still found when the log has grown by
    whole lines, and an id found in the new lines alone is found in the
    grown log: the ids recorded for a run are never lost as its log is
    appended to. *)
Theorem ids_kept_as_log_grows (log more : string) (n : Z) :
  (In n (extract_slurm_job_ids_from_log (Some (log ++ newline)))
   -> In n (extract_slurm_job_ids_from_log (Some (log ++ newline ++ more))))
  /\ (In n (extract_slurm_job_ids_from_log (Some more))
      -> In n (extract_slurm_job_ids_from_log (Some (log ++ newline ++ more)))).
Proof.
  rewrite !extract_In. destruct (lines_after_feed log more) as (E & _). rewrite E.
  split; intros (line & Hin & Hid); exists line; (split; [|exact Hid]);
    apply in_or_app; [left | right]; exact Hin.
Qed.

End ScraperGrowth.

(** ** The log scraper and letter case *)

Module ScraperCase.
Import Py Scraper PyFacts ScraperFacts ParserFacts ScraperGrowth.

Ltac by_cases c := destruct c as [[] [] [] [] [] [] [] []]; reflexivity.

Ltac upper_known :=
  repeat match goal with
         | |- context [upper_char (Ascii ?a ?b ?c ?d ?e ?f ?g ?h)] =>
             let v := eval vm_compute in (upper_char (Ascii a b c d e f g h)) in
             change (upper_char (Ascii a b c d e f g h)) with v
         | H : context [upper_char (Ascii ?a ?b ?c ?d ?e ?f ?g ?h)] |- _ =>
             let v := eval vm_compute in (upper_char (Ascii a b c d e f g h)) in
             change (upper_char (Ascii a b c d e f g h)) with v in H
         end.

Lemma lower_upper c : lower_char (upper_char c) = lower_char c.
Proof. by_cases c. Qed.

Lemma is_digit_upper c : is_digit (upper_char c) = is_digit c.
Proof. by_cases c. Qed.

Lemma is_word_upper c : is_word (upper_char c) = is_word c.
Proof. by_cases c. Qed.

Lemma digit_upper c : is_digit c = true -> upper_char c = c.
Proof. destruct c as [[] [] [] [] [] [] [] []]; intros H; try discriminate H; reflexivity. Qed.

Lemma feed_upper c : (upper_char c =? "010")%char = (c =? "010")%char.
Proof. by_cases c. Qed.

Lemma return_upper c : (upper_char c =? "013")%char = (c =? "013")%char.
Proof. by_cases c. Qed.

Lemma lit_ci_upper p : forall s, lit_ci p (upper s) = option_map upper (lit_ci p s).
Proof.
  induction p as [|a p IH]; intros s; [reflexivity|].
  destruct s as [|c s]; [reflexivity|]. cbn [upper lit_ci]. rewrite lower_upper.
  destruct (lower_char a =? lower_char c)%char; [apply IH | reflexivity].
Qed.

Lemma spaces1_upper s : spaces1 (upper s) = option_map upper (spaces1 s).
Proof.
  destruct s as [|c s]; [reflexivity|]. cbn [upper spaces1]. rewrite is_space_upper.
  destruct (is_space c); [|reflexivity]. cbn [option_map]. rewrite lstrip_upper. reflexivity.
Qed.

Lemma span_digits_upper s :
  span_digits (upper s) = (fst (span_digits s), upper (snd (span_digits s))).
Proof.
  induction s as [|c s IH]; [reflexivity|]. cbn [upper span_digits].
  rewrite is_digit_upper. destruct (is_digit c) eqn:E; [|reflexivity].
  rewrite IH, (digit_upper _ E). destruct (span_digits s). reflexivity.
Qed.

Lemma id_here_upper s : id_here (upper s) = id_here s.
Proof.
  unfold id_here. rewrite span_digits_upper. destruct (span_digits s) as [d r].
  cbn [fst snd]. destruct d; [reflexivity|].
  destruct r as [|c r]; [reflexivity|]. cbn [upper]. rewrite is_word_upper. reflexivity.
Qed.

Lemma words_then_id_upper ws : forall s, words_then_id ws (upper s) = words_then_id ws s.
Proof.
  induction ws as [|w ws IH]; intros s; cbn [words_then_id]; [apply id_here_upper|].
  rewrite lit_ci_upper. destruct (lit_ci w s) as [r|]; [|reflexivity].
  cbn [option_map]. rewrite spaces1_upper. destruct (spaces1 r) as [r'|]; [|reflexivity].
  apply IH.
Qed.

Lemma search_upper ws s : forall prev,
  search ws (option_map upper_char prev) (upper s) = search ws prev s.
Proof.
  induction s as [|c s IH]; intros prev.
  - cbn [upper search]. unfold match_here, word_start.
    destruct prev as [p|]; cbn [option_map]; [rewrite is_word_upper|]; reflexivity.
  - cbn [upper search]. unfold match_here, word_start.
    change (String (upper_char c) (upper s)) with (upper (String c s)).
    rewrite words_then_id_upper.
    assert (E : match option_map upper_char prev with
                | Some x => negb (is_word x) | None => true end
                = match prev with Some x => negb (is_word x) | None => true end).
    { destruct prev; cbn [option_map]; [rewrite is_word_upper|]; reflexivity. }
    rewrite E. rewrite <- (IH (Some c)). reflexivity.
Qed.

Lemma line_id_upper line : line_id (upper line) = line_id line.
Proof.
  unfold line_id, found.
  pose proof (search_upper pat_plugin line None) as E1.
  pose proof (search_upper pat_sbatch line None) as E2.
  cbn [option_map] in E1, E2. rewrite E1, E2. reflexivity.
Qed.

Lemma lines_upper s : lines (upper s) = map upper (lines s)
                      /\ forall c, lines (upper (String c s)) = map upper (lines (String c s)).
Proof.
  induction s as [|x s (IH1 & IH2)].
  - split; [reflexivity|]. intros c. cbn [upper]. rewrite !lines_cons.
    rewrite feed_upper, return_upper. cbn [lines map upper].
    destruct (c =? "010")%char; [reflexivity|]. destruct (c =? "013")%char; reflexivity.
  - split; [apply IH2|]. intros c. pose proof (IH2 x) as Hx.
    change (upper (String c (String x s)))
      with (String (upper_char c) (upper (String x s))).
    rewrite (lines_cons (upper_char c)), (lines_cons c (String x s)).
    rewrite feed_upper, return_upper, Hx.
    destruct (c =? "010")%char; [reflexivity|].
    destruct (c =? "013")%char.
    + cbn [upper]. cbn [upper] in Hx.
      destruct x as [[] [] [] [] [] [] [] []]; upper_known; cbv beta iota;
        cbn [map upper]; try reflexivity.
      rewrite IH1. reflexivity.
    + destruct (lines (String x s)); reflexivity.
Qed.

Lemma scan_upper_from ls : forall ids,
  fold_left (fun ids line => match line_id line with
                             | Some n => set_add n ids
                             | None => ids
                             end) (map upper ls) ids
  = fold_left (fun ids line => match line_id line with
                               | Some n => set_add n ids
                               | None => ids
                               end) ls ids.
Proof.
  induction ls as [|l ls IH]; intros ids; [reflexivity|].
  cbn [map fold_left]. rewrite line_id_upper. apply IH.
Qed.

(** X8: the scraper does not look at letter case: a log in capital
    letters gives the ids of the log as written. *)
Theorem scraper_ignores_case (text : string) :
  extract_slurm_job_ids_from_log (Some (upper text))
  = extract_slurm_job_ids_from_log (Some text).
Proof.
  cbn [extract_slurm_job_ids_from_log]. unfold scan.
  rewrite (proj1 (lines_upper text)), scan_upper_from. reflexivity.
Qed.

End ScraperCase.

(** ** The log scraper misses no announcement *)

Module ScraperComplete.
Import Py Scraper PyFacts ScraperFacts.

Lemma search_complete ws before : forall prev rest d,
  match_here ws (before_or before prev) rest = Some d ->
  search ws prev (before ++ rest) <> None.
Proof.
  induction before as [|c b IH]; intros prev rest d H.
  - cbn [String.append]. unfold before_or in H. cbn [last_char] in H.
    destruct rest; cbn [search]; rewrite H; discriminate.
  - cbn [String.append search].
    destruct (match_here ws prev (String c (b ++ rest))); [discriminate|].
    apply (IH (Some c) rest d). rewrite before_or_cons in H. exact H.
Qed.

(** The pattern gives no id for the line: it matches nowhere, or the
    digits of its leftmost match are more than [int] accepts. *)
Definition nothing_read (ws : list string) (line : string) : Prop :=
  (forall d, ~ announced ws line d)
  \/ exists d, first_announced ws line d /\ (4300 < String.length d)%nat.

Lemma found_nothing_read ws line : found ws line = None <-> nothing_read ws line.
Proof.
  unfold found, nothing_read. split.
  - destruct (search ws None line) as [d|] eqn:E.
    + intros Hi. right. exists d. apply search_first in E. split; [exact E|].
      destruct (int_of_group ws line d (first_is_announced _ _ _ E)) as (_ & Hv).
      rewrite Hi in Hv. destruct (Nat.leb_spec (String.length d) 4300); [discriminate | lia].
    + intros _. left. intros d (before & rest & -> & Hm).
      apply (search_complete ws before None rest d); [|exact E].
      rewrite before_or_none. exact Hm.
  - intros [H|(d & Hf & Hlen)].
    + destruct (search ws None line) as [d|] eqn:E; [|reflexivity].
      exfalso. apply (H d). apply first_is_announced, search_first. exact E.
    + destruct (int_of_group ws line d (first_is_announced _ _ _ Hf)) as (Hd & _).
      apply search_first in Hf. rewrite Hf. apply int_of_long_digits; assumption.
Qed.

(** X9: a line gives no id only when each form of announcement occurs
    nowhere in it or has, at its first occurrence, more than the 4300
    digits [int] accepts. *)
Theorem line_without_id (line : string) :
  line_id line = None <-> nothing_read pat_plugin line /\ nothing_read pat_sbatch line.
Proof.
  rewrite <- !found_nothing_read. unfold line_id.
  destruct (found pat_plugin line) as [n|].
  - split; [discriminate | intros [H _]; discriminate H].
  - split; [intros H; split; [reflexivity | exact H] | intros [_ H]; exact H].
Qed.

End ScraperComplete.

(** ** The run daemon: idling, and what it takes to launch *)

Module DaemonMore.
Import Py SnakeD Scraper Daemon PyFacts Eff DaemonFacts Launch Selection.

(** *** A job that can be launched *)

(** The status file of the job holds a document with an existing job
    directory, the run the policy picks, and the snakefile of that run on
    disk. *)
Definition launchable (w : World) (watch_dir : string) (d : dict)
  (job_dir run_id snakefile_name : string) : Prop :=
  status_files w (path_join watch_dir "status.json") = Document (JObj d)
  /\ dict_get "job_dir" d = Some (JStr job_dir)
  /\ job_dir <> EmptyString
  /\ is_dir w job_dir = true
  /\ pick_queued_run d = Some run_id
  /\ (exists runs r,
        dict_get "runs" d = Some (JObj runs)
        /\ dict_get run_id runs = Some (JObj r)
        /\ dict_get "snakefile" r = Some (JStr snakefile_name))
  /\ snakefile_name <> EmptyString
  /\ is_file w (path_join job_dir snakefile_name) = true.

Lemma handle_job_launches job_id watch_dir w d job_dir run_id snakefile_name :
  launchable w watch_dir d job_dir run_id snakefile_name ->
  handle_job job_id watch_dir w
  = launch job_id (path_join watch_dir "status.json") (JObj d) job_dir run_id
           snakefile_name w.
Proof.
  intros (Hf & Hj & Hjn & Hd & Hp & (runs & r & Hruns & Hr & Hs) & Hsn & Hfile).
  unfold handle_job. unfold bind at 1. unfold ask at 1. cbv beta iota. rewrite Hf.
  unfold load_json. unfold bind at 1. unfold bind at 1. unfold ask at 1. cbv beta iota.
  rewrite Hf. unfold Eff.ret at 1. cbv beta iota.
  unfold bind at 1. unfold lift at 1. cbn [get_method]. rewrite Hj. cbv beta iota.
  cbn [truthy]. rewrite (Finish.string_eqb_neq _ _ Hjn). cbn [negb].
  unfold bind at 1. unfold isdir_json, ask at 1. cbv beta iota. rewrite Hd. cbn [negb].
  rewrite Hp. cbv beta iota.
  unfold bind at 1. unfold lift at 1. cbn [get_method]. rewrite Hruns. cbv beta iota.
  unfold bind at 1. unfold lift at 1. cbn [get_method]. rewrite Hr. cbv beta iota.
  assert (Et : or_else (JObj r) (JObj []) = JObj r).
  { destruct r; [discriminate Hs | reflexivity]. }
  rewrite Et. unfold bind at 1. unfold lift at 1. cbn [get_method]. rewrite Hs.
  cbv beta iota. cbn [truthy]. rewrite (Finish.string_eqb_neq _ _ Hsn). cbn [negb].
  unfold bind at 1. unfold join_json, Eff.ret at 1. cbv beta iota. cbn [str].
  unfold bind at 1. unfold ask at 1. cbv beta iota. rewrite Hfile. reflexivity.
Qed.

(** X11: the policy picks runs whose id is no integer (it then orders the
    ids as texts), but such a run cannot be launched: [int(run_id)] raises
    [ValueError] out of [handle_job] before anything is written or
    started. *)
Theorem run_id_must_be_integer job_id watch_dir w d job_dir run_id snakefile_name :
  launchable w watch_dir d job_dir run_id snakefile_name ->
  int_of_str run_id = None ->
  handle_job job_id watch_dir w = (Raise ValueError, w).
Proof.
  intros Hl Hi. rewrite (handle_job_launches _ _ _ _ _ _ _ Hl).
  unfold launch, mark_running. unfold bind at 1. unfold bind at 1. unfold lift at 1.
  cbn [int_of_json]. rewrite Hi. reflexivity.
Qed.

(** A job whose only run, QUEUED, has the id [run_id]. *)
Definition one_run_world (run_id : string) : World :=
  mkWorld "/home/u" ["n"]
          (fun p => (p =? "/home/u/BA_Code/Agent/job-watch/n")%string || (p =? "/w/n")%string)
          (fun p => (p =? "/w/n/wf.smk")%string)
          (fun p => if (p =? "/home/u/BA_Code/Agent/job-watch/n/status.json")%string
                    then Document
                           (JObj [("job_dir", JStr "/w/n");
                                  ("runs", JObj [(run_id, JObj [("state", JStr "QUEUED");
                                                                ("snakefile", JStr "wf.smk")])])])
                    else Missing)
          (fun _ => "2024-01-01T00:00:00") 0 (fun _ => short_run) [].

Lemma one_run_launchable run_id :
  launchable (one_run_world run_id) "/home/u/BA_Code/Agent/job-watch/n"
             [("job_dir", JStr "/w/n");
              ("runs", JObj [(run_id, JObj [("state", JStr "QUEUED");
                                            ("snakefile", JStr "wf.smk")])])]
             "/w/n" run_id "wf.smk".
Proof.
  split; [reflexivity|]. split; [reflexivity|]. split; [discriminate|].
  split; [reflexivity|]. split.
  { unfold pick_queued_run. cbn. unfold lowest, int_keys.
    destruct (int_of_str run_id); reflexivity. }
  split.
  { do 2 eexists. split; [reflexivity|]. cbn [dict_get]. rewrite String.eqb_refl.
    split; reflexivity. }
  split; [discriminate | reflexivity].
Qed.

(** The ids [first] and [1] after the separator 0x1C. *)
Lemma run_id_must_be_integer_witness :
  handle_job "n" "/home/u/BA_Code/Agent/job-watch/n" (one_run_world "first")
  = (Raise ValueError, one_run_world "first")
  /\ handle_job "n" "/home/u/BA_Code/Agent/job-watch/n" (one_run_world (String "028" "1"))
     = (Raise ValueError, one_run_world (String "028" "1")).
Proof.
  split.
  - apply (run_id_must_be_integer "n" "/home/u/BA_Code/Agent/job-watch/n"
             (one_run_world "first") _ "/w/n" "first" "wf.smk"
             (one_run_launchable "first") eq_refl).
  - apply (run_id_must_be_integer "n" "/home/u/BA_Code/Agent/job-watch/n"
             (one_run_world (String "028" "1")) _ "/w/n" (String "028" "1") "wf.smk"
             (one_run_launchable (String "028" "1")) eq_refl).
Defined.

(** *** Polling with nothing to start *)

(** An entry of the watch directory with nothing to start: it is not a
    directory, or has no status file, or its document has an existing job
    directory and no run that is QUEUED. *)
Definition nothing_to_start (w : World) (job_id : string) : Prop :=
  let watch_dir := path_join (watch_base_dir w) job_id in
  is_dir w watch_dir = false
  \/ status_files w (path_join watch_dir "status.json") = Missing
  \/ exists d job_dir,
       status_files w (path_join watch_dir "status.json") = Document (JObj d)
       /\ dict_get "job_dir" d = Some (JStr job_dir)
       /\ job_dir <> EmptyString
       /\ is_dir w job_dir = true
       /\ queued_of d = [].

Lemma visit_idle w jobs : Forall (nothing_to_start w) jobs -> visit jobs w = (Ok tt, w).
Proof.
  induction 1 as [|job_id jobs Hj _ IH]; [reflexivity|].
  rewrite visit_cons. cbv zeta.
  destruct (is_dir w (path_join (watch_base_dir w) job_id)) eqn:Ed; [|exact IH].
  assert (Eh : handle_job job_id (path_join (watch_base_dir w) job_id) w = (Ok false, w)).
  { destruct Hj as [Hn|[Hm|(d & job_dir & Hf & Hjd & Hne & Hd & Hq)]].
    - cbv zeta in Hn. congruence.
    - cbv zeta in Hm. unfold handle_job. unfold bind at 1. unfold ask at 1.
      cbv beta iota. rewrite Hm. reflexivity.
    - cbv zeta in Hf. unfold handle_job. unfold bind at 1. unfold ask at 1.
      cbv beta iota. rewrite Hf.
      unfold load_json. unfold bind at 1. unfold bind at 1. unfold ask at 1.
      cbv beta iota. rewrite Hf. unfold Eff.ret at 1. cbv beta iota.
      unfold bind at 1. unfold lift at 1. cbn [get_method]. rewrite Hjd. cbv beta iota.
      cbn [truthy]. rewrite (Finish.string_eqb_neq _ _ Hne). cbn [negb].
      unfold bind at 1. unfold isdir_json, ask at 1. cbv beta iota. rewrite Hd. cbn [negb].
      rewrite pick_unfold, Hq. reflexivity. }
  rewrite Eh. exact IH.
Qed.

Lemma nothing_to_start_slept w e job_id :
  nothing_to_start w job_id -> nothing_to_start (with_event e w) job_id.
Proof. intros H. exact H. Qed.

(** X12: while no entry of the watch directory has anything to start,
    the daemon writes nothing, prints nothing and starts nothing: each
    cycle is a sleep of ten seconds, and the status files stay as they
    are. *)
Theorem idle_polling (n : nat) : forall w,
  Forall (nothing_to_start w) (listing w) ->
  exists w',
    cycles n w = (Ok tt, w')
    /\ trace w' = (trace w ++ repeat (Slept 10) n)%list
    /\ status_files w' = status_files w.
Proof.
  induction n as [|n IH]; intros w H.
  - exists w. split; [reflexivity|]. split; [rewrite app_nil_r|]; reflexivity.
  - cbn [cycles]. unfold poll_cycle.
    unfold bind at 1. unfold bind at 1. unfold bind at 1. unfold ask at 1. cbv beta iota.
    rewrite (visit_idle w (listing w) H). unfold emit at 1. cbv beta iota.
    destruct (IH (with_event (Slept 10) w)) as (w' & E & Hev & Hf).
    { cbn [listing with_event]. revert H. apply Forall_impl. intros job.
      apply nothing_to_start_slept. }
    exists w'. split; [exact E|]. split; [|rewrite Hf; reflexivity].
    rewrite Hev. cbn [trace with_event repeat]. rewrite <- app_assoc. reflexivity.
Qed.

Definition finished_doc : json :=
  JObj [("job_dir", JStr "/w/b"); ("active_run_id", JInt 1);
        ("runs", JObj [("1", JObj [("state", JStr "FINISHED")])])].

Definition quiet_world : World :=
  mkWorld "/home/u" ["README"; "a"; "b"]
          (fun p => (p =? "/home/u/BA_Code/Agent/job-watch/a")%string
                    || (p =? "/home/u/BA_Code/Agent/job-watch/b")%string
                    || (p =? "/w/b")%string)
          (fun _ => false)
          (fun p => if (p =? "/home/u/BA_Code/Agent/job-watch/b/status.json")%string
                    then Document finished_doc else Missing)
          (fun _ => "2024-01-01T00:00:00") 0 (fun _ => short_run) [].

Lemma idle_polling_witness :
  exists w', cycles 3 quiet_world = (Ok tt, w')
             /\ trace w' = [Slept 10; Slept 10; Slept 10]
             /\ status_files w' = status_files quiet_world.
Proof.
  apply (idle_polling 3 quiet_world).
  apply Forall_cons; [|apply Forall_cons; [|apply Forall_cons; [|apply Forall_nil]]];
    unfold nothing_to_start.
  - left. reflexivity.
  - right. left. reflexivity.
  - right. right. exists [("job_dir", JStr "/w/b"); ("active_run_id", JInt 1);
                          ("runs", JObj [("1", JObj [("state", JStr "FINISHED")])])], "/w/b".
    split; [reflexivity|]. split; [reflexivity|]. split; [discriminate|].
    split; reflexivity.
Defined.

End DaemonMore.

(** ** The run daemon: what a change of the document leaves alone *)

Module RunRecord.
Import Py SnakeD Scraper Daemon PyFacts Eff DaemonFacts Launch Finish.

Lemma at_run_frame status run_id f status' :
  at_run status run_id f = Ok status' ->
  exists r r', run_of status run_id = Ok r /\ f r = Ok r'
               /\ run_of status' run_id = Ok r'
               /\ same_but_run run_id status status'.
Proof.
  intros H. destruct (at_run_inv _ _ _ _ H) as (r & r' & Hr & Hf & Hr').
  destruct (at_run_ok _ _ _ _ _ Hr Hf) as (s' & E & _ & Hs).
  rewrite H in E. injection E as <-. exists r, r'. auto.
Qed.

(** One step of a computation that neither reads nor changes the world. *)
Ltac pure_step H x E :=
  apply bind_inv_ok in H; destruct H as (x & ?w & E & H);
  unfold lift in E; injection E as E <-.

Lemma dict_get_set_other k k' v d : k <> k' -> dict_get k' (dict_set k v d) = dict_get k' d.
Proof. intros H. rewrite dict_get_set, (string_eqb_neq _ _ H). reflexivity. Qed.

Lemma dict_get_default_other k k' v (d : dict) :
  k <> k' -> dict_get k' (if dict_mem k d then d else dict_set k v d) = dict_get k' d.
Proof. intros H. rewrite dict_get_default, (string_eqb_neq _ _ H). reflexivity. Qed.

Lemma dict_get_default_same k v (d : dict) x :
  dict_get k d = Some x -> dict_get k (if dict_mem k d then d else dict_set k v d) = Some x.
Proof. intros H. rewrite dict_get_default, String.eqb_refl, H. reflexivity. Qed.

(** X13: marking a run RUNNING sets [active_run_id] to the number of the
    run and, in the run, the state, the [started] time, the log name and
    the slurm record. Every other key of the document, every other run,
    every other key of the run and every other time stamp or log entry of
    the run is left as it was. *)
Theorem mark_running_frame status run_id log_name w doc w1 r :
  mark_running status run_id log_name w = (Ok doc, w1) ->
  run_of status run_id = Ok r ->
  (exists n, int_of_str run_id = Some n /\ getitem doc "active_run_id" = Ok (JInt n))
  /\ (forall k, k <> "active_run_id" -> k <> "runs" -> getitem doc k = getitem status k)
  /\ (forall other, other <> run_id -> run_of doc other = run_of status other)
  /\ (forall k, k <> "state" -> k <> "timestamps" -> k <> "logs" -> k <> "slurm" ->
        run_field doc run_id k = getitem r k)
  /\ (forall t k, getitem r "timestamps" = Ok t -> k <> "started" ->
        run_subfield doc run_id "timestamps" k = getitem t k)
  /\ (forall l k, getitem r "logs" = Ok l -> k <> "snakemake" ->
        run_subfield doc run_id "logs" k = getitem l k).
Proof.
  intros H Hrun. unfold mark_running in H.
  pure_step H n En. pure_step H s1 E1.
  apply bind_inv_ok in H. destruct H as (s3 & w3 & E3 & H).
  unfold set_run_field, default_run_field, set_run_subfield in H.
  pure_step H s4 E4. pure_step H s5 E5.
  apply bind_inv_ok in H. destruct H as (stamp & w6 & _ & H).
  pure_step H s6 E6. pure_step H s7 E7. pure_step H s8 E8.
  unfold lift in H. injection H as H _.
  (* the document before the run is touched *)
  apply setitem_inv in E1. destruct E1 as (d & -> & ->).
  assert (Hrun1 : run_of (JObj (dict_set "active_run_id" (JInt n) d)) run_id = Ok r).
  { unfold run_of, getitem in *. cbn [and_then] in *.
    rewrite dict_get_set_other by discriminate. exact Hrun. }
  destruct (default_run_ok w run_id _ r Hrun1) as (s3' & E3' & Hr3 & S3).
  rewrite E3 in E3'. injection E3' as <- _.
  (* the six changes of the run *)
  destruct (at_run_frame _ _ _ _ E4) as (r3 & r4 & Hr3' & F4 & Hr4 & S4).
  destruct (at_run_frame _ _ _ _ E5) as (r4' & r5 & Hr4' & F5 & Hr5 & S5).
  destruct (at_run_frame _ _ _ _ E6) as (r5' & r6 & Hr5' & F6 & Hr6 & S6).
  destruct (at_run_frame _ _ _ _ E7) as (r6' & r7 & Hr6' & F7 & Hr7 & S7).
  destruct (at_run_frame _ _ _ _ E8) as (r7' & r8 & Hr7' & F8 & Hr8 & S8).
  destruct (at_run_frame _ _ _ _ H) as (r8' & r9 & Hr8' & F9 & Hr9 & S9).
  assert (r3 = r) by congruence. assert (r4' = r4) by congruence.
  assert (r5' = r5) by congruence. assert (r6' = r6) by congruence.
  assert (r7' = r7) by congruence. assert (r8' = r8) by congruence. subst.
  apply setitem_inv in F4. destruct F4 as (e & -> & ->).
  apply setdefault_inv in F5. destruct F5 as (e4 & [= <-] & ->).
  apply update_at_inv in F6. destruct F6 as (e5 & t & t' & [= <-] & Ht & F6 & ->).
  apply setitem_inv in F6. destruct F6 as (td & -> & ->).
  apply setdefault_inv in F7. destruct F7 as (e6 & [= <-] & ->).
  apply update_at_inv in F8. destruct F8 as (e7 & l & l' & [= <-] & Hl & F8 & ->).
  apply setitem_inv in F8. destruct F8 as (ld & -> & ->).
  apply setitem_inv in F9. destruct F9 as (e8 & [= <-] & ->).
  assert (Sall : same_but_run run_id (JObj (dict_set "active_run_id" (JInt n) d)) doc)
    by eauto 10 using same_but_run_trans.
  destruct Sall as (Skeys & Sruns).
  split; [|split; [|split; [|split; [|split]]]].
  - exists n. split.
    + cbn [int_of_json] in En. destruct (int_of_str run_id); [congruence | discriminate].
    + rewrite Skeys by discriminate. unfold getitem.
      rewrite dict_get_set, String.eqb_refl. reflexivity.
  - intros k Hk1 Hk2. rewrite (Skeys k Hk2). unfold getitem.
    rewrite dict_get_set_other by congruence. reflexivity.
  - intros other Ho. rewrite (Sruns other Ho). unfold run_of, getitem. cbn [and_then].
    rewrite dict_get_set_other by discriminate. reflexivity.
  - intros k K1 K2 K3 K4. unfold run_field. rewrite Hr9. cbn [and_then getitem].
    rewrite dict_get_set_other by congruence. rewrite dict_get_set_other by congruence.
    rewrite dict_get_default_other by congruence. rewrite dict_get_set_other by congruence.
    rewrite dict_get_default_other by congruence. rewrite dict_get_set_other by congruence.
    reflexivity.
  - intros t0 k Ht0 Hk. unfold run_subfield, run_field. rewrite Hr9.
    cbn [and_then getitem]. cbn [getitem] in Ht0.
    destruct (dict_get "timestamps" e) as [x|] eqn:Ex; [|discriminate Ht0].
    injection Ht0 as ->.
    assert (Et : Some (JObj td) = Some t0).
    { rewrite <- Ht. apply dict_get_default_same.
      rewrite dict_get_set_other by discriminate. exact Ex. }
    injection Et as <-.
    rewrite dict_get_set_other by discriminate. rewrite dict_get_set_other by discriminate.
    rewrite dict_get_default_other by discriminate.
    rewrite dict_get_set, String.eqb_refl. cbn [and_then getitem].
    rewrite dict_get_set_other by congruence. reflexivity.
  - intros l0 k Hl0 Hk. unfold run_subfield, run_field. rewrite Hr9.
    cbn [and_then getitem]. cbn [getitem] in Hl0.
    destruct (dict_get "logs" e) as [x|] eqn:Ex; [|discriminate Hl0].
    injection Hl0 as ->.
    assert (El : Some (JObj ld) = Some l0).
    { rewrite <- Hl. apply dict_get_default_same.
      rewrite dict_get_set_other by discriminate.
      rewrite dict_get_default_other by discriminate.
      rewrite dict_get_set_other by discriminate. exact Ex. }
    injection El as <-.
    rewrite dict_get_set_other by discriminate.
    rewrite dict_get_set, String.eqb_refl. cbn [and_then getitem].
    rewrite dict_get_set_other by congruence. reflexivity.
Qed.

Definition two_runs_doc : json :=
  JObj [("job_dir", JStr "/w/b"); ("owner", JStr "u");
        ("runs", JObj [("1", JObj [("state", JStr "QUEUED"); ("snakefile", JStr "wf1.smk");
                                   ("timestamps", JObj [("queued", JStr "t0")])]);
                       ("2", JObj [("state", JStr "QUEUED"); ("snakefile", JStr "wf2.smk")])])].

Lemma mark_running_frame_witness :
  exists doc w1,
    mark_running two_runs_doc "1" "snakemake_run1.log" (watch_of []) = (Ok doc, w1)
    /\ getitem doc "active_run_id" = Ok (JInt 1)
    /\ getitem doc "owner" = Ok (JStr "u")
    /\ run_of doc "2" = run_of two_runs_doc "2"
    /\ run_field doc "1" "snakefile" = Ok (JStr "wf1.smk")
    /\ run_subfield doc "1" "timestamps" "queued" = Ok (JStr "t0").
Proof.
  destruct (mark_running two_runs_doc "1" "snakemake_run1.log" (watch_of []))
    as [[doc|e] w1] eqn:E; [|vm_compute in E; discriminate E].
  destruct (mark_running_frame two_runs_doc "1" "snakemake_run1.log" (watch_of []) doc w1
              _ E eq_refl) as ((n & Hn & Ha) & Hk & Ho & Hf & Ht & _).
  exists doc, w1. split; [reflexivity|].
  split; [vm_compute in Hn; injection Hn as <-; exact Ha|].
  split; [apply Hk; discriminate|]. split; [apply Ho; discriminate|].
  split; [apply Hf; discriminate|]. apply (Ht _ "queued" eq_refl). discriminate.
Defined.





(** *** What stops a launch half way *)

(** X15: when the [requested_resources] of the run is a value that is
    true but no dictionary, the launch raises [AttributeError] out of
    [ensure_profile]: by then the run has been saved as RUNNING and the
    profile directory made, and the engine is never started. *)
Theorem resources_must_be_a_dictionary
  job_id status_file status job_dir run_id snakefile_name w doc w1 v :
  mark_running status run_id ("snakemake_run" ++ run_id ++ ".log") w = (Ok doc, w1) ->
  run_field doc run_id "requested_resources" = Ok v ->
  truthy v = true ->
  (forall d, v <> JObj d) ->
  exists w',
    launch job_id status_file status job_dir run_id snakefile_name w
    = (Raise AttributeError, w')
    /\ events_since w w'
       = [Dumped (status_file ++ ".tmp") doc; Replaced (status_file ++ ".tmp") status_file;
          MadeDirs (path_join job_dir (".mcse_profile_run" ++ run_id))]
    /\ status_files w' status_file = Document doc
    /\ run_field doc run_id "state" = Ok (JStr "RUNNING").
Proof.
  intros Hm Hv Ht Hnd.
  destruct (mark_running_doc _ _ _ _ _ _ Hm) as (Hstate & _ & _ & (r & sl & ts & Hr & _) & ->).
  unfold launch. rewrite (bind_ok _ _ _ _ _ Hm).
  destruct (atomic_write_ok status_file doc (with_tick w)) as (wa & Ea & Ta & Fa & _).
  rewrite (bind_ok _ _ _ _ _ Ea).
  fold (run_of doc run_id). rewrite Hr.
  unfold lift at 1. unfold bind at 1.
  unfold run_field in Hv. rewrite Hr in Hv. cbn [and_then getitem] in Hv.
  destruct (dict_get "requested_resources" r) as [x|] eqn:Ex; [|discriminate Hv].
  injection Hv as ->.
  unfold get_method, lift at 1. unfold bind at 1. rewrite Ex.
  assert (Eo : or_else v (JObj []) = v) by (unfold or_else; rewrite Ht; reflexivity).
  rewrite Eo. unfold ensure_profile. unfold bind at 1. unfold bind at 1. unfold emit at 1.
  unfold bind at 1. unfold lift at 1.
  assert (Ep : profile_lines v = Raise AttributeError).
  { unfold profile_lines, resource. rewrite Eo.
    destruct v; try reflexivity. exfalso. apply (Hnd members). reflexivity. }
  rewrite Ep. eexists. split; [reflexivity|]. cbn [status_files with_event].
  split; [|split; [exact Fa | exact Hstate]].
  apply events_since_app. cbn [trace with_event]. rewrite Ta. cbn [trace with_tick].
  rewrite <- app_assoc. reflexivity.
Qed.

Definition text_request_doc : json :=
  JObj [("job_dir", JStr "/w/b");
        ("runs", JObj [("1", JObj [("state", JStr "QUEUED"); ("snakefile", JStr "wf1.smk");
                                   ("requested_resources", JStr "large")])])].

Lemma resources_must_be_a_dictionary_witness :
  exists w',
    launch "b" "/s/status.json" text_request_doc "/w/b" "1" "wf1.smk" (watch_of [])
    = (Raise AttributeError, w')
    /\ List.length (trace w') = 3%nat
    /\ exists doc, status_files w' "/s/status.json" = Document doc
                   /\ run_field doc "1" "state" = Ok (JStr "RUNNING").
Proof.
  destruct (mark_running text_request_doc "1" "snakemake_run1.log" (watch_of []))
    as [[doc|e] w1] eqn:E; [|vm_compute in E; discriminate E].
  assert (Hv : run_field doc "1" "requested_resources" = Ok (JStr "large")).
  { vm_compute in E. injection E as <- _. reflexivity. }
  destruct (resources_must_be_a_dictionary "b" "/s/status.json" text_request_doc "/w/b" "1"
              "wf1.smk" (watch_of []) doc w1 (JStr "large") E Hv eq_refl
              ltac:(intros d; discriminate))
    as (w' & El & Hev & Hf & Hs).
  exists w'. split; [exact El|]. split.
  - unfold events_since in Hev. cbn [trace watch_of List.length skipn] in Hev.
    rewrite Hev. reflexivity.
  - exists doc. split; [exact Hf | exact Hs].
Defined.

Lemma at_run_raises status run_id f e : run_of status run_id = Raise e -> at_run status run_id f = Raise e.
Proof.
  unfold run_of, at_run, update_at, and_then.
  destruct (getitem status "runs") as [runs|e0]; [|intros [= <-]; reflexivity].
  intros H. rewrite H. reflexivity.
Qed.

(** X16: the last step needs the status file and the run in it. When the
    file is gone or cannot be parsed once the engine has ended, or the
    document read no longer holds the run, the step raises and nothing is
    written: the run keeps the state it has on disk. *)
Theorem finalize_needs_the_run status_file run_id code o w :
  let files := interference o (status_files w) in
  (files status_file = Missing ->
   finalize status_file run_id code o w = (Raise FileNotFoundError, with_files files w))
  /\ (files status_file = Unparsable ->
      finalize status_file run_id code o w = (Raise JSONDecodeError, with_files files w))
  /\ (forall doc e, files status_file = Document doc -> run_of doc run_id = Raise e ->
        finalize status_file run_id code o w = (Raise e, with_files files w))
  /\ trace (with_files files w) = trace w.
Proof.
  intros files. subst files.
  assert (Hload : forall x,
            interference o (status_files w) status_file = x ->
            finalize status_file run_id code o w
            = match x with
              | Missing => (Raise FileNotFoundError, with_files (interference o (status_files w)) w)
              | Unparsable => (Raise JSONDecodeError, with_files (interference o (status_files w)) w)
              | Document doc =>
                  match at_run doc run_id
                          (fun r => setitem r "state"
                                      (JStr (if code =? 0 then "FINISHED" else "FAILED"))) with
                  | Raise e => (Raise e, with_files (interference o (status_files w)) w)
                  | Ok _ => finalize status_file run_id code o w
                  end
              end).
  { intros x Hx. destruct x as [| |doc].
    - unfold finalize, meet.
      unfold bind at 1. unfold bind at 1. unfold ask, set_files. cbv beta iota.
      unfold load_json. unfold bind at 1. unfold bind at 1. unfold ask at 1. cbv beta iota.
      cbn [status_files with_files]. rewrite Hx. reflexivity.
    - unfold finalize, meet.
      unfold bind at 1. unfold bind at 1. unfold ask, set_files. cbv beta iota.
      unfold load_json. unfold bind at 1. unfold bind at 1. unfold ask at 1. cbv beta iota.
      cbn [status_files with_files]. rewrite Hx. reflexivity.
    - destruct (at_run doc run_id _) as [s|e] eqn:Ea; [reflexivity|].
      unfold finalize, meet.
      unfold bind at 1. unfold bind at 1. unfold ask, set_files. cbv beta iota.
      unfold load_json. unfold bind at 1. unfold bind at 1. unfold ask at 1. cbv beta iota.
      cbn [status_files with_files]. rewrite Hx. unfold Eff.ret at 1. cbv beta iota.
      unfold set_run_field. unfold bind at 1. unfold lift at 1. rewrite Ea. reflexivity. }
  split; [intros H; apply (Hload _ H)|].
  split; [intros H; apply (Hload _ H)|].
  split; [|reflexivity].
  intros doc e H Hr. rewrite (Hload _ H), (at_run_raises _ _ _ _ Hr). reflexivity.
Qed.

End RunRecord.

(** ** The agent: checksums, idle turns, a missing HOME, the post hook *)

Module AgentFacts.
Import Py Agent PyFacts Prober FreshJob Eff.

(** X17: a checksum request is served by running [hash.sh] of the
    functions directory on the arguments of the request followed by its
    id, and the checksum reported is the output of that run, with its line
    ends translated to line feeds, stripped of the white space around it;
    a reply with [Bad_request] runs and reports nothing. *)
Theorem checksum_workflow env d :
  checksum_job env = JObj d ->
  (dict_mem "Bad_request" d = true -> checksum_step env = (Ok tt, env))
  /\ (forall args argv function_id home_dir,
        dict_mem "Bad_request" d = false ->
        dict_get "args" d = Some (JArr args) ->
        strings args = Ok argv ->
        dict_get "function_id" d = Some function_id ->
        home env = Some home_dir ->
        home_dir <> EmptyString ->
        let cmd := ((home_dir ++ "/functions/hash.sh")%string
                    :: argv ++ [str function_id])%list in
        fst (checksum_step env) = Ok tt
        /\ events_of checksum_step env
           = [Executed cmd;
              ChecksumPut (str function_id)
                          (strip (universal_newlines (stdout_of env cmd)))]).
Proof.
  intros Hjob. split.
  - intros Hb. unfold checksum_step, bind, ask. rewrite Hjob, Hb. reflexivity.
  - intros args argv function_id home_dir Hb Hargs Hstr Hid Hhome Hne cmd.
    unfold events_of, checksum_step, bind, ask. rewrite Hjob, Hb. cbn [negb].
    unfold calculate_checksum, home_or_exit, bind, ask, lift, getitem, raise, ret.
    rewrite Hhome. destruct (String.eqb_spec home_dir EmptyString) as [->|_]; [congruence|].
    rewrite Hargs, Hid. cbn [unpack].
    assert (Es : strings (JStr (home_dir ++ "/functions/hash.sh")
                          :: args ++ [JStr (str function_id)])%list = Ok cmd).
    { change (strings (JStr ?s :: ?l)) with (and_then (strings l) (fun r => Ok (s :: r))).
      rewrite (strings_app args argv [JStr (str function_id)] [str function_id] Hstr eq_refl).
      reflexivity. }
    rewrite Es. unfold run, update_checksum, emit, bind, ask.
    cbn [home checksum_job new_job stdout_of post_hook_exists trace fst snd].
    split; [reflexivity|]. rewrite <- app_assoc, skipn_app_exact. reflexivity.
Qed.

Definition checksum_env : Env :=
  mkEnv (Some "/home/u")
        (JObj [("function_id", JInt 12); ("args", JArr [JStr "data.csv"])])
        (JObj [("Bad_request", JStr "no job")])
        (fun _ => "  9f86d081" ++ String "013" (String "010" "884c7d65  ")
                  ++ String "013" (String "010" EmptyString))%string false [].

Lemma checksum_workflow_witness :
  events_of main_loop checksum_env
  = [Executed ["/home/u/functions/hash.sh"; "data.csv"; "12"];
     ChecksumPut "12" ("9f86d081" ++ String "010" "884c7d65")].
Proof.
  destruct (checksum_workflow checksum_env _ eq_refl) as (_ & H).
  destruct (H [JStr "data.csv"] ["data.csv"] (JInt 12) "/home/u" eq_refl eq_refl eq_refl
              eq_refl eq_refl ltac:(discriminate)) as (_ & Hev).
  vm_compute in Hev. vm_compute. exact Hev.
Defined.

(** X18: a turn of the agent with nothing to do has no effect: with
    [Bad_request] in both replies of the queue, [main_loop] returns and
    nothing is run or reported. A job reply that carries [type] ends the
    agent: nothing is run or reported for the job, and, when the checksum
    reply carried [Bad_request], nothing at all in this turn. *)
Theorem agent_idle_turn env :
  (forall c j, checksum_job env = JObj c -> dict_mem "Bad_request" c = true ->
               new_job env = JObj j -> dict_mem "Bad_request" j = true ->
               main_loop env = (Ok tt, env))
  /\ (forall c j, checksum_job env = JObj c -> dict_mem "Bad_request" c = true ->
                  new_job env = JObj j -> dict_mem "Bad_request" j = false ->
                  dict_mem "type" j = true ->
                  main_loop env = (Raise SystemExit, env))
  /\ (forall j, new_job env = JObj j -> dict_mem "Bad_request" j = false ->
                dict_mem "type" j = true ->
                job_step env = (Raise SystemExit, env)).
Proof.
  split; [| split].
  - intros c j Hc Hcb Hj Hjb. unfold main_loop, checksum_step, job_step, bind, ask, lift.
    cbv beta iota. rewrite Hc, Hcb. cbn [negb]. unfold ret. cbv beta iota.
    rewrite Hj. cbn [contains_key]. rewrite Hjb. reflexivity.
  - intros c j Hc Hcb Hj Hjb Ht. unfold main_loop, checksum_step, job_step, bind, ask, lift.
    cbv beta iota. rewrite Hc, Hcb. cbn [negb]. unfold ret. cbv beta iota.
    rewrite Hj. cbn [contains_key]. rewrite Hjb, Ht. reflexivity.
  - intros j Hj Hb Ht. unfold job_step, bind, ask, lift.
    rewrite Hj. cbn [contains_key]. rewrite Hb, Ht. reflexivity.
Qed.

(** [HOME] is not set, or is empty. *)
Definition homeless (env : Env) : Prop := home env = None \/ home env = Some EmptyString.

Lemma home_or_exit_homeless env : homeless env -> home_or_exit env = (Raise SystemExit, env).
Proof.
  unfold home_or_exit, bind, ask. intros [H|H]; rewrite H; reflexivity.
Qed.

(** X19: without [HOME] the agent runs no script and reports nothing: a
    checksum request ends it at once, so that the job queue is not even
    looked at, and so does a job that has not been submitted yet. *)
Theorem agent_needs_home env :
  homeless env ->
  (forall c, checksum_job env = JObj c -> dict_mem "Bad_request" c = false ->
             main_loop env = (Raise SystemExit, env))
  /\ (forall j, new_job env = JObj j -> dict_mem "Bad_request" j = false ->
                dict_mem "type" j = false -> dict_get "slurm_id" j = Some JNull ->
                job_step env = (Raise SystemExit, env)).
Proof.
  intros Hh. split.
  - intros c Hc Hb. unfold main_loop, checksum_step, calculate_checksum.
    unfold bind at 1. unfold bind at 1. unfold ask at 1. cbv beta iota.
    rewrite Hc, Hb. cbn [negb]. unfold bind at 1. unfold bind at 1.
    rewrite (home_or_exit_homeless env Hh). reflexivity.
  - intros j Hj Hb Ht Hs. unfold job_step, run_fresh_job, execute_function.
    unfold bind at 1. unfold ask at 1. cbv beta iota. rewrite Hj.
    unfold bind at 1. unfold lift at 1. cbn [contains_key]. rewrite Hb. cbv beta iota.
    unfold bind at 1. unfold lift at 1. rewrite Ht. cbv beta iota.
    unfold bind at 1. unfold lift at 1. cbn [getitem]. rewrite Hs. cbv beta iota.
    cbn [is_none negb]. unfold bind at 1. unfold bind at 1.
    rewrite (home_or_exit_homeless env Hh). reflexivity.
Qed.

Definition homeless_env : Env :=
  mkEnv None
        (JObj [("Bad_request", JStr "nothing")])
        (JObj [("name", JStr "init"); ("args", JArr []); ("function_id", JInt 3);
               ("slurm_id", JNull)])
        (fun _ => "77") false [].

Lemma agent_needs_home_witness :
  main_loop homeless_env = (Raise SystemExit, homeless_env).
Proof.
  destruct (agent_needs_home homeless_env (or_introl eq_refl)) as (_ & H).
  pose proof (H _ eq_refl eq_refl eq_refl eq_refl) as Hj.
  assert (Ec : checksum_step homeless_env = (Ok tt, homeless_env)) by reflexivity.
  unfold main_loop. rewrite (DaemonFacts.bind_ok _ _ _ _ _ Ec). exact Hj.
Defined.

(** The call of the post hook. *)
Definition hook_call (home_dir : string) (function_id : json) : list string :=
  [Daemon.path_join (Daemon.path_join home_dir ".viking") "post_slurm.sh"; str function_id].

Definition is_report (function_id slurm_id : json) (e : event) : Prop :=
  exists state, e = SlurmStatePut (str function_id) state slurm_id.

(** X20: a job that has a cluster id is probed, never run again: the
    agent calls [sacct] for that id and ends. While the job is pending or
    running it does nothing more. Once the job has ended it runs the post
    hook, if there is one, exactly once and before any report, and then
    reports states for this job and this id only. *)
Theorem recorded_job_is_probed env j slurm_id function_id home_dir :
  new_job env = JObj j ->
  dict_mem "Bad_request" j = false ->
  dict_mem "type" j = false ->
  dict_get "slurm_id" j = Some slurm_id ->
  slurm_id <> JNull ->
  dict_get "function_id" j = Some function_id ->
  home env = Some home_dir ->
  fst (job_step env) = Raise SystemExit
  /\ exists reports,
       events_of job_step env
       = (Executed (sacct_argv slurm_id)
          :: if in_flight env slurm_id then []
             else (if post_hook_exists env then [Executed (hook_call home_dir function_id)]
                   else []) ++ reports)%list
       /\ Forall (is_report function_id slurm_id) reports
       /\ (in_flight env slurm_id = false -> reports <> []).
Proof.
  intros Hj Hb Ht Hs Hn Hf Hh.
  assert (En : is_none slurm_id = false) by (destruct slurm_id; try reflexivity; congruence).
  unfold events_of, job_step, bind, ask, lift. rewrite Hj. cbn [contains_key].
  rewrite Hb, Ht. unfold getitem. rewrite Hs, Hf, En. cbn [negb].
  unfold in_flight, accounting_text, sacct_argv, hook_call,
    control_slurm_job_state, run_post_slurm_command, run, update_slurm_id_running,
    bind, ask, emit, ret, raise. cbn [home stdout_of post_hook_exists trace fst snd].
  rewrite Hh.
  set (t := remove_all "State" _).
  destruct (contains "PENDING" t || contains "RUNNING" t).
  - split; [reflexivity|]. exists []. cbn [snd trace]. rewrite skipn_app_exact.
    split; [reflexivity|]. split; [constructor | discriminate].
  - destruct (post_hook_exists env);
      destruct (contains "CANCELLED" t), (contains "FAILED" t),
        (String.length (remove_all "COMPLETED" t) =? 0)%nat;
      cbn [snd fst trace home stdout_of post_hook_exists];
      (split; [reflexivity|]); eexists;
      (split; [rewrite <- ?app_assoc, skipn_app_exact; cbn [app]; reflexivity|]);
      (split; [repeat constructor; eexists; reflexivity | discriminate]).
Qed.

Definition ended_job_env : Env :=
  mkEnv (Some "/home/u") (JObj [("Bad_request", JStr "none")])
        (JObj [("name", JStr "init"); ("args", JArr []); ("function_id", JInt 3);
               ("slurm_id", JInt 500)])
        (fun _ => "State" ++ newline ++ "COMPLETED" ++ newline)%string true [].

Lemma recorded_job_is_probed_witness :
  events_of main_loop ended_job_env
  = [Executed ["sacct"; "--jobs=500"; "--format=State"; "--parsable2"];
     Executed ["/home/u/.viking/post_slurm.sh"; "3"];
     SlurmStatePut "3" "COMPLETED" (JInt 500)].
Proof.
  destruct (recorded_job_is_probed ended_job_env _ (JInt 500) (JInt 3) "/home/u"
              eq_refl eq_refl eq_refl eq_refl ltac:(discriminate) eq_refl eq_refl)
    as (_ & reports & Hev & _).
  vm_compute. reflexivity.
Defined.

(** X21: the output [Submitted batch job] followed by something that is
    no integer is taken for a submission, and [int] then raises
    [ValueError]: the script has been run, and nothing is reported for the
    job. *)
Theorem acknowledgement_needs_integer env d name args argv function_id home_dir :
  new_job env = JObj d ->
  dict_mem "Bad_request" d = false ->
  dict_mem "type" d = false ->
  dict_get "slurm_id" d = Some JNull ->
  dict_get "name" d = Some (JStr name) ->
  dict_get "args" d = Some (JArr args) ->
  strings args = Ok argv ->
  dict_get "function_id" d = Some function_id ->
  home env = Some home_dir ->
  home_dir <> EmptyString ->
  let cmd := command name argv function_id home_dir in
  let out := stdout_of env cmd in
  startswith out "Submitted batch job" = true ->
  int_of_str (drop 20 (rstrip_char "010" out)) = None ->
  fst (job_step env) = Raise ValueError
  /\ events_of job_step env = [Executed cmd].
Proof.
  intros job_is has_work well_formed no_cluster_id has_name has_args args_are_text has_id
         home_set home_not_empty cmd out Hstart Hint.
  split.
  2:{ rewrite (job_step_fresh env d name args argv function_id home_dir) by assumption.
      fold cmd. fold out. cbv zeta. rewrite Hstart, orb_true_r, Hint. reflexivity. }
  unfold job_step, bind, ask, lift. rewrite job_is.
  unfold contains_key. rewrite has_work, well_formed.
  unfold getitem. rewrite no_cluster_id. cbn [is_none negb].
  unfold run_fresh_job, execute_function, home_or_exit, bind, ask, lift, getitem, raise, ret.
  rewrite home_set.
  destruct (String.eqb_spec home_dir EmptyString) as [->|_]; [congruence|].
  rewrite has_name, has_args, has_id. cbn [script_path unpack].
  assert (Es : strings (JStr (home_dir ++ "/functions/" ++ name ++ ".sh")
                        :: args ++ [JStr (str function_id)])%list = Ok cmd).
  { change (strings (JStr ?s :: ?l)) with (and_then (strings l) (fun r => Ok (s :: r))).
    rewrite (strings_app args argv [JStr (str function_id)] [str function_id]
               args_are_text eq_refl). reflexivity. }
  rewrite Es. unfold run, emit, bind, ask.
  cbn [home checksum_job new_job stdout_of post_hook_exists trace fst snd].
  fold out. rewrite Hstart, orb_true_r. unfold int_of_json. rewrite Hint. reflexivity.
Qed.

(** The script prints [text] and a line feed. *)
Definition script_env (text : string) : Env :=
  mkEnv (Some "/home/u") (JObj [("Bad_request", JStr "none")])
        (JObj [("name", JStr "init"); ("args", JArr [JStr "wf1.smk"]); ("function_id", JInt 9);
               ("slurm_id", JNull)])
        (fun _ => text ++ newline)%string false [].

Definition cluster_note : string := "Submitted batch job 77531 on cluster hpc".

(** An id followed by the separator 0x1C, which [int] does not skip. *)
Definition separated_id : string := "Submitted batch job 5" ++ String "028" EmptyString.

Lemma acknowledgement_needs_integer_witness :
  (fst (job_step (script_env cluster_note)) = Raise ValueError
   /\ events_of job_step (script_env cluster_note)
      = [Executed ["/home/u/functions/init.sh"; "wf1.smk"; "9"]])
  /\ (fst (job_step (script_env separated_id)) = Raise ValueError
      /\ events_of job_step (script_env separated_id)
         = [Executed ["/home/u/functions/init.sh"; "wf1.smk"; "9"]]).
Proof.
  split.
  - apply (acknowledgement_needs_integer (script_env cluster_note) _ "init" [JStr "wf1.smk"]
             ["wf1.smk"] (JInt 9) "/home/u" eq_refl eq_refl eq_refl eq_refl eq_refl eq_refl
             eq_refl eq_refl eq_refl ltac:(discriminate) eq_refl eq_refl).
  - apply (acknowledgement_needs_integer (script_env separated_id) _ "init" [JStr "wf1.smk"]
             ["wf1.smk"] (JInt 9) "/home/u" eq_refl eq_refl eq_refl eq_refl eq_refl eq_refl
             eq_refl eq_refl eq_refl ltac:(discriminate) eq_refl eq_refl).
Defined.

Lemma strings_raise l : forall v,
  In v l -> (forall s, v <> JStr s) -> strings l = Raise TypeError.
Proof.
  induction l as [|x l IH]; intros v Hin Hv; [contradiction|].
  destruct Hin as [->|Hin].
  - destruct v; try reflexivity. exfalso. apply (Hv s). reflexivity.
  - destruct x; try reflexivity. cbn [strings]. rewrite (IH v Hin Hv). reflexivity.
Qed.

Lemma strings_raise_app l1 l2 v :
  In v l1 -> (forall s, v <> JStr s) -> strings (l1 ++ l2) = Raise TypeError.
Proof. intros Hin Hv. apply (strings_raise _ v); [apply in_or_app; left; exact Hin | exact Hv]. Qed.

(** X22: the arguments of a job have to be texts. A job with an argument
    that is a number, a list or any other value is not run: the start of
    the script raises [TypeError], and nothing is reported for the job. *)
Theorem arguments_must_be_text env d name args function_id home_dir v :
  new_job env = JObj d ->
  dict_mem "Bad_request" d = false ->
  dict_mem "type" d = false ->
  dict_get "slurm_id" d = Some JNull ->
  dict_get "name" d = Some (JStr name) ->
  dict_get "args" d = Some (JArr args) ->
  dict_get "function_id" d = Some function_id ->
  home env = Some home_dir ->
  home_dir <> EmptyString ->
  In v args ->
  (forall s, v <> JStr s) ->
  job_step env = (Raise TypeError, env).
Proof.
  intros job_is has_work well_formed no_cluster_id has_name has_args has_id
         home_set home_not_empty Hin Hv.
  unfold job_step, bind, ask, lift. rewrite job_is.
  unfold contains_key. rewrite has_work, well_formed.
  unfold getitem. rewrite no_cluster_id. cbn [is_none negb].
  unfold run_fresh_job, execute_function, home_or_exit, bind, ask, lift, getitem, raise, ret.
  rewrite home_set.
  destruct (String.eqb_spec home_dir EmptyString) as [->|_]; [congruence|].
  rewrite has_name, has_args, has_id. cbn [script_path unpack].
  change (strings (JStr ?s :: ?l)) with (and_then (strings l) (fun r => Ok (s :: r))).
  rewrite (strings_raise_app args [JStr (str function_id)] v Hin Hv). reflexivity.
Qed.

Definition numeric_argument_env : Env :=
  mkEnv (Some "/home/u") (JObj [("Bad_request", JStr "none")])
        (JObj [("name", JStr "init"); ("args", JArr [JStr "wf1.smk"; JInt 4]);
               ("function_id", JInt 9); ("slurm_id", JNull)])
        (fun _ => "77531") false [].

Lemma arguments_must_be_text_witness :
  job_step numeric_argument_env = (Raise TypeError, numeric_argument_env).
Proof.
  apply (arguments_must_be_text numeric_argument_env _ "init" [JStr "wf1.smk"; JInt 4]
           (JInt 9) "/home/u" (JInt 4) eq_refl eq_refl eq_refl eq_refl eq_refl eq_refl
           eq_refl eq_refl ltac:(discriminate) ltac:(right; left; reflexivity)
           ltac:(intros s; discriminate)).
Defined.

End AgentFacts.
